(** * Polysport: order-lifecycle reconciliation, exits, admission queue, price cache

    A shallow embedding of the stateful core of the trading bot:
    - [OrderMonitor]  (src/monitor/order_monitor.py)   the tracked-order ledger,
    - [PriceCache]    (src/storage/price_cache.py)     the write-once price store,
    - [MarketQueue]   (src/storage/market_queue.py)    the admission queue,
    - [TradeExecutor] (src/execution/trade_executor.py) reconciliation and exits.

    Conventions of the embedding.
    - A Python [Decimal] is modelled by its value, a rational [Q].  Its
      products, quotients and the difference of the exit rule are rounded
      to the 28 digits of the decimal context ([Decimal.mul],
      [Decimal.div], [Decimal.sub]); the sums and differences of share
      sizes are exact, which they are in Python as long as they fit 28
      digits.  The [str]/[Decimal] round trip that the JSON stores perform
      on prices and sizes is the identity on values.
    - A Python [float] is modelled by its value too: [Float.round] is the
      conversion to binary64 and the rounding of its operations,
      [Float.repr] the value [str] prints.  The exit rule computes on the
      cent values as floats.
    - A timestamp ([datetime.now()], ISO strings written by the code itself) is
      an instant [Z] in microseconds; the clock reading is an explicit argument.
    - The ledger is a Python [dict] whose iteration order is observable
      (insertion order), so it is an association list with [dict] semantics
      ([PyDict]).  The cache and the queue are only looked up, inserted into
      and filtered, so they are [gmap]s.
    - Writing the JSON files ([_save_*]) is not modelled: the claims are about
      the in-memory stores. *)

From Stdlib Require Import QArith Qabs Lqa.
From stdpp Require Import gmap strings list fin_maps.

(** ** Decimals *)

(** [a < b] on decimals, as a boolean. *)
Definition Qltb (a b : Q) : bool := negb (Qle_bool b a).

(** The dust threshold [Decimal("0.1")] used by both passes. *)
Definition dust : Q := 1 # 10.

(** Python truthiness of an optional string ([None] and [''] are falsy). *)
Definition truthy_str (s : option string) : bool :=
  match s with
  | Some s => negb (bool_decide (s = EmptyString))
  | None => false
  end.

(** Python truthiness of an optional number ([None] and zero are falsy). *)
Definition truthy_num (x : option Q) : bool :=
  match x with
  | Some x => negb (Qeq_bool x 0)
  | None => false
  end.

Definition truthy_int (x : option Z) : bool :=
  match x with
  | Some x => negb (x =? 0)%Z
  | None => false
  end.

(** ** Python numbers: Decimal and float *)

(** Rounding a rational to a number of significant digits in a base.  It
    gives the rounding of the Decimal context (base 10, 28 digits,
    ROUND_HALF_EVEN) and of binary64 floats (base 2, 53 bits, ties to
    even). *)
Module Rounding.

Inductive mode := Nearest | Down | Up.

(** Number of digits of a positive integer in the base. *)
Fixpoint digits_from (fuel : nat) (base n : Z) : Z :=
  match fuel with
  | O => 0
  | S fuel =>
      if (n <? base)%Z then 1 else (1 + digits_from fuel base (n / base))%Z
  end.

Definition digits (base n : Z) : Z :=
  digits_from (S (Z.to_nat (Z.log2 n))) base n.

(** [a / d / base ^ e] as a fraction of integers. *)
Definition scaled (base e a d : Z) : Z * Z :=
  if (0 <=? e)%Z then (a, d * base ^ e)%Z else (a * base ^ (- e), d)%Z.

(** The exponent [e] of the last kept digit of [a / d]:
    [base ^ (prec - 1) <= a / d / base ^ e < base ^ prec]. *)
Definition exponent (base prec a d : Z) : Z :=
  let k := (digits base a - digits base d)%Z in
  let '(num, den) := scaled base k a d in
  ((if (den <=? num)%Z then k + 1 else k) - prec)%Z.

(** The integer next to [num / den] in the given direction; [Nearest]
    takes the even one of two integers that are equally near. *)
Definition to_integer (m : mode) (num den : Z) : Z :=
  let q := (num / den)%Z in
  let r := (num mod den)%Z in
  match m with
  | Down => q
  | Up => if (r =? 0)%Z then q else (q + 1)%Z
  | Nearest =>
      if (2 * r <? den)%Z then q
      else if (den <? 2 * r)%Z then (q + 1)%Z
      else if Z.even q then q else (q + 1)%Z
  end.

(** [x] with [prec] significant digits; [Down] is towards zero and [Up]
    away from it.  A number that has no more digits is returned as it is,
    any other in lowest terms. *)
Definition round (m : mode) (base prec : Z) (x : Q) : Q :=
  let a := Z.abs (Qnum x) in
  let d := Zpos (Qden x) in
  if (a =? 0)%Z then x
  else
    let e := exponent base prec a d in
    let '(num, den) := scaled base e a d in
    let c := (Z.sgn (Qnum x) * to_integer m num den)%Z in
    let rounded :=
      Qred (if (0 <=? e)%Z then inject_Z (c * base ^ e)
            else c # Z.to_pos (base ^ (- e))) in
    if Qeq_bool rounded x then x else rounded.

End Rounding.

(** [decimal.Decimal] in the default context.  A Decimal is modelled by
    its value.  Products and quotients are rounded to 28 significant
    digits, as the context does; the bot's own data exceed 28 digits there
    (3.5 / 0.43), and so is the difference the exit rule takes on a price.
    The sums and differences of share sizes in the exit pass are taken
    exact: sizes are read from floats of at most 17 digits, and their sums
    and differences are exact in the context as long as they fit its 28
    digits, which is assumed of the sizes a venue reports. *)
Module Decimal.

Definition prec : Z := 28.

Definition round (x : Q) : Q := Rounding.round Rounding.Nearest 10 prec x.

(** [a * b] *)
Definition mul (a b : Q) : Q := round (a * b).

(** [a / b], for [b] not zero (a zero divisor raises). *)
Definition div (a b : Q) : Q := round (a / b).

(** [a - b], rounded: the exit rule subtracts two cents from a price that
    comes from a float and can be of any magnitude. *)
Definition sub (a b : Q) : Q := round (a - b).

End Decimal.

(** Python floats: binary64, modelled by their values.  The exponent range
    is not modelled: the values are taken between the smallest normal
    number and the largest finite one in magnitude, or zero. *)
Module Float.

(** The float nearest to a number: [float(x)] of a Decimal or an int, and
    the rounding of every float operation. *)
Definition round (x : Q) : Q := Rounding.round Rounding.Nearest 2 53 x.

(** [a - b] on floats *)
Definition sub (a b : Q) : Q := round (a - b).

(** The search of [repr]: the decimals of [n] significant digits next to
    [x] on either side, for [n] from 1 on, until one of them reads back as
    [x]; of two that do, the nearer. *)
Fixpoint shortest (fuel : nat) (n : Z) (x : Q) : Q :=
  match fuel with
  | O => Rounding.round Rounding.Nearest 10 17 x
  | S fuel =>
      let lo := Rounding.round Rounding.Down 10 n x in
      let hi := Rounding.round Rounding.Up 10 n x in
      let lo_reads_back := Qeq_bool (round lo) x in
      let hi_reads_back := Qeq_bool (round hi) x in
      if lo_reads_back && hi_reads_back then
        if Qle_bool (Qabs (x - lo)) (Qabs (hi - x)) then lo else hi
      else if lo_reads_back then lo
      else if hi_reads_back then hi
      else shortest fuel (n + 1) x
  end.

(** [Decimal(str(x))]: the value of the shortest decimal string that reads
    back as the float [x]. *)
Definition repr (x : Q) : Q := shortest 16 1 x.

End Float.

(** ** Insertion-ordered dictionaries with string keys *)

Module PyDict.
Section dict.
Context {V : Type}.

(** [d.get(k)] *)
Fixpoint getitem (k : string) (d : list (string * V)) : option V :=
  match d with
  | [] => None
  | (k', v) :: d' => if decide (k = k') then Some v else getitem k d'
  end.

(** [d[k] = v]: an existing key keeps its place, a new key goes last. *)
Fixpoint setitem (k : string) (v : V) (d : list (string * V)) : list (string * V) :=
  match d with
  | [] => [(k, v)]
  | (k', v') :: d' =>
      if decide (k = k') then (k, v) :: d' else (k', v') :: setitem k v d'
  end.

(** In-place mutation of the value stored under [k] ([d[k][field] = x]). *)
Fixpoint modify (f : V -> V) (k : string) (d : list (string * V)) : list (string * V) :=
  match d with
  | [] => []
  | (k', v) :: d' =>
      if decide (k = k') then (k', f v) :: d' else (k', v) :: modify f k d'
  end.

(** [del d[k]] *)
Fixpoint delitem (k : string) (d : list (string * V)) : list (string * V) :=
  match d with
  | [] => []
  | (k', v) :: d' =>
      if decide (k = k') then delitem k d' else (k', v) :: delitem k d'
  end.

Definition keys (d : list (string * V)) : list string := d.*1.
Definition values (d : list (string * V)) : list V := d.*2.

(** [k in d] *)
Definition contains (k : string) (d : list (string * V)) : bool :=
  match getitem k d with Some _ => true | None => false end.
End dict.
End PyDict.

(** ** OrderMonitor: the tracked-order ledger *)

Module OrderMonitor.

Record TrackedOrder := {
  order_id : string;
  token_id : string;
  market_slug : string;
  side : string;
  price : Q;
  size : Q;
  entry_number : option Z;
  strong_team_price_cents : option Q;
  created_at : Z;
  last_seen : Z;
  disappeared_count : Z;
  status : string;
  recreated_as : option string
}.

Definition with_last_seen (t : Z) (o : TrackedOrder) : TrackedOrder :=
  {| order_id := order_id o; token_id := token_id o; market_slug := market_slug o;
     side := side o; price := price o; size := size o;
     entry_number := entry_number o;
     strong_team_price_cents := strong_team_price_cents o;
     created_at := created_at o; last_seen := t;
     disappeared_count := disappeared_count o; status := status o;
     recreated_as := recreated_as o |}.

Definition with_disappeared_count (n : Z) (o : TrackedOrder) : TrackedOrder :=
  {| order_id := order_id o; token_id := token_id o; market_slug := market_slug o;
     side := side o; price := price o; size := size o;
     entry_number := entry_number o;
     strong_team_price_cents := strong_team_price_cents o;
     created_at := created_at o; last_seen := last_seen o;
     disappeared_count := n; status := status o;
     recreated_as := recreated_as o |}.

Definition with_status (s : string) (o : TrackedOrder) : TrackedOrder :=
  {| order_id := order_id o; token_id := token_id o; market_slug := market_slug o;
     side := side o; price := price o; size := size o;
     entry_number := entry_number o;
     strong_team_price_cents := strong_team_price_cents o;
     created_at := created_at o; last_seen := last_seen o;
     disappeared_count := disappeared_count o; status := s;
     recreated_as := recreated_as o |}.

Definition with_recreated_as (n : string) (o : TrackedOrder) : TrackedOrder :=
  {| order_id := order_id o; token_id := token_id o; market_slug := market_slug o;
     side := side o; price := price o; size := size o;
     entry_number := entry_number o;
     strong_team_price_cents := strong_team_price_cents o;
     created_at := created_at o; last_seen := last_seen o;
     disappeared_count := disappeared_count o; status := status o;
     recreated_as := Some n |}.

(** [self.tracked_orders] *)
Definition tracked_orders := list (string * TrackedOrder).

(** [add_order]: builds the record and assigns it under [order_id],
    whatever was stored there before. *)
Definition add_order (oid tok slug sd : string) (pr sz : Q)
    (entry : option Z) (strong : option Q) (now : Z)
    (tracked : tracked_orders) : tracked_orders :=
  let order_data :=
    {| order_id := oid; token_id := tok; market_slug := slug; side := sd;
       price := pr; size := sz; entry_number := entry;
       strong_team_price_cents := strong;
       created_at := now; last_seen := now;
       disappeared_count := 0; status := "active";
       recreated_as := None |} in
  PyDict.setitem oid order_data tracked.

(** The mutation [update_order_status] performs on the stored record. *)
Definition observe (still_exists : bool) (current_status : option string)
    (now : Z) (order : TrackedOrder) : TrackedOrder :=
  if still_exists then
    let order := with_last_seen now order in
    let order := with_disappeared_count 0 order in
    if truthy_str current_status
    then with_status (default EmptyString current_status) order
    else order
  else
    let order := with_disappeared_count (disappeared_count order + 1) order in
    if (1 <=? disappeared_count order)%Z
    then with_status "disappeared" order
    else order.

(** [update_order_status(order_id, still_exists, current_status=None)] *)
Definition update_order_status (oid : string) (still_exists : bool)
    (current_status : option string) (now : Z)
    (tracked : tracked_orders) : tracked_orders :=
  if PyDict.contains oid tracked
  then PyDict.modify (observe still_exists current_status now) oid tracked
  else tracked.

(** [get_disappeared_orders] *)
Definition get_disappeared_orders (tracked : tracked_orders) : list TrackedOrder :=
  filter (fun o => status o = "disappeared") (PyDict.values tracked).

(** [mark_order_filled] *)
Definition mark_order_filled (oid : string) (tracked : tracked_orders) : tracked_orders :=
  if PyDict.contains oid tracked
  then PyDict.modify (with_status "filled") oid tracked
  else tracked.

(** [mark_order_recreated] *)
Definition mark_order_recreated (old_order_id new_order_id : string)
    (tracked : tracked_orders) : tracked_orders :=
  if PyDict.contains old_order_id tracked
  then PyDict.modify
         (fun o => with_recreated_as new_order_id (with_status "recreated" o))
         old_order_id tracked
  else tracked.

(** [remove_order] *)
Definition remove_order (oid : string) (tracked : tracked_orders) : tracked_orders :=
  if PyDict.contains oid tracked then PyDict.delitem oid tracked else tracked.

(** [order_data['status'] in ['active', 'disappeared']] *)
Definition is_live (o : TrackedOrder) : bool :=
  bool_decide (status o = "active") || bool_decide (status o = "disappeared").

(** [get_active_orders_by_market] *)
Definition get_active_orders_by_market (slug : string)
    (tracked : tracked_orders) : list TrackedOrder :=
  filter (fun o => market_slug o = slug /\ is_live o = true) (PyDict.values tracked).

(** Microseconds in a day, for [timedelta(days=days_old)]. *)
Definition day : Z := 86400000000.

(** [cleanup_old_orders(days_old)] *)
Definition cleanup_old_orders (days_old : Z) (now : Z)
    (tracked : tracked_orders) : tracked_orders :=
  let cutoff_date := (now - days_old * day)%Z in
  let orders_to_remove :=
    (filter (fun kv => (created_at kv.2 < cutoff_date)%Z /\ is_live kv.2 = false)
            tracked).*1 in
  foldl (fun t oid => PyDict.delitem oid t) tracked orders_to_remove.

(** A call of [update_order_status], with its arguments. *)
Record Observation := {
  obs_order_id : string;
  obs_still_exists : bool;
  obs_current_status : option string;
  obs_time : Z
}.

Definition apply_observation (tracked : tracked_orders) (c : Observation)
    : tracked_orders :=
  update_order_status (obs_order_id c) (obs_still_exists c) (obs_current_status c)
                      (obs_time c) tracked.

(** The call is for another order, or it reports the order present and
    passes no status. *)
Definition sees_or_skips (oid : string) (c : Observation) : Prop :=
  obs_order_id c <> oid
  \/ (obs_still_exists c = true /\ truthy_str (obs_current_status c) = false).

(** Every record is stored under its own order id, as [add_order] does. *)
Definition well_keyed (tracked : tracked_orders) : Prop :=
  Forall (fun kv => order_id kv.2 = kv.1) tracked.

(** The shape of a ledger that is a Python dict filled by [add_order]:
    distinct keys, every record under its own order id. *)
Definition shaped (tracked : tracked_orders) : Prop :=
  NoDup (PyDict.keys tracked) /\ well_keyed tracked.

(** [get_markets_with_orders] *)
Definition get_markets_with_orders (tracked : tracked_orders) : gset string :=
  list_to_set
    (market_slug <$> filter (fun o => is_live o = true) (PyDict.values tracked)).

(** [should_check_before_match]: within five minutes before the match. *)
Definition should_check_before_match (match_start_time now : Z) : bool :=
  let time_to_match := (match_start_time - now)%Z in
  (0 <=? time_to_match)%Z && (time_to_match <=? 5 * 60000000)%Z.

End OrderMonitor.

(** ** PriceCache: the write-once price store *)

Module PriceCache.

(** What [cache_price] stores under a key. *)
Record CachedPrice := {
  price : Q;
  team_name : string;
  cached_at : Z
}.

(** [f"{market_slug}:{token_id}"] *)
Definition cache_key (market_slug token_id : string) : string :=
  market_slug +:+ ":" +:+ token_id.

(** [get_cached_price] *)
Definition get_cached_price (market_slug token_id : string)
    (cached_prices : gmap string CachedPrice) : option Q :=
  match cached_prices !! cache_key market_slug token_id with
  | Some entry => Some (price entry)
  | None => None
  end.

(** [cache_price]: stores only when the key is not cached yet. *)
Definition cache_price (market_slug token_id : string) (pr : Q)
    (team : string) (now : Z)
    (cached_prices : gmap string CachedPrice) : gmap string CachedPrice :=
  let key := cache_key market_slug token_id in
  match cached_prices !! key with
  | None =>
      <[ key := {| price := pr; team_name := team; cached_at := now |} ]> cached_prices
  | Some _ => cached_prices
  end.

(** A later call of [cache_price], with its arguments. *)
Record Put := {
  put_slug : string;
  put_token : string;
  put_price : Q;
  put_team : string;
  put_time : Z
}.

Definition apply_put (cached_prices : gmap string CachedPrice) (c : Put)
    : gmap string CachedPrice :=
  cache_price (put_slug c) (put_token c) (put_price c) (put_team c) (put_time c)
              cached_prices.

(** [key.startswith(f"{market_slug}:")] *)
Definition of_market (market_slug key : string) : bool :=
  String.prefix (market_slug +:+ ":") key.

(** [has_cached_price] *)
Definition has_cached_price (market_slug : string)
    (cached_prices : gmap string CachedPrice) : bool :=
  existsb (fun kv => of_market market_slug kv.1) (map_to_list cached_prices).

(** [clear_market]: the keys of the market are collected, then deleted. *)
Definition clear_market (market_slug : string)
    (cached_prices : gmap string CachedPrice) : gmap string CachedPrice :=
  let keys_to_remove :=
    filter (fun key => of_market market_slug key = true)
           (map_to_list cached_prices).*1 in
  foldl (fun m key => delete key m) cached_prices keys_to_remove.

End PriceCache.

(** ** MarketQueue: the admission queue *)

Module MarketQueue.

Record QueuedMarket := {
  slug : string;
  entry_time : string;
  match_start_time : string;
  discovered_at : Z;
  status : string;
  entered_at : option Z
}.

(** [add_pending_market]: returns at once when the slug is queued. *)
Definition add_pending_market (s entry start : string) (now : Z)
    (pending_markets : gmap string QueuedMarket) : gmap string QueuedMarket :=
  match pending_markets !! s with
  | Some _ => pending_markets
  | None =>
      <[ s := {| slug := s; entry_time := entry; match_start_time := start;
                 discovered_at := now; status := "pending";
                 entered_at := None |} ]> pending_markets
  end.

(** [has_market] *)
Definition has_market (s : string)
    (pending_markets : gmap string QueuedMarket) : bool :=
  bool_decide (is_Some (pending_markets !! s)).

(** [mark_market_entered] *)
Definition mark_market_entered (s : string) (now : Z)
    (pending_markets : gmap string QueuedMarket) : gmap string QueuedMarket :=
  alter (fun m => {| slug := slug m; entry_time := entry_time m;
                     match_start_time := match_start_time m;
                     discovered_at := discovered_at m; status := "entered";
                     entered_at := Some now |}) s pending_markets.

(** [remove_market] *)
Definition remove_market (s : string)
    (pending_markets : gmap string QueuedMarket) : gmap string QueuedMarket :=
  delete s pending_markets.

(** Microseconds in a minute, for [timedelta(minutes=...)]. *)
Definition minute : Z := 60000000.

Section entry_window.
(** [datetime.fromisoformat], read as a UTC instant.  [None] stands for
    every way the source's [try] block fails on a timestamp: the string
    does not parse, or it parses to a naive datetime, which cannot be
    compared with the timezone-aware [now]. *)
Variable fromisoformat : string -> option Z.
Variable grace_period_minutes : Z.

(** The test of [get_markets_ready_for_entry] on one queue entry. *)
Definition ready_for_entry (now : Z) (market_data : QueuedMarket) : bool :=
  if bool_decide (status market_data = "pending") then
    match fromisoformat (entry_time market_data),
          fromisoformat (match_start_time market_data) with
    | Some entry, Some start =>
        let grace_end := (entry + grace_period_minutes * minute)%Z in
        (entry <=? now)%Z && (now <=? grace_end)%Z && (now <? start)%Z
    | _, _ => false
    end
  else false.

(** [get_markets_ready_for_entry] *)
Definition get_markets_ready_for_entry (now : Z)
    (pending_markets : gmap string QueuedMarket) : list string :=
  (filter (fun kv => ready_for_entry now kv.2 = true)
          (map_to_list pending_markets)).*1.
End entry_window.

(** [get_match_start_time] *)
Definition get_match_start_time (s : string)
    (pending_markets : gmap string QueuedMarket) : option string :=
  match pending_markets !! s with
  | Some market_data => Some (match_start_time market_data)
  | None => None
  end.

(** Microseconds in an hour, for [timedelta(hours=1)]. *)
Definition hour : Z := 3600000000.

Section expiry.
(** As in [entry_window]: [None] is a timestamp on which the [try] block of
    [cleanup_expired_markets] fails (it does not parse, it is naive, or
    adding the hour to it overflows), and such a market is removed. *)
Variable fromisoformat : string -> option Z.

(** The test of [cleanup_expired_markets] on one queue entry. *)
Definition expired (now : Z) (market_data : QueuedMarket) : bool :=
  match fromisoformat (match_start_time market_data) with
  | Some start =>
      let expiry_time := (start + hour)%Z in
      (expiry_time <? now)%Z
  | None => true
  end.

(** [cleanup_expired_markets] *)
Definition cleanup_expired_markets (now : Z)
    (pending_markets : gmap string QueuedMarket) : gmap string QueuedMarket :=
  let expired_slugs :=
    (filter (fun kv => expired now kv.2 = true) (map_to_list pending_markets)).*1 in
  foldl (fun m s => delete s m) pending_markets expired_slugs.
End expiry.

(** [get_queue_status]: the counters ['pending'], ['entered'], ['total'].
    A status is counted when it is one of these three keys, so a market
    whose status is the string 'total' adds to the total. *)
Record QueueStatus := {
  count_pending : nat;
  count_entered : nat;
  count_total : nat
}.

Definition get_queue_status (pending_markets : gmap string QueuedMarket)
    : QueueStatus :=
  foldl (fun counts market_data =>
           if bool_decide (status market_data = "pending") then
             {| count_pending := S (count_pending counts);
                count_entered := count_entered counts;
                count_total := count_total counts |}
           else if bool_decide (status market_data = "entered") then
             {| count_pending := count_pending counts;
                count_entered := S (count_entered counts);
                count_total := count_total counts |}
           else if bool_decide (status market_data = "total") then
             {| count_pending := count_pending counts;
                count_entered := count_entered counts;
                count_total := S (count_total counts) |}
           else counts)
        {| count_pending := 0; count_entered := 0;
           count_total := size pending_markets |}
        (map_to_list pending_markets).*2.

End MarketQueue.

(** ** MarketScanner: the price steps of the scan *)

Module MarketScanner.

(** [str] of a token id that may be [None], as the f-string of the cache
    key formats it. *)
Definition py_str (token_id : option string) : string :=
  default "None" token_id.

(** The PRICE CACHING STRATEGY block of [scan_lol_markets]: the prices the
    scan goes on with, and the cache afterwards.  A market that has any
    cached price is read from the cache (a token without an entry gives
    [None]); otherwise the current prices are used, and cached when both
    tokens are known and the match starts within 0 to 180 minutes. *)
Definition lock_prices (market_slug : string)
    (token_id_a token_id_b : option string) (outcome_a outcome_b : string)
    (current_a current_b : Q) (time_until_start_minutes : Q) (now : Z)
    (cached_prices : gmap string PriceCache.CachedPrice)
    : (option Q * option Q) * gmap string PriceCache.CachedPrice :=
  if truthy_str token_id_a && PriceCache.has_cached_price market_slug cached_prices
  then
    ((PriceCache.get_cached_price market_slug (py_str token_id_a) cached_prices,
      PriceCache.get_cached_price market_slug (py_str token_id_b) cached_prices),
     cached_prices)
  else
    ((Some current_a, Some current_b),
     if truthy_str token_id_a && truthy_str token_id_b
        && Qle_bool 0 time_until_start_minutes
        && Qle_bool time_until_start_minutes 180
     then
       PriceCache.cache_price market_slug (py_str token_id_b) current_b outcome_b now
         (PriceCache.cache_price market_slug (py_str token_id_a) current_a outcome_a
            now cached_prices)
     else cached_prices).

(** What the price filters keep of a market: which outcome is the strong
    team and the two prices. *)
Record Ranked := {
  strong_team_idx : nat;
  weak_team_idx : nat;
  strong_team_price : Q;
  weak_team_price : Q;
  total_price : Q
}.

(** Filters 1 to 3 of [scan_lol_markets] and the choice of the strong team.
    [None] is a market the scan skips; a missing price makes the
    arithmetic raise, which the [except] clause turns into a skip too. *)
Definition rank_teams (max_total_price min_strong_team_price : Q)
    (prices : option Q * option Q) : option Ranked :=
  match prices with
  | (Some price_a, Some price_b) =>
      let total := (price_a * 100 + price_b * 100)%Q in
      let max_price := if Qle_bool price_b price_a then price_a else price_b in
      let min_price := if Qle_bool price_a price_b then price_a else price_b in
      if Qltb max_total_price total then None
      else if Qltb (max_price * 100) min_strong_team_price then None
      else if Qle_bool (99 # 100) max_price && Qle_bool min_price (1 # 100) then None
      else if (Qeq_bool price_a 0 || Qeq_bool price_a 1)
              && (Qeq_bool price_b 0 || Qeq_bool price_b 1) then None
      else if Qltb price_b price_a then
        Some {| strong_team_idx := 0; weak_team_idx := 1;
                strong_team_price := price_a; weak_team_price := price_b;
                total_price := total |}
      else
        Some {| strong_team_idx := 1; weak_team_idx := 0;
                strong_team_price := price_b; weak_team_price := price_a;
                total_price := total |}
  | _ => None
  end.

End MarketScanner.

(** ** EntryStrategy: the price-tier table *)

Module EntryStrategy.

(** [STRATEGY_TABLE], in the order of the dict: (min_price, max_price) and
    (entry1, entry2), all in cents. *)
Definition STRATEGY_TABLE : list ((Q * Q) * (Z * Z)) :=
  [ ((0 # 1, 60 # 1), (25, 22)%Z);
    ((61 # 1, 6399 # 100), (41, 26)%Z);
    ((64 # 1, 6699 # 100), (43, 30)%Z);
    ((67 # 1, 6999 # 100), (44, 32)%Z);
    ((70 # 1, 7499 # 100), (51, 37)%Z);
    ((75 # 1, 7999 # 100), (57, 41)%Z);
    ((80 # 1, 100 # 1), (67, 54)%Z) ].

(** The dict [get_entry_prices] returns. *)
Record EntryConfig := {
  entry1_cents : Z;
  entry1_price : Q;
  entry2_cents : Z;
  entry2_price : Q;
  entry_size_usd : Q
}.

(** The loop of [get_entry_prices] over the table: the first range that
    contains the price. *)
Fixpoint find_entries (table : list ((Q * Q) * (Z * Z)))
    (strong_team_price_cents : Q) : option (Z * Z) :=
  match table with
  | [] => None
  | ((min_price, max_price), entries) :: table =>
      if Qle_bool min_price strong_team_price_cents
         && Qle_bool strong_team_price_cents max_price
      then Some entries
      else find_entries table strong_team_price_cents
  end.

(** [get_entry_prices] *)
Definition get_entry_prices (size_usd : Q) (strong_team_price_cents : Q)
    : option EntryConfig :=
  match find_entries STRATEGY_TABLE strong_team_price_cents with
  | Some (entry1, entry2) =>
      Some {| entry1_cents := entry1;
              entry1_price := inject_Z entry1 / 100;
              entry2_cents := entry2;
              entry2_price := inject_Z entry2 / 100;
              entry_size_usd := size_usd |}
  | None => None
  end.

(** A team of a scanned market: keys ['name'], ['price'], ['price_cents'],
    ['token_id']. *)
Record Team := {
  name : string;
  price : Q;
  price_cents : Q;
  token_id : string
}.

(** A market in scanner format, by the keys the bot and the strategy
    read. *)
Record Market := {
  question : string;
  slug : string;
  entry_time : string;
  match_start_time : string;
  strong_team : Team;
  weak_team : Team
}.

(** An order specification of [calculate_orders]. *)
Record OrderSpec := {
  order_type : string;
  spec_token_id : string;
  team_name : string;
  spec_price : Q;
  spec_price_cents : Z;
  amount_usd : Q;
  entry_number : Z;
  market_question : string;
  market_slug : string
}.

(** [calculate_orders] *)
Definition calculate_orders (size_usd : Q) (market : Market)
    : option (list OrderSpec) :=
  let strong_price_cents := price_cents (strong_team market) in
  match get_entry_prices size_usd strong_price_cents with
  | None => None
  | Some entry_config =>
      let first_order team :=
        {| order_type := "limit_buy";
           spec_token_id := token_id team; team_name := name team;
           spec_price := entry1_price entry_config;
           spec_price_cents := entry1_cents entry_config;
           amount_usd := size_usd; entry_number := 1;
           market_question := question market; market_slug := slug market |} in
      let second_order team :=
        {| order_type := "limit_buy";
           spec_token_id := token_id team; team_name := name team;
           spec_price := entry2_price entry_config;
           spec_price_cents := entry2_cents entry_config;
           amount_usd := size_usd; entry_number := 2;
           market_question := question market; market_slug := slug market |} in
      if Qle_bool strong_price_cents 60
      then Some [first_order (strong_team market); second_order (weak_team market)]
      else Some [first_order (strong_team market); second_order (strong_team market)]
  end.



(** [get_take_profit_price] (deprecated in the source). *)
Definition get_take_profit_price (entry_price target_profit_pct : Q) : Q :=
  let tp_price := (entry_price * (1 + target_profit_pct))%Q in
  if Qltb (99 # 100) tp_price then 99 # 100 else tp_price.

(** [should_skip_market] *)
Definition should_skip_market (market_slug : string)
    (already_profitable_markets : gset string) : bool :=
  bool_decide (market_slug ∈ already_profitable_markets).

End EntryStrategy.

(** ** TradeExecutor: reconciliation and take-profit passes *)

Module TradeExecutor.

(** *** The venue, as the executor sees it *)

(** Result of a call to the client: a value, or an exception. *)
Inductive Outcome (A : Type) :=
| Returned (a : A)
| Raised.
Arguments Returned {A} a.
Arguments Raised {A}.

(** An order submission: [place_limit_buy(token_id, price, amount_usdc)]
    or [place_limit_sell(token_id, price, size)]. *)
Inductive Request :=
| LimitBuy (token_id : string) (price amount_usdc : Q)
| LimitSell (token_id : string) (price size : Q).

(** What the executor asked the venue, newest first.  The response of a
    submission is [Some id] when it carries an ['orderID'], [None] when it
    is [None] or has no such key. *)
Inductive Event :=
| BalanceQuery (token_id : string) (result : Outcome Q)
| Placement (request : Request) (response : Outcome (option string)).

(** The client.  Its answers may depend on everything asked so far. *)
Record Client := {
  get_token_balance : list Event -> string -> Outcome Q;
  place_limit : list Event -> Request -> Outcome (option string)
}.

(** An entry of [get_open_orders()]: keys ['id'], ['asset_id'], ['side'],
    ['original_size']. *)
Record OpenOrder := {
  oo_id : string;
  oo_asset_id : string;
  oo_side : string;
  oo_original_size : Q
}.

(** An entry of [get_all_positions()] as the exit pass reads it: keys
    ['asset'], ['size'], ['slug'], ['outcome'], ['avgPrice']. *)
Record Position := {
  pos_asset : string;
  pos_size : Q;
  pos_slug : string;
  pos_outcome : string;
  pos_avgPrice : Q
}.

(** *** place_entry_orders *)

(** The body of the loop of [place_entry_orders].  The submission comes
    first; when it is accepted the id is appended to the result and only
    then the size [amount_usd / price] is computed, a Decimal division,
    which raises on a zero price: the [except] clause then moves on with
    the id reported but not tracked. *)
Definition place_entry_order (client : Client) (now : Z)
    (strong_team_price_cents : option Q)
    (st : list string * OrderMonitor.tracked_orders * list Event)
    (order_spec : EntryStrategy.OrderSpec)
    : list string * OrderMonitor.tracked_orders * list Event :=
  let '(placed_order_ids, tracked, history) := st in
  let request :=
    LimitBuy (EntryStrategy.spec_token_id order_spec)
             (EntryStrategy.spec_price order_spec)
             (EntryStrategy.amount_usd order_spec) in
  let response := place_limit client history request in
  let history := Placement request response :: history in
  match response with
  | Returned (Some order_id) =>
      let placed_order_ids := placed_order_ids ++ [order_id] in
      if Qeq_bool (EntryStrategy.spec_price order_spec) 0
      then (placed_order_ids, tracked, history)
      else
        let size :=
          Decimal.div (EntryStrategy.amount_usd order_spec)
                      (EntryStrategy.spec_price order_spec) in
        (placed_order_ids,
         OrderMonitor.add_order order_id
           (EntryStrategy.spec_token_id order_spec)
           (EntryStrategy.market_slug order_spec) "BUY"
           (EntryStrategy.spec_price order_spec) size
           (Some (EntryStrategy.entry_number order_spec))
           strong_team_price_cents now tracked,
         history)
  | _ => (placed_order_ids, tracked, history)
  end.

(** [place_entry_orders]: the ids placed, the ledger and the history. *)
Definition place_entry_orders (client : Client) (now : Z)
    (orders : list EntryStrategy.OrderSpec) (strong_team_price_cents : option Q)
    (tracked : OrderMonitor.tracked_orders) (history : list Event)
    : list string * OrderMonitor.tracked_orders * list Event :=
  foldl (place_entry_order client now strong_team_price_cents)
        ([], tracked, history) orders.

(** The submission [place_entry_orders] makes for a specification. *)
Definition entry_request (order_spec : EntryStrategy.OrderSpec) : Request :=
  LimitBuy (EntryStrategy.spec_token_id order_spec)
           (EntryStrategy.spec_price order_spec)
           (EntryStrategy.amount_usd order_spec).

(** The record [place_entry_orders] has [add_order] store for an accepted
    specification. *)
Definition entry_record (strong_team_price_cents : option Q) (now : Z)
    (order_id : string) (order_spec : EntryStrategy.OrderSpec)
    : OrderMonitor.TrackedOrder :=
  {| OrderMonitor.order_id := order_id;
     OrderMonitor.token_id := EntryStrategy.spec_token_id order_spec;
     OrderMonitor.market_slug := EntryStrategy.market_slug order_spec;
     OrderMonitor.side := "BUY";
     OrderMonitor.price := EntryStrategy.spec_price order_spec;
     OrderMonitor.size :=
       Decimal.div (EntryStrategy.amount_usd order_spec)
                   (EntryStrategy.spec_price order_spec);
     OrderMonitor.entry_number := Some (EntryStrategy.entry_number order_spec);
     OrderMonitor.strong_team_price_cents := strong_team_price_cents;
     OrderMonitor.created_at := now; OrderMonitor.last_seen := now;
     OrderMonitor.disappeared_count := 0;
     OrderMonitor.status := "active";
     OrderMonitor.recreated_as := None |}.

(** The submissions the venue accepted, newest first: request and id. *)
Fixpoint accepted (history : list Event) : list (Request * string) :=
  match history with
  | [] => []
  | Placement request (Returned (Some order_id)) :: h =>
      (request, order_id) :: accepted h
  | _ :: h => accepted h
  end.

(** *** check_and_recreate_orders *)

Record Recon := {
  order_monitor : OrderMonitor.tracked_orders;
  market_queue : option (gmap string MarketQueue.QueuedMarket);
  events : list Event;
  recreated_count : nat;
  skipped_ended_markets : nat
}.

(** [{order.get('id') for order in open_orders if order.get('id')}] *)
Definition open_order_ids (open_orders : list OpenOrder) : gset string :=
  list_to_set (filter (fun i => i <> EmptyString) (oo_id <$> open_orders)).

(** The first loop: every tracked order is observed against the snapshot,
    without a [current_status]. *)
Definition observe_all (now : Z) (ids : gset string)
    (tracked : OrderMonitor.tracked_orders) : OrderMonitor.tracked_orders :=
  foldl (fun t oid =>
           OrderMonitor.update_order_status oid (bool_decide (oid ∈ ids)) None now t)
        tracked (PyDict.keys tracked).

(** The batch pre-check.  [is_market_active] is asked once per distinct
    market of the pass, so a function of the slug gives its answers. *)
Definition ended_markets (market_scanner : option (string -> bool))
    (disappeared : list OrderMonitor.TrackedOrder) : gset string :=
  match market_scanner with
  | Some is_market_active =>
      let unique_markets : gset string :=
        list_to_set (OrderMonitor.market_slug <$> disappeared) in
      filter (fun s => is_market_active s = false) unique_markets
  | None => ∅
  end.

(** The submission that recreates an order.  For a buy the amount is the
    Decimal product [price * size]. *)
Definition recreate_request (order_data : OrderMonitor.TrackedOrder) : Request :=
  let token_id := OrderMonitor.token_id order_data in
  let price := OrderMonitor.price order_data in
  let size := OrderMonitor.size order_data in
  if bool_decide (OrderMonitor.side order_data = "BUY")
  then
    let amount_usd := Decimal.mul price size in
    LimitBuy token_id price amount_usd
  else LimitSell token_id price size.

(** Side, price and size of a submission.  For a buy the client derives
    the size as [float(amount_usdc / price)]. *)
Definition request_side (r : Request) : string :=
  match r with LimitBuy _ _ _ => "BUY" | LimitSell _ _ _ => "SELL" end.

Definition request_token (r : Request) : string :=
  match r with LimitBuy t _ _ => t | LimitSell t _ _ => t end.

Definition request_price (r : Request) : Q :=
  match r with LimitBuy _ p _ => p | LimitSell _ p _ => p end.


(** The body of the loop over the disappeared orders, with its
    [try ... except Exception: continue]. *)
Definition recreate_one (client : Client) (now : Z) (ended : gset string)
    (s : Recon) (order_data : OrderMonitor.TrackedOrder) : Recon :=
  let market_slug := OrderMonitor.market_slug order_data in
  if bool_decide (market_slug ∈ ended) then
    (* CHECK 1 *)
    {| order_monitor :=
         OrderMonitor.remove_order (OrderMonitor.order_id order_data) (order_monitor s);
       market_queue := MarketQueue.remove_market market_slug <$> market_queue s;
       events := events s;
       recreated_count := recreated_count s;
       skipped_ended_markets := S (skipped_ended_markets s) |}
  else
    (* CHECK 2 *)
    let token_id := OrderMonitor.token_id order_data in
    let balance := get_token_balance client (events s) token_id in
    let events1 := BalanceQuery token_id balance :: events s in
    match balance with
    | Raised =>
        {| order_monitor := order_monitor s; market_queue := market_queue s;
           events := events1; recreated_count := recreated_count s;
           skipped_ended_markets := skipped_ended_markets s |}
    | Returned existing_balance =>
        if Qltb dust existing_balance then
          {| order_monitor :=
               OrderMonitor.mark_order_filled (OrderMonitor.order_id order_data)
                                              (order_monitor s);
             market_queue := market_queue s;
             events := events1; recreated_count := recreated_count s;
             skipped_ended_markets := skipped_ended_markets s |}
        else
          (* Recreate the order *)
          let request := recreate_request order_data in
          let response := place_limit client events1 request in
          let events2 := Placement request response :: events1 in
          match response with
          | Returned (Some new_order_id) =>
              let tracked :=
                OrderMonitor.add_order new_order_id token_id market_slug
                  (OrderMonitor.side order_data) (OrderMonitor.price order_data)
                  (OrderMonitor.size order_data)
                  (OrderMonitor.entry_number order_data) None now
                  (order_monitor s) in
              let tracked :=
                OrderMonitor.mark_order_recreated
                  (OrderMonitor.order_id order_data) new_order_id tracked in
              {| order_monitor := tracked; market_queue := market_queue s;
                 events := events2; recreated_count := S (recreated_count s);
                 skipped_ended_markets := skipped_ended_markets s |}
          | _ =>
              {| order_monitor := order_monitor s; market_queue := market_queue s;
                 events := events2; recreated_count := recreated_count s;
                 skipped_ended_markets := skipped_ended_markets s |}
          end
    end.

(** The loop over the disappeared orders.  In the source the list holds the
    records stored in the ledger themselves; the loop reads only their order
    id, token, market, side, price, size and entry number, which no
    operation of the ledger mutates in place, so the records as listed are
    what each iteration sees. *)
Definition recreate_all (client : Client) (now : Z) (ended : gset string)
    (disappeared : list OrderMonitor.TrackedOrder) (s : Recon) : Recon :=
  foldl (recreate_one client now ended) s disappeared.

(** [check_and_recreate_orders].  [open_orders] is the snapshot that
    [get_open_orders()] returned; [history] is what was asked of the venue
    before the pass.  The returned count is [recreated_count]. *)
Definition check_and_recreate_orders (client : Client)
    (market_scanner : option (string -> bool)) (now : Z)
    (open_orders : list OpenOrder)
    (tracked : OrderMonitor.tracked_orders)
    (queue : option (gmap string MarketQueue.QueuedMarket))
    (history : list Event) : Recon :=
  let tracked := observe_all now (open_order_ids open_orders) tracked in
  let disappeared := OrderMonitor.get_disappeared_orders tracked in
  let start := {| order_monitor := tracked; market_queue := queue;
                  events := history; recreated_count := 0;
                  skipped_ended_markets := 0 |} in
  match disappeared with
  | [] => start
  | _ => recreate_all client now (ended_markets market_scanner disappeared)
                      disappeared start
  end.

(** *** check_filled_positions_and_set_tp *)

(** An entry of the [price_cache] dict the pass receives, by the keys the
    pass reads: ['price'], ['strong_team_price_cents'],
    ['filled_entry_numbers'].  [pd_other_keys] tells whether the entry has
    any other key (an empty dict is falsy in Python). *)
Record PriceData := {
  pd_price : option Q;
  pd_strong_team_price_cents : option Q;
  pd_filled_entry_numbers : option (list Z);
  pd_other_keys : bool
}.



(** Truthiness of [start_price_data]: a non-empty dict. *)
Definition has_data (d : option PriceData) : bool :=
  match d with
  | Some d =>
      bool_decide (is_Some (pd_price d))
      || bool_decide (is_Some (pd_strong_team_price_cents d))
      || bool_decide (is_Some (pd_filled_entry_numbers d))
      || pd_other_keys d
  | None => false
  end.

Record Exit := {
  x_order_monitor : OrderMonitor.tracked_orders;
  x_events : list Event;
  existing_sell_orders : gmap string Q;
  tp_placed : nat
}.

(** The map [token_id -> total sell size] built from the open orders. *)
Definition build_existing_sell_orders (all_open_orders : list OpenOrder)
    : gmap string Q :=
  foldl (fun m order =>
           if bool_decide (oo_side order = "SELL") then
             let token_id := oo_asset_id order in
             <[ token_id := (default 0 (m !! token_id) + oo_original_size order)%Q ]> m
           else m)
        ∅ all_open_orders.

(** [place_take_profit_orders]: one sell submission, tracked on success;
    any exception gives [None]. *)
Definition place_take_profit_orders (client : Client) (now : Z)
    (token_id market_slug : string) (tp_price position_size : Q)
    (tracked : OrderMonitor.tracked_orders) (history : list Event)
    : option string * OrderMonitor.tracked_orders * list Event :=
  let request := LimitSell token_id tp_price position_size in
  let response := place_limit client history request in
  let history := Placement request response :: history in
  match response with
  | Returned (Some order_id) =>
      (Some order_id,
       OrderMonitor.add_order order_id token_id market_slug "SELL"
         tp_price position_size None None now tracked,
       history)
  | _ => (None, tracked, history)
  end.

(** The fallback of STEP 4: the start price reconstructed from the tracked
    orders of the market.  The loop keeps the last truthy strong-team
    price, the price of the last BUY order on the token, and the set of
    truthy entry numbers of those BUY orders. *)
Definition scan_tracked (token_id : string)
    (acc : option Q * option Q * gset Z) (order_data : OrderMonitor.TrackedOrder)
    : option Q * option Q * gset Z :=
  let '(strong_team_price_cents, entry_price, filled_entry_numbers) := acc in
  let strong_team_price_cents :=
    if truthy_num (OrderMonitor.strong_team_price_cents order_data)
    then OrderMonitor.strong_team_price_cents order_data
    else strong_team_price_cents in
  if bool_decide (OrderMonitor.token_id order_data = token_id)
     && bool_decide (OrderMonitor.side order_data = "BUY")
  then
    (strong_team_price_cents,
     Some (OrderMonitor.price order_data),
     match OrderMonitor.entry_number order_data with
     | Some n => if truthy_int (Some n) then {[ n ]} ∪ filled_entry_numbers
                 else filled_entry_numbers
     | None => filled_entry_numbers
     end)
  else (strong_team_price_cents, entry_price, filled_entry_numbers).

Definition start_price_from_tracking (market_slug token_id : string)
    (tracked : OrderMonitor.tracked_orders) : option PriceData :=
  let tracked_orders := OrderMonitor.get_active_orders_by_market market_slug tracked in
  let '(strong_team_price_cents, entry_price, filled_entry_numbers) :=
    foldl (scan_tracked token_id) (None, None, ∅) tracked_orders in
  if truthy_num entry_price && truthy_num strong_team_price_cents then
    Some {| pd_price := entry_price;
            pd_strong_team_price_cents := strong_team_price_cents;
            pd_filled_entry_numbers := Some (elements filled_entry_numbers);
            pd_other_keys := false |}
  else None.

(** STEP 5, the exit rule on the resolved data: [None] is every
    [continue] between "No strong team price" and "run to resolution".
    The rule works on floats: [entry_price_cents] is
    [float(entry_price * 100)], [strong_price_cents] is
    [float(strong_team_price_cents)], the weak-team price [102 -
    strong_price_cents] is a float subtraction, and the prices go back to
    Decimal through [str]. *)
Definition take_profit_price (start_price_data : PriceData) : option Q :=
  let strong_team_price_cents := pd_strong_team_price_cents start_price_data in
  let entry_price := default 0%Q (pd_price start_price_data) in
  let entry_price_cents := Float.round (Decimal.mul entry_price 100) in
  if negb (truthy_num strong_team_price_cents) then None
  else
    let strong_price_cents := Float.round (default 0%Q strong_team_price_cents) in
    if Qltb 75 strong_price_cents then None
    else if Qle_bool strong_price_cents 60 then
      if Qle_bool 24 entry_price_cents
      then Some (Decimal.sub (Decimal.div (Float.repr strong_price_cents) 100)
                             (2 # 100))
      else
        let tp_price_cents := Float.sub 102 strong_price_cents in
        Some (Decimal.div (Float.repr tp_price_cents) 100)
    else
      let filled_entries := default [] (pd_filled_entry_numbers start_price_data) in
      if (length filled_entries <? 2)%nat then None
      else Some (Decimal.sub (Decimal.div (Float.repr strong_price_cents) 100)
                             (2 # 100)).

(** STEP 4: the cache entry when it is a non-empty dict, else the
    fallback. *)
Definition resolve_start_price (price_cache : gmap string PriceData)
    (market_slug token_id : string) (tracked : OrderMonitor.tracked_orders)
    : option PriceData :=
  let start_price_data := price_cache !! PriceCache.cache_key market_slug token_id in
  if has_data start_price_data then start_price_data
  else start_price_from_tracking market_slug token_id tracked.

(** The body of the loop over the positions. *)
Definition process_position (client : Client) (now : Z)
    (already_profitable_markets : gset string)
    (price_cache : gmap string PriceData)
    (s : Exit) (position : Position) : Exit :=
  let token_id := pos_asset position in
  let position_size := pos_size position in
  let market_slug := pos_slug position in
  if Qltb position_size dust then s
  else if bool_decide (market_slug ∈ already_profitable_markets) then s
  else
    let existing_sell_size := default 0%Q (existing_sell_orders s !! token_id) in
    let unsold_position := (position_size - existing_sell_size)%Q in
    if Qle_bool unsold_position dust then s
    else
      let start_price_data :=
        resolve_start_price price_cache market_slug token_id (x_order_monitor s) in
      if negb (has_data start_price_data) then s
      else
        match start_price_data ≫= take_profit_price with
        | None => s
        | Some tp_price =>
            let '(tp_order_id, tracked, history) :=
              place_take_profit_orders client now token_id market_slug tp_price
                unsold_position (x_order_monitor s) (x_events s) in
            if truthy_str tp_order_id then
              {| x_order_monitor := tracked; x_events := history;
                 existing_sell_orders :=
                   <[ token_id :=
                        (default 0 (existing_sell_orders s !! token_id)
                         + unsold_position)%Q ]> (existing_sell_orders s);
                 tp_placed := S (tp_placed s) |}
            else
              {| x_order_monitor := tracked; x_events := history;
                 existing_sell_orders := existing_sell_orders s;
                 tp_placed := tp_placed s |}
        end.

(** [check_filled_positions_and_set_tp].  [all_positions] and
    [all_open_orders] are what the two fetches returned; the returned
    count is [tp_placed]. *)
Definition check_filled_positions_and_set_tp (client : Client) (now : Z)
    (already_profitable_markets : gset string)
    (price_cache : gmap string PriceData)
    (all_positions : list Position) (all_open_orders : list OpenOrder)
    (tracked : OrderMonitor.tracked_orders) (history : list Event) : Exit :=
  match all_positions with
  | [] => {| x_order_monitor := tracked; x_events := history;
             existing_sell_orders := ∅; tp_placed := 0 |}
  | _ =>
      foldl (process_position client now already_profitable_markets price_cache)
            {| x_order_monitor := tracked; x_events := history;
               existing_sell_orders := build_existing_sell_orders all_open_orders;
               tp_placed := 0 |}
            all_positions
  end.

(** *** Measures on the history *)



(** The submissions of a history, newest first. *)
Fixpoint placements (history : list Event) : list Request :=
  match history with
  | [] => []
  | Placement request _ :: h => request :: placements h
  | _ :: h => placements h
  end.



End TradeExecutor.

(** ** TradingBot: placing orders for the scanned markets *)

Module TradingBot.

(** What step 2 of [scan_and_execute] works on.  [aborted] is set when
    [get_token_balance] raised: nothing catches the exception inside
    [scan_and_execute], so the rest of the cycle does not run. *)
Record Cycle := {
  market_queue : gmap string MarketQueue.QueuedMarket;
  order_monitor : OrderMonitor.tracked_orders;
  events : list TradeExecutor.Event;
  markets_with_orders : gset string;
  new_orders_placed : nat;
  aborted : bool
}.

(** [any(order.get('asset_id') == strong_team_token_id and
         order.get('side') == 'BUY' for order in all_open_orders)] *)
Definition has_open_order (all_open_orders : list TradeExecutor.OpenOrder)
    (strong_team_token_id : string) : bool :=
  existsb (fun order =>
             bool_decide (TradeExecutor.oo_asset_id order = strong_team_token_id)
             && bool_decide (TradeExecutor.oo_side order = "BUY"))
          all_open_orders.

(** The queue after [mark_market_entered]. *)
Definition entered (now : Z) (s : string) (c : Cycle)
    (queue : gmap string MarketQueue.QueuedMarket)
    (history : list TradeExecutor.Event) : Cycle :=
  {| market_queue := MarketQueue.mark_market_entered s now queue;
     order_monitor := order_monitor c; events := history;
     markets_with_orders := markets_with_orders c;
     new_orders_placed := new_orders_placed c; aborted := false |}.

(** The body of the loop of step 2 over the scanned markets. *)
Definition enter_market (client : TradeExecutor.Client) (entry_size_usd : Q)
    (now : Z) (all_open_orders : list TradeExecutor.OpenOrder)
    (c : Cycle) (market : EntryStrategy.Market) : Cycle :=
  if aborted c then c
  else
    let s := EntryStrategy.slug market in
    let strong_team_token_id :=
      EntryStrategy.token_id (EntryStrategy.strong_team market) in
    let queue :=
      if MarketQueue.has_market s (market_queue c) then market_queue c
      else MarketQueue.add_pending_market s (EntryStrategy.entry_time market)
             (EntryStrategy.match_start_time market) now (market_queue c) in
    if has_open_order all_open_orders strong_team_token_id then
      entered now s c queue (events c)
    else
      let balance :=
        TradeExecutor.get_token_balance client (events c) strong_team_token_id in
      let history := TradeExecutor.BalanceQuery strong_team_token_id balance :: events c in
      match balance with
      | TradeExecutor.Raised =>
          {| market_queue := queue; order_monitor := order_monitor c;
             events := history; markets_with_orders := markets_with_orders c;
             new_orders_placed := new_orders_placed c; aborted := true |}
      | TradeExecutor.Returned existing_balance =>
          if Qltb (1 # 100) existing_balance then entered now s c queue history
          else
            match EntryStrategy.calculate_orders entry_size_usd market with
            | None | Some [] => entered now s c queue history
            | Some orders =>
                let strong_price_cents :=
                  EntryStrategy.price_cents (EntryStrategy.strong_team market) in
                let '(order_ids, tracked, history) :=
                  TradeExecutor.place_entry_orders client now orders
                    (Some strong_price_cents) (order_monitor c) history in
                match order_ids with
                | [] =>
                    {| market_queue := queue; order_monitor := tracked;
                       events := history;
                       markets_with_orders := markets_with_orders c;
                       new_orders_placed := new_orders_placed c;
                       aborted := false |}
                | _ =>
                    {| market_queue := MarketQueue.mark_market_entered s now queue;
                       order_monitor := tracked; events := history;
                       markets_with_orders := {[ s ]} ∪ markets_with_orders c;
                       new_orders_placed :=
                         (new_orders_placed c + length order_ids)%nat;
                       aborted := false |}
                end
            end
      end.

(** Step 2 of [scan_and_execute]: [markets] is what the scan returned and
    [all_open_orders] the snapshot fetched once before the loop. *)
Definition place_orders_for_new_markets (client : TradeExecutor.Client)
    (entry_size_usd : Q) (now : Z)
    (all_open_orders : list TradeExecutor.OpenOrder)
    (markets : list EntryStrategy.Market) (c : Cycle) : Cycle :=
  foldl (enter_market client entry_size_usd now all_open_orders) c markets.

(** *** The outcomes of an iteration *)

Section outcomes.
Variable entry_size_usd : Q.
Variable now : Z.
Variable all_open_orders : list TradeExecutor.OpenOrder.

Implicit Types (c : Cycle) (market : EntryStrategy.Market)
  (queue : gmap string MarketQueue.QueuedMarket).

(** The queue once the market is registered: the first statement of the
    loop body. *)
Definition registered market queue : gmap string MarketQueue.QueuedMarket :=
  if MarketQueue.has_market (EntryStrategy.slug market) queue then queue
  else MarketQueue.add_pending_market (EntryStrategy.slug market)
         (EntryStrategy.entry_time market)
         (EntryStrategy.match_start_time market) now queue.

(** The ways an iteration of the loop ends: an open BUY order is found; the
    balance, the strategy or an empty order list ends it after the balance
    query; the balance query raises; every submission is refused; or some
    orders are placed. *)
Inductive entry_outcome c market : Cycle -> Prop :=
| already_open :
    has_open_order all_open_orders
      (EntryStrategy.token_id (EntryStrategy.strong_team market)) = true ->
    entry_outcome c market
      (entered now (EntryStrategy.slug market) c
         (registered market (market_queue c)) (events c))
| nothing_to_place history :
    has_open_order all_open_orders
      (EntryStrategy.token_id (EntryStrategy.strong_team market)) = false ->
    TradeExecutor.placements history
    = TradeExecutor.placements (events c) ->
    TradeExecutor.accepted history
    = TradeExecutor.accepted (events c) ->
    entry_outcome c market
      (entered now (EntryStrategy.slug market) c
         (registered market (market_queue c)) history)
| balance_raised history :
    TradeExecutor.placements history
    = TradeExecutor.placements (events c) ->
    TradeExecutor.accepted history
    = TradeExecutor.accepted (events c) ->
    entry_outcome c market
      {| market_queue := registered market (market_queue c);
         order_monitor := order_monitor c;
         events := history;
         markets_with_orders := markets_with_orders c;
         new_orders_placed := new_orders_placed c;
         aborted := true |}
| all_refused orders tracked history :
    has_open_order all_open_orders
      (EntryStrategy.token_id (EntryStrategy.strong_team market)) = false ->
    EntryStrategy.calculate_orders entry_size_usd market = Some orders ->
    TradeExecutor.placements history
    = reverse (TradeExecutor.entry_request <$> orders)
        ++ TradeExecutor.placements (events c) ->
    TradeExecutor.accepted history
    = TradeExecutor.accepted (events c) ->
    entry_outcome c market
      {| market_queue := registered market (market_queue c);
         order_monitor := tracked;
         events := history;
         markets_with_orders := markets_with_orders c;
         new_orders_placed := new_orders_placed c;
         aborted := false |}
| orders_placed orders (order_ids : list string) tracked history :
    has_open_order all_open_orders
      (EntryStrategy.token_id (EntryStrategy.strong_team market)) = false ->
    EntryStrategy.calculate_orders entry_size_usd market = Some orders ->
    TradeExecutor.placements history
    = reverse (TradeExecutor.entry_request <$> orders)
        ++ TradeExecutor.placements (events c) ->
    length (TradeExecutor.accepted history)
    = (length order_ids + length (TradeExecutor.accepted (events c)))%nat ->
    entry_outcome c market
      {| market_queue :=
           MarketQueue.mark_market_entered (EntryStrategy.slug market) now
             (registered market (market_queue c));
         order_monitor := tracked;
         events := history;
         markets_with_orders :=
           {[ EntryStrategy.slug market ]} ∪ markets_with_orders c;
         new_orders_placed :=
           (new_orders_placed c + length order_ids)%nat;
         aborted := false |}.

End outcomes.

End TradingBot.

(** ** Concrete stores and venues *)

Module Samples.

(** Scenario A's order O1: BUY, token T, price .25, size 10, with the
    status given. *)
Definition order (st : string) (missed : Z) : OrderMonitor.TrackedOrder :=
  {| OrderMonitor.order_id := "O1"; OrderMonitor.token_id := "T";
     OrderMonitor.market_slug := "S"; OrderMonitor.side := "BUY";
     OrderMonitor.price := 25 # 100; OrderMonitor.size := 10 # 1;
     OrderMonitor.entry_number := Some 1%Z;
     OrderMonitor.strong_team_price_cents := Some (30 # 1);
     OrderMonitor.created_at := 0; OrderMonitor.last_seen := 0;
     OrderMonitor.disappeared_count := missed; OrderMonitor.status := st;
     OrderMonitor.recreated_as := None |}.

(** The second entry tier on the same token. *)
Definition order2 : OrderMonitor.TrackedOrder :=
  {| OrderMonitor.order_id := "O2"; OrderMonitor.token_id := "T";
     OrderMonitor.market_slug := "S"; OrderMonitor.side := "BUY";
     OrderMonitor.price := 25 # 100; OrderMonitor.size := 10 # 1;
     OrderMonitor.entry_number := Some 2%Z;
     OrderMonitor.strong_team_price_cents := Some (30 # 1);
     OrderMonitor.created_at := 0; OrderMonitor.last_seen := 0;
     OrderMonitor.disappeared_count := 0; OrderMonitor.status := "active";
     OrderMonitor.recreated_as := None |}.

Definition ledger (st : string) (missed : Z) : OrderMonitor.tracked_orders :=
  [("O1", order st missed)].

Definition two_tiers : OrderMonitor.tracked_orders :=
  [("O1", order "active" 0); ("O2", order2)].

(** A venue that holds none of the token and accepts every submission,
    numbering the orders it creates. *)
Definition accepting : TradeExecutor.Client :=
  {| TradeExecutor.get_token_balance := fun _ _ => TradeExecutor.Returned (0 # 1);
     TradeExecutor.place_limit := fun history _ =>
       match TradeExecutor.placements history with
       | [] => TradeExecutor.Returned (Some "N1")
       | [_] => TradeExecutor.Returned (Some "N2")
       | _ => TradeExecutor.Returned (Some "N3")
       end |}.

(** A venue that holds 12 shares of every token. *)
Definition holding : TradeExecutor.Client :=
  {| TradeExecutor.get_token_balance := fun _ _ => TradeExecutor.Returned (12 # 1);
     TradeExecutor.place_limit := fun _ _ => TradeExecutor.Returned (Some "N1") |}.

(** A venue that rejects every submission. *)
Definition rejecting : TradeExecutor.Client :=
  {| TradeExecutor.get_token_balance := fun _ _ => TradeExecutor.Returned (0 # 1);
     TradeExecutor.place_limit := fun _ _ => TradeExecutor.Returned None |}.


Definition all_active (_ : string) : bool := true.
Definition all_ended (_ : string) : bool := false.

(** The queue after the first registration of Scenario E. *)
Definition m1 : MarketQueue.QueuedMarket :=
  {| MarketQueue.slug := "m1"; MarketQueue.entry_time := "t100";
     MarketQueue.match_start_time := "t900"; MarketQueue.discovered_at := 7;
     MarketQueue.status := "pending"; MarketQueue.entered_at := None |}.

Definition queue : gmap string MarketQueue.QueuedMarket := {[ "m1" := m1 ]}.

(** A market whose match is announced for the last half hour of the year
    9999, the last one a [datetime] holds. *)
Definition m2 : MarketQueue.QueuedMarket :=
  {| MarketQueue.slug := "m2"; MarketQueue.entry_time := "t100";
     MarketQueue.match_start_time := "9999-12-31T23:30:00+00:00";
     MarketQueue.discovered_at := 7;
     MarketQueue.status := "pending"; MarketQueue.entered_at := None |}.

(** The timestamps of the samples as [get_markets_ready_for_entry] reads
    them; the last one is 9999-12-31T23:30:00 UTC in microseconds. *)
Definition fromisoformat (text : string) : option Z :=
  if bool_decide (text = "t100") then Some 100%Z
  else if bool_decide (text = "t900") then Some 900%Z
  else if bool_decide (text = "9999-12-31T23:30:00+00:00")
       then Some 253402299000000000%Z
  else None.

(** The same timestamps as [cleanup_expired_markets] reads them: adding
    the hour to the last one raises [OverflowError]. *)
Definition expiry_fromisoformat (text : string) : option Z :=
  if bool_decide (text = "9999-12-31T23:30:00+00:00") then None
  else fromisoformat text.

(** Scenario D: the price 0.30 cached for (S, T), as the bot reloads it. *)
Definition cached_prices : gmap string PriceCache.CachedPrice :=
  PriceCache.cache_price "S" "T" (30 # 100) "A" 0 ∅.

(** An entry for (S, T) that carries what the exit rule reads. *)
Definition full_entry : TradeExecutor.PriceData :=
  {| TradeExecutor.pd_price := Some (30 # 100);
     TradeExecutor.pd_strong_team_price_cents := Some (30 # 1);
     TradeExecutor.pd_filled_entry_numbers := Some [1%Z; 2%Z];
     TradeExecutor.pd_other_keys := true |}.

Definition position (sz : Q) : TradeExecutor.Position :=
  {| TradeExecutor.pos_asset := "T"; TradeExecutor.pos_size := sz;
     TradeExecutor.pos_slug := "S"; TradeExecutor.pos_outcome := "A";
     TradeExecutor.pos_avgPrice := 25 # 100 |}.


(** A scanned market: team A at 65 cents on token T, team B on token U. *)
Definition market : EntryStrategy.Market :=
  {| EntryStrategy.question := "LoL: A vs B (BO3)"; EntryStrategy.slug := "S";
     EntryStrategy.entry_time := "t100"; EntryStrategy.match_start_time := "t900";
     EntryStrategy.strong_team :=
       {| EntryStrategy.name := "A"; EntryStrategy.price := 65 # 100;
          EntryStrategy.price_cents := 65 # 1; EntryStrategy.token_id := "T" |};
     EntryStrategy.weak_team :=
       {| EntryStrategy.name := "B"; EntryStrategy.price := 35 # 100;
          EntryStrategy.price_cents := 35 # 1; EntryStrategy.token_id := "U" |} |}.

(** An open BUY order on token T. *)
Definition open_buy : TradeExecutor.OpenOrder :=
  {| TradeExecutor.oo_id := "O1"; TradeExecutor.oo_asset_id := "T";
     TradeExecutor.oo_side := "BUY"; TradeExecutor.oo_original_size := 10 # 1 |}.

(** The bot at the start of step 2, with nothing queued or tracked. *)
Definition cycle : TradingBot.Cycle :=
  {| TradingBot.market_queue := ∅; TradingBot.order_monitor := [];
     TradingBot.events := []; TradingBot.markets_with_orders := ∅;
     TradingBot.new_orders_placed := 0; TradingBot.aborted := false |}.

End Samples.

(** * Facts *)

(** ** Dictionaries *)

Section dict_facts.
Context {V : Type}.
Implicit Types (d : list (string * V)) (k : string).

Lemma getitem_setitem_eq k v d :
  PyDict.getitem k (PyDict.setitem k v d) = Some v.
Proof.
  induction d as [|[k' v'] d IH]; simpl.
  - by rewrite decide_True.
  - destruct (decide (k = k')) as [->|Hne]; simpl.
    + by rewrite decide_True.
    + by rewrite decide_False.
Qed.

Lemma getitem_setitem_ne k k' v d :
  k <> k' -> PyDict.getitem k' (PyDict.setitem k v d) = PyDict.getitem k' d.
Proof.
  intros Hne. induction d as [|[k0 v0] d IH]; simpl.
  - by rewrite decide_False.
  - destruct (decide (k = k0)) as [->|Hk]; simpl.
    + by rewrite !(decide_False (P := k' = k0)).
    + destruct (decide (k' = k0)); [done | apply IH].
Qed.

Lemma getitem_modify k k' (f : V -> V) d :
  PyDict.getitem k' (PyDict.modify f k d)
  = if decide (k = k') then f <$> PyDict.getitem k' d else PyDict.getitem k' d.
Proof.
  induction d as [|[k0 v0] d IH]; simpl.
  - by destruct (decide (k = k')).
  - destruct (decide (k = k0)) as [->|Hk]; simpl.
    + destruct (decide (k' = k0)) as [->|Hk'].
      * by rewrite decide_True.
      * by rewrite decide_False.
    + destruct (decide (k' = k0)) as [->|Hk'].
      * by rewrite decide_False.
      * apply IH.
Qed.

Lemma getitem_delitem k k' d :
  PyDict.getitem k' (PyDict.delitem k d)
  = if decide (k = k') then None else PyDict.getitem k' d.
Proof.
  induction d as [|[k0 v0] d IH]; simpl.
  - by destruct (decide (k = k')).
  - destruct (decide (k = k0)) as [->|Hk]; simpl.
    + rewrite IH. destruct (decide (k0 = k')) as [->|Hk']; [done|].
      by rewrite decide_False.
    + destruct (decide (k' = k0)) as [->|Hk'].
      * by rewrite decide_False.
      * apply IH.
Qed.

Lemma contains_getitem k d :
  PyDict.contains k d = true <-> is_Some (PyDict.getitem k d).
Proof.
  unfold PyDict.contains. destruct (PyDict.getitem k d) as [v|].
  - split; eauto.
  - split; [discriminate | by intros [v Hv]].
Qed.

Lemma keys_modify (f : V -> V) k d :
  PyDict.keys (PyDict.modify f k d) = PyDict.keys d.
Proof.
  unfold PyDict.keys. induction d as [|[k0 v0] d IH]; simpl; [done|].
  destruct (decide (k = k0)); simpl; [done | f_equal; exact IH].
Qed.
End dict_facts.

(** ** The ledger *)

Section ledger_facts.
Implicit Types (tracked : OrderMonitor.tracked_orders) (oid : string).

Lemma update_order_status_lookup oid oid' still_exists current_status now tracked :
  PyDict.getitem oid'
    (OrderMonitor.update_order_status oid still_exists current_status now tracked)
  = if decide (oid = oid')
    then OrderMonitor.observe still_exists current_status now
           <$> PyDict.getitem oid' tracked
    else PyDict.getitem oid' tracked.
Proof.
  unfold OrderMonitor.update_order_status.
  destruct (PyDict.contains oid tracked) eqn:Hc.
  - apply getitem_modify.
  - destruct (decide (oid = oid')) as [->|Hne]; [|done].
    unfold PyDict.contains in Hc. by destruct (PyDict.getitem oid' tracked).
Qed.

Lemma mark_order_filled_lookup oid oid' tracked :
  PyDict.getitem oid' (OrderMonitor.mark_order_filled oid tracked)
  = if decide (oid = oid')
    then OrderMonitor.with_status "filled" <$> PyDict.getitem oid' tracked
    else PyDict.getitem oid' tracked.
Proof.
  unfold OrderMonitor.mark_order_filled.
  destruct (PyDict.contains oid tracked) eqn:Hc.
  - apply getitem_modify.
  - destruct (decide (oid = oid')) as [->|Hne]; [|done].
    unfold PyDict.contains in Hc. by destruct (PyDict.getitem oid' tracked).
Qed.

Lemma remove_order_lookup oid oid' tracked :
  PyDict.getitem oid' (OrderMonitor.remove_order oid tracked)
  = if decide (oid = oid') then None else PyDict.getitem oid' tracked.
Proof.
  unfold OrderMonitor.remove_order.
  destruct (PyDict.contains oid tracked) eqn:Hc.
  - apply getitem_delitem.
  - destruct (decide (oid = oid')) as [->|Hne]; [|done].
    unfold PyDict.contains in Hc. by destruct (PyDict.getitem oid' tracked).
Qed.

Lemma get_disappeared_orders_status tracked o :
  o ∈ OrderMonitor.get_disappeared_orders tracked ->
  OrderMonitor.status o = "disappeared".
Proof.
  unfold OrderMonitor.get_disappeared_orders.
  rewrite list_elem_of_filter. tauto.
Qed.
End ledger_facts.

(** ** Claims on the ledger *)

(** C10 — [add_order] is last-write-wins.  Whatever the ledger held under
    [oid] before (nothing, a live order, a filled or recreated one), after
    [add_order] the entry for [oid] is the freshly built record: status
    'active', disappeared_count 0, no [recreated_as], and the fields of the
    call. *)
Theorem C10_add_order_last_write_wins
    (oid tok slug sd : string) (pr sz : Q) (entry : option Z) (strong : option Q)
    (now : Z) (tracked : OrderMonitor.tracked_orders) :
  PyDict.getitem oid
    (OrderMonitor.add_order oid tok slug sd pr sz entry strong now tracked)
  = Some {| OrderMonitor.order_id := oid; OrderMonitor.token_id := tok;
            OrderMonitor.market_slug := slug; OrderMonitor.side := sd;
            OrderMonitor.price := pr; OrderMonitor.size := sz;
            OrderMonitor.entry_number := entry;
            OrderMonitor.strong_team_price_cents := strong;
            OrderMonitor.created_at := now; OrderMonitor.last_seen := now;
            OrderMonitor.disappeared_count := 0;
            OrderMonitor.status := "active";
            OrderMonitor.recreated_as := None |}.
Proof. unfold OrderMonitor.add_order. apply getitem_setitem_eq. Qed.

(** C2, as amended — postcondition of [update_order_status] on a tracked
    order whose counter is not negative.  Present: the counter is 0,
    [last_seen] is the clock reading, and the status is the caller's
    [current_status] when a non-empty one is passed and is left as it was
    otherwise.  Absent: the counter is incremented, the status is
    'disappeared' (one missed observation suffices) and [last_seen] is
    kept. *)
Theorem C2_update_order_status_postcondition
    (oid : string) (tracked : OrderMonitor.tracked_orders)
    (o : OrderMonitor.TrackedOrder) (current_status : option string) (now : Z) :
  PyDict.getitem oid tracked = Some o ->
  (0 <= OrderMonitor.disappeared_count o)%Z ->
  (exists o1,
      PyDict.getitem oid
        (OrderMonitor.update_order_status oid true current_status now tracked) = Some o1
      /\ OrderMonitor.disappeared_count o1 = 0%Z
      /\ OrderMonitor.last_seen o1 = now
      /\ OrderMonitor.status o1 =
           (if truthy_str current_status
            then default EmptyString current_status
            else OrderMonitor.status o))
  /\ (exists o2,
      PyDict.getitem oid
        (OrderMonitor.update_order_status oid false current_status now tracked) = Some o2
      /\ OrderMonitor.disappeared_count o2 = (OrderMonitor.disappeared_count o + 1)%Z
      /\ OrderMonitor.status o2 = "disappeared"
      /\ OrderMonitor.last_seen o2 = OrderMonitor.last_seen o).
Proof.
  intros Hget Hcount. split.
  - exists (OrderMonitor.observe true current_status now o).
    rewrite update_order_status_lookup, decide_True, Hget by done.
    unfold OrderMonitor.observe.
    destruct (truthy_str current_status); simpl; auto.
  - exists (OrderMonitor.observe false current_status now o).
    rewrite update_order_status_lookup, decide_True, Hget by done.
    unfold OrderMonitor.observe. simpl.
    destruct (Z.leb_spec 1 (OrderMonitor.disappeared_count o + 1)); simpl; [auto | lia].
Qed.

Lemma C2_update_order_status_postcondition_witness :
  (exists o1,
      PyDict.getitem "O1"
        (OrderMonitor.update_order_status "O1" true (Some "active") 9
           (Samples.ledger "disappeared" 1)) = Some o1
      /\ OrderMonitor.disappeared_count o1 = 0%Z
      /\ OrderMonitor.last_seen o1 = 9%Z
      /\ OrderMonitor.status o1 = "active")
  /\ (exists o2,
      PyDict.getitem "O1"
        (OrderMonitor.update_order_status "O1" false (Some "active") 9
           (Samples.ledger "disappeared" 1)) = Some o2
      /\ OrderMonitor.disappeared_count o2 = 2%Z
      /\ OrderMonitor.status o2 = "disappeared"
      /\ OrderMonitor.last_seen o2 = 0%Z).
Proof.
  apply (C2_update_order_status_postcondition "O1" (Samples.ledger "disappeared" 1)
           (Samples.order "disappeared" 1) (Some "active") 9).
  - reflexivity.
  - simpl. lia.
Defined.

(** C2, as stated, fails: a 'disappeared' order that the snapshot shows
    again is observed the way the reconciliation pass does it (no
    [current_status]); its counter is reset but its status is not 'active'. *)
Lemma C2_status_not_reset_to_active :
  ~ (OrderMonitor.status <$>
       PyDict.getitem "O1"
         (OrderMonitor.update_order_status "O1" true None 9
            (Samples.ledger "disappeared" 1))
     = Some "active").
Proof. vm_compute. discriminate. Qed.

(** ** Terminal states under a reconciliation pass *)

Section pass_keeps_seen_orders.
Implicit Types (tracked : OrderMonitor.tracked_orders) (oid : string).

Lemma getitem_unique {V : Type} (k : string) (v : V) (d : list (string * V)) :
  NoDup (PyDict.keys d) -> (k, v) ∈ d -> PyDict.getitem k d = Some v.
Proof.
  unfold PyDict.keys. induction d as [|[k' v'] d IH]; simpl; intros Hnd Hin.
  - by apply elem_of_nil in Hin.
  - apply NoDup_cons in Hnd as [Hfresh Hnd].
    apply elem_of_cons in Hin as [[= <- <-] | Hin].
    + by rewrite decide_True.
    + destruct (decide (k = k')) as [->|Hne]; [|by apply IH].
      exfalso. apply Hfresh. apply list_elem_of_fmap. by exists (k', v).
Qed.

Lemma observe_order_id still_exists current_status now (o : OrderMonitor.TrackedOrder) :
  OrderMonitor.order_id (OrderMonitor.observe still_exists current_status now o)
  = OrderMonitor.order_id o.
Proof.
  unfold OrderMonitor.observe.
  destruct still_exists; simpl.
  - by destruct (truthy_str current_status).
  - by destruct (1 <=? _)%Z.
Qed.

Lemma update_order_status_keys oid still_exists current_status now tracked :
  PyDict.keys (OrderMonitor.update_order_status oid still_exists current_status now tracked)
  = PyDict.keys tracked.
Proof.
  unfold OrderMonitor.update_order_status.
  destruct (PyDict.contains oid tracked); [apply keys_modify | done].
Qed.

Lemma update_order_status_well_keyed oid still_exists current_status now tracked :
  OrderMonitor.well_keyed tracked ->
  OrderMonitor.well_keyed
    (OrderMonitor.update_order_status oid still_exists current_status now tracked).
Proof.
  unfold OrderMonitor.update_order_status, OrderMonitor.well_keyed.
  destruct (PyDict.contains oid tracked); [|done].
  induction 1 as [|[k v] d Hkv Hd IH]; simpl; [constructor|].
  destruct (decide (oid = k)) as [->|Hne].
  - constructor; [|done]. simpl in *. by rewrite observe_order_id.
  - by constructor.
Qed.

Lemma observe_all_invariants now (ids : gset string) tracked :
  PyDict.keys (TradeExecutor.observe_all now ids tracked) = PyDict.keys tracked
  /\ (OrderMonitor.well_keyed tracked ->
      OrderMonitor.well_keyed (TradeExecutor.observe_all now ids tracked)).
Proof.
  unfold TradeExecutor.observe_all.
  generalize (PyDict.keys tracked) at 1 3 as ks.
  intros ks. revert tracked. induction ks as [|k ks IH]; intros tracked; simpl.
  - done.
  - destruct (IH (OrderMonitor.update_order_status k (bool_decide (k ∈ ids)) None
                    now tracked)) as [Hkeys Hwf].
    split.
    + by rewrite Hkeys, update_order_status_keys.
    + intros Hw. by apply Hwf, update_order_status_well_keyed.
Qed.

Variable client : TradeExecutor.Client.
Variable now : Z.
Variable ended : gset string.

Lemma mark_order_recreated_lookup_ne old new oid tracked :
  old <> oid ->
  PyDict.getitem oid (OrderMonitor.mark_order_recreated old new tracked)
  = PyDict.getitem oid tracked.
Proof.
  intros Hne. unfold OrderMonitor.mark_order_recreated.
  destruct (PyDict.contains old tracked); [|done].
  by rewrite getitem_modify, decide_False.
Qed.

(** An iteration on another order, with a venue that does not hand out
    [oid] as a new id, does not touch the entry of [oid]. *)
Lemma recreate_one_lookup_other oid (s : TradeExecutor.Recon)
    (od : OrderMonitor.TrackedOrder) :
  OrderMonitor.order_id od <> oid ->
  (forall h r, TradeExecutor.place_limit client h r
               <> TradeExecutor.Returned (Some oid)) ->
  PyDict.getitem oid
    (TradeExecutor.order_monitor (TradeExecutor.recreate_one client now ended s od))
  = PyDict.getitem oid (TradeExecutor.order_monitor s).
Proof.
  intros Hne Hfresh. unfold TradeExecutor.recreate_one.
  case_bool_decide; simpl.
  { by rewrite remove_order_lookup, decide_False. }
  destruct (TradeExecutor.get_token_balance client _ _) as [b|]; [|done].
  destruct (Qltb dust b); simpl.
  { by rewrite mark_order_filled_lookup, decide_False. }
  destruct (TradeExecutor.place_limit client _ _) as [[new|]|] eqn:Hresp; [|done..].
  simpl. rewrite mark_order_recreated_lookup_ne by done.
  unfold OrderMonitor.add_order. rewrite getitem_setitem_ne; [done|].
  intros ->. by apply Hfresh in Hresp.
Qed.

Lemma recreate_all_lookup_other oid (ds : list OrderMonitor.TrackedOrder)
    (s : TradeExecutor.Recon) :
  Forall (fun od => OrderMonitor.order_id od <> oid) ds ->
  (forall h r, TradeExecutor.place_limit client h r
               <> TradeExecutor.Returned (Some oid)) ->
  PyDict.getitem oid
    (TradeExecutor.order_monitor (TradeExecutor.recreate_all client now ended ds s))
  = PyDict.getitem oid (TradeExecutor.order_monitor s).
Proof.
  intros Hds Hfresh. revert s.
  induction Hds as [|od ds Hod _ IH]; intros s; [done|].
  unfold TradeExecutor.recreate_all in *. simpl.
  rewrite IH. by apply recreate_one_lookup_other.
Qed.
End pass_keeps_seen_orders.

Lemma observations_keep_status (oid : string) (calls : list OrderMonitor.Observation)
    (tracked : OrderMonitor.tracked_orders) (o : OrderMonitor.TrackedOrder) :
  PyDict.getitem oid tracked = Some o ->
  Forall (OrderMonitor.sees_or_skips oid) calls ->
  OrderMonitor.status <$>
    PyDict.getitem oid (foldl OrderMonitor.apply_observation tracked calls)
  = Some (OrderMonitor.status o).
Proof.
  intros Hget Hcalls. revert tracked o Hget.
  induction Hcalls as [|c calls Hc _ IH]; intros tracked o Hget; simpl.
  - by rewrite Hget.
  - destruct (decide (OrderMonitor.obs_order_id c = oid)) as [Heq|Hne].
    + destruct Hc as [Hc|[Hseen Hnone]]; [done|].
      rewrite (IH _ (OrderMonitor.observe true None (OrderMonitor.obs_time c) o)).
      * done.
      * unfold OrderMonitor.apply_observation.
        rewrite update_order_status_lookup, Heq, decide_True, Hget, Hseen by done.
        simpl. unfold OrderMonitor.observe. by rewrite Hnone.
    + apply IH. unfold OrderMonitor.apply_observation.
      by rewrite update_order_status_lookup, decide_False.
Qed.

Lemma observe_all_as_observations now (ids : gset string)
    (tracked : OrderMonitor.tracked_orders) :
  TradeExecutor.observe_all now ids tracked
  = foldl OrderMonitor.apply_observation tracked
      ((fun k => {| OrderMonitor.obs_order_id := k;
                    OrderMonitor.obs_still_exists := bool_decide (k ∈ ids);
                    OrderMonitor.obs_current_status := None;
                    OrderMonitor.obs_time := now |}) <$> PyDict.keys tracked).
Proof.
  unfold TradeExecutor.observe_all.
  generalize (PyDict.keys tracked) as ks. intros ks. revert tracked.
  induction ks as [|k ks IH]; intros tracked; simpl; [done|]. apply IH.
Qed.

(** C1, as amended — a terminal status is kept while the order is seen.
    Take a tracked order that is no longer live (filled, cancelled,
    recreated).  No sequence of [update_order_status] calls changes its
    status, as long as each call is made for another order id or reports
    the order present without passing a status.  A reconciliation pass
    whose open-order snapshot contains its id leaves its status unchanged,
    in the observation loop and at the end of the pass, for a ledger whose
    keys are distinct and are the stored order ids and a venue that does
    not hand out the id again. *)
Theorem C1_terminal_status_kept_while_seen
    (client : TradeExecutor.Client) (market_scanner : option (string -> bool))
    (now : Z) (open_orders : list TradeExecutor.OpenOrder)
    (tracked : OrderMonitor.tracked_orders)
    (queue : option (gmap string MarketQueue.QueuedMarket))
    (history : list TradeExecutor.Event)
    (oid : string) (o : OrderMonitor.TrackedOrder)
    (calls : list OrderMonitor.Observation) :
  PyDict.getitem oid tracked = Some o ->
  OrderMonitor.is_live o = false ->
  Forall (OrderMonitor.sees_or_skips oid) calls ->
  oid ∈ TradeExecutor.open_order_ids open_orders ->
  NoDup (PyDict.keys tracked) ->
  OrderMonitor.well_keyed tracked ->
  (forall h r, TradeExecutor.place_limit client h r
               <> TradeExecutor.Returned (Some oid)) ->
  OrderMonitor.status <$>
    PyDict.getitem oid (foldl OrderMonitor.apply_observation tracked calls)
  = Some (OrderMonitor.status o)
  /\ OrderMonitor.status <$>
       PyDict.getitem oid
         (TradeExecutor.observe_all now (TradeExecutor.open_order_ids open_orders) tracked)
     = Some (OrderMonitor.status o)
  /\ OrderMonitor.status <$>
       PyDict.getitem oid
         (TradeExecutor.order_monitor
            (TradeExecutor.check_and_recreate_orders client market_scanner now
               open_orders tracked queue history))
     = Some (OrderMonitor.status o).
Proof.
  intros Hget Hdone Hcalls Hseen Hnodup Hkeyed Hfresh.
  set (ids := TradeExecutor.open_order_ids open_orders) in *.
  set (observed := TradeExecutor.observe_all now ids tracked).
  assert (Hobserved : OrderMonitor.status <$> PyDict.getitem oid observed
                      = Some (OrderMonitor.status o)).
  { unfold observed. rewrite observe_all_as_observations.
    apply observations_keep_status; [done|].
    apply Forall_fmap, Forall_forall. intros k _.
    destruct (decide (k = oid)) as [->|Hne]; [right | by left].
    simpl. by rewrite bool_decide_eq_true_2. }
  split; [by apply observations_keep_status|]. split; [exact Hobserved|].
  destruct (observe_all_invariants now ids tracked) as [Hkeys Hwf].
  fold observed in Hkeys, Hwf. specialize (Hwf Hkeyed).
  assert (Hothers : Forall (fun od => OrderMonitor.order_id od <> oid)
                      (OrderMonitor.get_disappeared_orders observed)).
  { apply Forall_forall. intros od Hod Hid.
    pose proof (get_disappeared_orders_status _ _ Hod) as Hstatus.
    unfold OrderMonitor.get_disappeared_orders in Hod.
    apply list_elem_of_filter in Hod as [_ Hod].
    apply list_elem_of_fmap in Hod as ([k od'] & -> & Hin). simpl in *.
    unfold OrderMonitor.well_keyed in Hwf.
    rewrite Forall_forall in Hwf. pose proof (Hwf _ Hin) as Hk. simpl in Hk.
    rewrite Hid in Hk. subst k.
    rewrite (getitem_unique oid od' observed) in Hobserved;
      [| by rewrite Hkeys | done].
    simpl in Hobserved. injection Hobserved as Hsame.
    unfold OrderMonitor.is_live in Hdone. rewrite <- Hsame, Hstatus in Hdone.
    by rewrite orb_true_r in Hdone. }
  unfold TradeExecutor.check_and_recreate_orders. fold ids. fold observed.
  destruct (OrderMonitor.get_disappeared_orders observed) as [|d ds] eqn:Hd.
  - exact Hobserved.
  - rewrite recreate_all_lookup_other; [exact Hobserved | exact Hothers | exact Hfresh].
Qed.

(** A filled O1 that the snapshot still lists: the pass leaves it filled. *)
Lemma C1_terminal_status_kept_while_seen_witness :
  OrderMonitor.status <$>
    PyDict.getitem "O1"
      (TradeExecutor.order_monitor
         (TradeExecutor.check_and_recreate_orders Samples.holding
            (Some Samples.all_active) 5
            [{| TradeExecutor.oo_id := "O1"; TradeExecutor.oo_asset_id := "T";
                TradeExecutor.oo_side := "BUY";
                TradeExecutor.oo_original_size := 10 # 1 |}]
            (Samples.ledger "filled" 0) None []))
  = Some "filled".
Proof.
  apply (C1_terminal_status_kept_while_seen Samples.holding (Some Samples.all_active)
           5 [{| TradeExecutor.oo_id := "O1"; TradeExecutor.oo_asset_id := "T";
                 TradeExecutor.oo_side := "BUY";
                 TradeExecutor.oo_original_size := 10 # 1 |}]
           (Samples.ledger "filled" 0) None [] "O1" (Samples.order "filled" 0)
           [{| OrderMonitor.obs_order_id := "O1";
               OrderMonitor.obs_still_exists := true;
               OrderMonitor.obs_current_status := None;
               OrderMonitor.obs_time := 5 |}]).
  - reflexivity.
  - reflexivity.
  - constructor; [right; split; reflexivity | constructor].
  - apply (bool_decide_eq_true_1 _). vm_compute. reflexivity.
  - apply (bool_decide_eq_true_1 _). vm_compute. reflexivity.
  - repeat constructor.
  - intros h r. discriminate.
Defined.

(** C1, as stated, fails.  A 'filled' order is absent from every open-order
    snapshot, so the next reconciliation pass observes it as missing and
    flags it 'disappeared'; with no holdings left on the token the pass
    then submits it again and marks it 'recreated'.  One pass later the
    'recreated' order is flagged and submitted once more, although its
    replacement N1 is open. *)
Lemma C1_terminal_status_not_kept :
  let filled := Samples.ledger "filled" 0 in
  let pass1 :=
    TradeExecutor.check_and_recreate_orders Samples.accepting
      (Some Samples.all_active) 5 [] filled None [] in
  let snapshot2 :=
    [{| TradeExecutor.oo_id := "N1"; TradeExecutor.oo_asset_id := "T";
        TradeExecutor.oo_side := "BUY"; TradeExecutor.oo_original_size := 10 # 1 |}] in
  let pass2 :=
    TradeExecutor.check_and_recreate_orders Samples.accepting
      (Some Samples.all_active) 6 snapshot2
      (TradeExecutor.order_monitor pass1) None (TradeExecutor.events pass1) in
  ~ (OrderMonitor.status <$>
       PyDict.getitem "O1"
         (OrderMonitor.update_order_status "O1" false None 5 filled)
     = Some "filled")
  /\ OrderMonitor.status <$>
       PyDict.getitem "O1"
         (TradeExecutor.observe_all 5 (TradeExecutor.open_order_ids []) filled)
     = Some "disappeared"
  /\ TradeExecutor.placements (TradeExecutor.events pass1)
     = [TradeExecutor.LimitBuy "T" (25 # 100) (250 # 100)]
  /\ OrderMonitor.status <$> PyDict.getitem "O1" (TradeExecutor.order_monitor pass1)
     = Some "recreated"
  /\ TradeExecutor.recreated_count pass2 = 1%nat
  /\ TradeExecutor.placements (TradeExecutor.events pass2)
     = [TradeExecutor.LimitBuy "T" (25 # 100) (250 # 100);
        TradeExecutor.LimitBuy "T" (25 # 100) (250 # 100)]
  /\ PyDict.keys (TradeExecutor.order_monitor pass2) = ["O1"; "N1"; "N2"].
Proof. vm_compute. repeat split. discriminate. Qed.

(** ** Claims on the price cache *)

Section cache_facts.
Implicit Types (cached : gmap string PriceCache.CachedPrice).

Lemma cache_price_keeps slug tok pr team now cached key entry :
  cached !! key = Some entry ->
  PriceCache.cache_price slug tok pr team now cached !! key = Some entry.
Proof.
  intros Hkey. unfold PriceCache.cache_price.
  destruct (cached !! PriceCache.cache_key slug tok) eqn:Hc; [done|].
  rewrite lookup_insert_ne; [done|]. intros <-. congruence.
Qed.

Lemma puts_keep puts cached key entry :
  cached !! key = Some entry ->
  foldl PriceCache.apply_put cached puts !! key = Some entry.
Proof.
  revert cached. induction puts as [|c puts IH]; intros cached Hkey; simpl.
  - done.
  - apply IH. unfold PriceCache.apply_put. by apply cache_price_keeps.
Qed.
End cache_facts.

(** C6 — write-once cache.  Once [cache_price] has stored a price for a key
    that was free, a further [cache_price] on the same slug and token, with
    any price and label, returns the store as it is; after any sequence of
    later [cache_price] calls (on this or other keys) the entry is the one
    first stored and [get_cached_price] returns the first price. *)
Theorem C6_cache_price_write_once
    (slug tok : string) (pr : Q) (team : string) (now : Z)
    (cached : gmap string PriceCache.CachedPrice)
    (pr' : Q) (team' : string) (now' : Z) (puts : list PriceCache.Put) :
  cached !! PriceCache.cache_key slug tok = None ->
  let first := PriceCache.cache_price slug tok pr team now cached in
  let later := foldl PriceCache.apply_put first puts in
  PriceCache.get_cached_price slug tok first = Some pr
  /\ PriceCache.cache_price slug tok pr' team' now' first = first
  /\ later !! PriceCache.cache_key slug tok
     = Some {| PriceCache.price := pr; PriceCache.team_name := team;
               PriceCache.cached_at := now |}
  /\ PriceCache.get_cached_price slug tok later = Some pr.
Proof.
  intros Hfree first later.
  assert (Hfirst : first !! PriceCache.cache_key slug tok
                   = Some {| PriceCache.price := pr; PriceCache.team_name := team;
                             PriceCache.cached_at := now |}).
  { unfold first, PriceCache.cache_price. rewrite Hfree. apply lookup_insert_eq. }
  assert (Hlater := puts_keep puts _ _ _ Hfirst). fold later in Hlater.
  repeat split.
  - unfold PriceCache.get_cached_price. by rewrite Hfirst.
  - unfold PriceCache.cache_price at 1. by rewrite Hfirst.
  - exact Hlater.
  - unfold PriceCache.get_cached_price. by rewrite Hlater.
Qed.

Lemma C6_cache_price_write_once_witness :
  let first := PriceCache.cache_price "S" "T" (30 # 100) "A" 0 ∅ in
  let later :=
    foldl PriceCache.apply_put first
      [{| PriceCache.put_slug := "S"; PriceCache.put_token := "T";
          PriceCache.put_price := 55 # 100; PriceCache.put_team := "B";
          PriceCache.put_time := 3 |}] in
  PriceCache.get_cached_price "S" "T" first = Some (30 # 100)
  /\ PriceCache.cache_price "S" "T" (99 # 100) "C" 4 first = first
  /\ later !! PriceCache.cache_key "S" "T"
     = Some {| PriceCache.price := 30 # 100; PriceCache.team_name := "A";
               PriceCache.cached_at := 0 |}
  /\ PriceCache.get_cached_price "S" "T" later = Some (30 # 100).
Proof.
  apply (C6_cache_price_write_once "S" "T" (30 # 100) "A" 0 ∅ (99 # 100) "C" 4).
  vm_compute. reflexivity.
Defined.

(** ** Claims on the admission queue *)

Section queue_facts.
Context {V : Type}.

Lemma one_entry_per_key (m : gmap string V) (s : string) (v : V) :
  m !! s = Some v ->
  length (filter (fun kv => kv.1 = s) (map_to_list m)) = 1%nat.
Proof.
  intros Hs. rewrite <- (map_to_list_delete m s v Hs).
  rewrite filter_cons_True by done. simpl. f_equal.
  assert (Hrest : Forall (fun kv => kv.1 <> s) (map_to_list (delete s m))).
  { apply Forall_forall. intros [k x] Hin Hk. simpl in Hk. subst k.
    apply elem_of_map_to_list in Hin. by rewrite lookup_delete_eq in Hin. }
  induction Hrest as [|kv l Hkv _ IH]; [done|].
  by rewrite filter_cons_False.
Qed.
End queue_facts.

(** C7 — idempotent admission.  [add_pending_market] on a slug that is
    already queued returns the queue as it is: the entry of the first
    registration (entry_time, match_start_time, status, discovered_at) is
    the one stored, and the queue lists exactly one entry for the slug. *)
Theorem C7_add_pending_market_idempotent
    (s entry start : string) (now : Z)
    (pending : gmap string MarketQueue.QueuedMarket)
    (first : MarketQueue.QueuedMarket) :
  pending !! s = Some first ->
  let again := MarketQueue.add_pending_market s entry start now pending in
  again = pending
  /\ again !! s = Some first
  /\ length (filter (fun kv => kv.1 = s) (map_to_list again)) = 1%nat.
Proof.
  intros Hs again.
  assert (Heq : again = pending).
  { unfold again, MarketQueue.add_pending_market. by rewrite Hs. }
  rewrite Heq. repeat split; [done|]. by eapply one_entry_per_key.
Qed.

(** Scenario E: "m1" registered twice. *)
Lemma C7_add_pending_market_idempotent_witness :
  let once := MarketQueue.add_pending_market "m1" "t100" "t900" 7 ∅ in
  let again := MarketQueue.add_pending_market "m1" "t200" "t800" 8 once in
  again = once
  /\ again !! "m1" = Some Samples.m1
  /\ length (filter (fun kv => kv.1 = "m1") (map_to_list again)) = 1%nat.
Proof.
  apply (C7_add_pending_market_idempotent "m1" "t200" "t800" 8
           (MarketQueue.add_pending_market "m1" "t100" "t900" 7 ∅) Samples.m1).
  vm_compute. reflexivity.
Defined.

(** C8 — entry-window selection.  [get_markets_ready_for_entry] lists no
    slug twice, and a slug is listed exactly when its queue entry has
    status 'pending', both its timestamps parse, and
    entry_time <= now <= entry_time + grace period and now < match_start_time. *)
Theorem C8_ready_for_entry_exact
    (fromisoformat : string -> option Z) (grace_period_minutes now : Z)
    (pending : gmap string MarketQueue.QueuedMarket) :
  let ready :=
    MarketQueue.get_markets_ready_for_entry fromisoformat grace_period_minutes
      now pending in
  NoDup ready
  /\ forall s : string,
       s ∈ ready <->
       exists (m : MarketQueue.QueuedMarket) (entry start : Z),
         pending !! s = Some m
         /\ MarketQueue.status m = "pending"
         /\ fromisoformat (MarketQueue.entry_time m) = Some entry
         /\ fromisoformat (MarketQueue.match_start_time m) = Some start
         /\ (entry <= now <= entry + grace_period_minutes * MarketQueue.minute)%Z
         /\ (now < start)%Z.
Proof.
  intros ready. split.
  - unfold ready, MarketQueue.get_markets_ready_for_entry.
    eapply sublist_NoDup; [exact (NoDup_fst_map_to_list pending)|].
    apply fmap_sublist. apply sublist_filter.
  - intros s. unfold ready, MarketQueue.get_markets_ready_for_entry.
    rewrite list_elem_of_fmap. split.
    + intros [[k m] [-> Hin]]. simpl.
      apply list_elem_of_filter in Hin as [Hready Hin]. simpl in Hready.
      apply elem_of_map_to_list in Hin.
      unfold MarketQueue.ready_for_entry in Hready.
      case_bool_decide as Hst; [|discriminate].
      destruct (fromisoformat (MarketQueue.entry_time m)) as [entry|] eqn:He;
        [|discriminate].
      destruct (fromisoformat (MarketQueue.match_start_time m)) as [start|] eqn:Hm;
        [|discriminate].
      exists m, entry, start. repeat split; try done; lia.
    + intros (m & entry & start & Hs & Hst & He & Hm & Hwin & Hlt).
      exists (s, m). split; [done|].
      apply list_elem_of_filter. split; [|by apply elem_of_map_to_list].
      simpl. unfold MarketQueue.ready_for_entry.
      rewrite bool_decide_eq_true_2, He, Hm by done. lia.
Qed.

(** ** Claims on the reconciliation pass *)

Section reconciliation_facts.
Variable client : TradeExecutor.Client.
Variable now : Z.
Variable ended : gset string.

Implicit Types (s : TradeExecutor.Recon) (od : OrderMonitor.TrackedOrder).

(** An order of a closed market is dropped and nothing is asked of the
    venue. *)
Lemma recreate_one_ended s od :
  OrderMonitor.market_slug od ∈ ended ->
  TradeExecutor.recreate_one client now ended s od
  = {| TradeExecutor.order_monitor :=
         OrderMonitor.remove_order (OrderMonitor.order_id od)
           (TradeExecutor.order_monitor s);
       TradeExecutor.market_queue :=
         MarketQueue.remove_market (OrderMonitor.market_slug od)
           <$> TradeExecutor.market_queue s;
       TradeExecutor.events := TradeExecutor.events s;
       TradeExecutor.recreated_count := TradeExecutor.recreated_count s;
       TradeExecutor.skipped_ended_markets :=
         S (TradeExecutor.skipped_ended_markets s) |}.
Proof.
  intros Hin. unfold TradeExecutor.recreate_one.
  by rewrite bool_decide_eq_true_2.
Qed.

(** An iteration submits nothing, or exactly the request of its order. *)
Lemma recreate_one_placements s od :
  TradeExecutor.placements (TradeExecutor.events (TradeExecutor.recreate_one client now ended s od))
  = TradeExecutor.placements (TradeExecutor.events s)
  \/ TradeExecutor.placements (TradeExecutor.events (TradeExecutor.recreate_one client now ended s od))
     = TradeExecutor.recreate_request od
         :: TradeExecutor.placements (TradeExecutor.events s).
Proof.
  unfold TradeExecutor.recreate_one.
  case_bool_decide; [by left|].
  destruct (TradeExecutor.get_token_balance client _ _) as [b|]; [|by left].
  destruct (Qltb dust b); [by left|].
  right. by destruct (TradeExecutor.place_limit client _ _) as [[new|]|].
Qed.

(** The submissions of a run of the loop are the requests of a sub-list
    of the orders it went through: one attempt per order at most. *)
Lemma recreate_all_attempts (ds : list OrderMonitor.TrackedOrder) s :
  exists attempted,
    attempted `sublist_of` ds
    /\ TradeExecutor.placements
         (TradeExecutor.events (TradeExecutor.recreate_all client now ended ds s))
       = reverse (TradeExecutor.recreate_request <$> attempted)
           ++ TradeExecutor.placements (TradeExecutor.events s).
Proof.
  revert s. induction ds as [|od ds IH]; intros s.
  - exists []. split; [constructor | done].
  - unfold TradeExecutor.recreate_all. simpl.
    destruct (IH (TradeExecutor.recreate_one client now ended s od))
      as (attempted & Hsub & Heq).
    unfold TradeExecutor.recreate_all in Heq. rewrite Heq.
    destruct (recreate_one_placements s od) as [-> | ->].
    + exists attempted. split; [by apply sublist_cons | done].
    + exists (od :: attempted). split; [by apply sublist_skip |].
      rewrite fmap_cons, reverse_cons, <- app_assoc. done.
Qed.
End reconciliation_facts.

Lemma ended_markets_spec (market_scanner : option (string -> bool))
    (disappeared : list OrderMonitor.TrackedOrder) (od : OrderMonitor.TrackedOrder) :
  od ∈ disappeared ->
  OrderMonitor.market_slug od ∈ TradeExecutor.ended_markets market_scanner disappeared
  <-> exists is_market_active,
        market_scanner = Some is_market_active
        /\ is_market_active (OrderMonitor.market_slug od) = false.
Proof.
  intros Hin. unfold TradeExecutor.ended_markets.
  destruct market_scanner as [f|].
  - rewrite elem_of_filter, elem_of_list_to_set. split.
    + intros [Hf _]. eauto.
    + intros (g & [= <-] & Hg). split; [done|]. by apply list_elem_of_fmap_2.
  - split; [set_solver|]. by intros (g & [=] & _).
Qed.

(** The recreated order is equivalent: same token, side and price; a sell
    is for the size of the lost order, a buy for the amount [price * size]
    as the Decimal product gives it. *)
Lemma recreate_request_equivalent (od : OrderMonitor.TrackedOrder) :
  TradeExecutor.request_token (TradeExecutor.recreate_request od)
    = OrderMonitor.token_id od
  /\ TradeExecutor.request_price (TradeExecutor.recreate_request od)
    = OrderMonitor.price od
  /\ (OrderMonitor.side od = "BUY" ->
        TradeExecutor.recreate_request od
        = TradeExecutor.LimitBuy (OrderMonitor.token_id od) (OrderMonitor.price od)
            (Decimal.mul (OrderMonitor.price od) (OrderMonitor.size od)))
  /\ (OrderMonitor.side od <> "BUY" ->
        TradeExecutor.recreate_request od
        = TradeExecutor.LimitSell (OrderMonitor.token_id od) (OrderMonitor.price od)
            (OrderMonitor.size od)).
Proof.
  unfold TradeExecutor.recreate_request.
  case_bool_decide as Hside; simpl; repeat split; done.
Qed.

(** The queue after [remove_market]: the slug is gone, the other markets
    are as they were. *)
Lemma remove_market_lookup (s other : string)
    (queue : gmap string MarketQueue.QueuedMarket) :
  MarketQueue.remove_market s queue !! other
  = if decide (s = other) then None else queue !! other.
Proof.
  unfold MarketQueue.remove_market. case_decide as Hs.
  - subst. apply lookup_delete_eq.
  - by apply lookup_delete_ne.
Qed.

Lemma Qltb_lt (a b : Q) : Qltb a b = true <-> (a < b)%Q.
Proof.
  unfold Qltb. rewrite negb_true_iff. split.
  - intros Hle. apply Qnot_le_lt. intros H. apply Qle_bool_iff in H. congruence.
  - intros Hlt. destruct (Qle_bool b a) eqn:Hle; [|done].
    apply Qle_bool_iff in Hle. by apply Qlt_not_le in Hlt.
Qed.

Lemma Qltb_ge (a b : Q) : Qltb a b = false <-> (b <= a)%Q.
Proof.
  unfold Qltb. rewrite negb_false_iff. apply Qle_bool_iff.
Qed.

(** The pass, seen from the iteration that handles one disappeared order:
    what was done before it gives the state [s] it starts from, and the
    pass ends with the loop over the orders after it. *)
Lemma check_and_recreate_orders_split
    (client : TradeExecutor.Client) (market_scanner : option (string -> bool))
    (now : Z) (open_orders : list TradeExecutor.OpenOrder)
    (tracked : OrderMonitor.tracked_orders)
    (queue : option (gmap string MarketQueue.QueuedMarket))
    (history : list TradeExecutor.Event)
    (before after : list OrderMonitor.TrackedOrder) (od : OrderMonitor.TrackedOrder) :
  let observed :=
    TradeExecutor.observe_all now (TradeExecutor.open_order_ids open_orders) tracked in
  let disappeared := OrderMonitor.get_disappeared_orders observed in
  let ended := TradeExecutor.ended_markets market_scanner disappeared in
  let s :=
    TradeExecutor.recreate_all client now ended before
      {| TradeExecutor.order_monitor := observed;
         TradeExecutor.market_queue := queue;
         TradeExecutor.events := history;
         TradeExecutor.recreated_count := 0;
         TradeExecutor.skipped_ended_markets := 0 |} in
  disappeared = before ++ od :: after ->
  TradeExecutor.check_and_recreate_orders client market_scanner now open_orders
    tracked queue history
  = TradeExecutor.recreate_all client now ended after
      (TradeExecutor.recreate_one client now ended s od).
Proof.
  intros observed disappeared ended s Hsplit.
  unfold TradeExecutor.check_and_recreate_orders.
  fold observed. fold disappeared. fold ended.
  destruct disappeared as [|d ds] eqn:Hd.
  - by destruct before.
  - rewrite Hsplit. unfold s, TradeExecutor.recreate_all.
    by rewrite foldl_app.
Qed.

(** C3 — reconciliation safety.  Take any disappeared order [od] the pass
    goes through, [s] being the state when its turn comes and [s'] the
    state after it.  If the scanner reports its market inactive, the entry
    of its order id is gone from the ledger, the market is evicted from the
    queue (the queue no longer holds its slug and holds every other market
    as before), and the venue is asked nothing.  Otherwise, if the balance
    of its token is above 0.1, the order is marked filled and nothing is
    submitted.  An order is submitted only when the market is not inactive
    and the balance is at most 0.1, and then it is the equivalent order: on
    the token and at the price of [od], a buy for the amount price times
    size when [od] is a BUY, a sell for its size otherwise. *)
Theorem C3_reconciliation_safety
    (client : TradeExecutor.Client) (market_scanner : option (string -> bool))
    (now : Z) (open_orders : list TradeExecutor.OpenOrder)
    (tracked : OrderMonitor.tracked_orders)
    (queue : option (gmap string MarketQueue.QueuedMarket))
    (history : list TradeExecutor.Event)
    (before after : list OrderMonitor.TrackedOrder) (od : OrderMonitor.TrackedOrder) :
  let observed :=
    TradeExecutor.observe_all now (TradeExecutor.open_order_ids open_orders) tracked in
  let disappeared := OrderMonitor.get_disappeared_orders observed in
  let ended := TradeExecutor.ended_markets market_scanner disappeared in
  let s :=
    TradeExecutor.recreate_all client now ended before
      {| TradeExecutor.order_monitor := observed;
         TradeExecutor.market_queue := queue;
         TradeExecutor.events := history;
         TradeExecutor.recreated_count := 0;
         TradeExecutor.skipped_ended_markets := 0 |} in
  let s' := TradeExecutor.recreate_one client now ended s od in
  let oid := OrderMonitor.order_id od in
  let slug := OrderMonitor.market_slug od in
  let inactive :=
    exists is_market_active,
      market_scanner = Some is_market_active /\ is_market_active slug = false in
  let balance :=
    TradeExecutor.get_token_balance client (TradeExecutor.events s)
      (OrderMonitor.token_id od) in
  let equivalent :=
    if bool_decide (OrderMonitor.side od = "BUY")
    then TradeExecutor.LimitBuy (OrderMonitor.token_id od) (OrderMonitor.price od)
           (Decimal.mul (OrderMonitor.price od) (OrderMonitor.size od))
    else TradeExecutor.LimitSell (OrderMonitor.token_id od) (OrderMonitor.price od)
           (OrderMonitor.size od) in
  disappeared = before ++ od :: after ->
  TradeExecutor.check_and_recreate_orders client market_scanner now open_orders
    tracked queue history
  = TradeExecutor.recreate_all client now ended after s'
  /\ (inactive ->
      PyDict.getitem oid (TradeExecutor.order_monitor s') = None
      /\ TradeExecutor.market_queue s'
         = MarketQueue.remove_market slug <$> TradeExecutor.market_queue s
      /\ TradeExecutor.events s' = TradeExecutor.events s
      /\ TradeExecutor.recreated_count s' = TradeExecutor.recreated_count s
      /\ (TradeExecutor.market_queue s = None -> TradeExecutor.market_queue s' = None)
      /\ (forall pending, TradeExecutor.market_queue s = Some pending ->
            exists pending',
              TradeExecutor.market_queue s' = Some pending'
              /\ pending' !! slug = None
              /\ MarketQueue.has_market slug pending' = false
              /\ forall other, other <> slug -> pending' !! other = pending !! other))
  /\ (~ inactive -> forall b : Q, balance = TradeExecutor.Returned b -> (dust < b)%Q ->
      TradeExecutor.order_monitor s'
      = OrderMonitor.mark_order_filled oid (TradeExecutor.order_monitor s)
      /\ OrderMonitor.status <$> PyDict.getitem oid (TradeExecutor.order_monitor s')
         = (fun _ => "filled") <$> PyDict.getitem oid (TradeExecutor.order_monitor s)
      /\ TradeExecutor.placements (TradeExecutor.events s')
         = TradeExecutor.placements (TradeExecutor.events s)
      /\ TradeExecutor.recreated_count s' = TradeExecutor.recreated_count s)
  /\ (~ inactive -> forall b : Q, balance = TradeExecutor.Returned b -> (b <= dust)%Q ->
      TradeExecutor.placements (TradeExecutor.events s')
      = TradeExecutor.recreate_request od
          :: TradeExecutor.placements (TradeExecutor.events s)
      /\ TradeExecutor.recreate_request od = equivalent)
  /\ (TradeExecutor.placements (TradeExecutor.events s')
      <> TradeExecutor.placements (TradeExecutor.events s) ->
      ~ inactive
      /\ (exists b : Q, balance = TradeExecutor.Returned b /\ (b <= dust)%Q)
      /\ TradeExecutor.placements (TradeExecutor.events s')
         = equivalent :: TradeExecutor.placements (TradeExecutor.events s)).
Proof.
  intros observed disappeared ended s s' oid slug inactive balance equivalent Hsplit.
  assert (Hin : od ∈ disappeared).
  { rewrite Hsplit. apply elem_of_app. right. apply list_elem_of_here. }
  assert (Hended : slug ∈ ended <-> inactive).
  { apply ended_markets_spec, Hin. }
  assert (Hrequest : TradeExecutor.recreate_request od = equivalent).
  { unfold equivalent.
    destruct (recreate_request_equivalent od) as (_ & _ & Hbuy & Hsell).
    case_bool_decide; [by apply Hbuy | by apply Hsell]. }
  split; [by apply check_and_recreate_orders_split|].
  split; [|split; [|split]].
  - intros Hinactive. apply Hended in Hinactive.
    unfold s'. rewrite recreate_one_ended by done. simpl.
    rewrite remove_order_lookup, decide_True by done.
    split; [done|]. split; [done|]. split; [done|]. split; [done|]. split.
    + by intros ->.
    + intros pending ->. exists (MarketQueue.remove_market slug pending).
      split; [reflexivity|].
      assert (Hgone : MarketQueue.remove_market slug pending !! slug = None).
      { by rewrite remove_market_lookup, decide_True. }
      split; [exact Hgone|]. split.
      * unfold MarketQueue.has_market. apply bool_decide_eq_false_2.
        rewrite Hgone. by intros [? ?].
      * intros other Hother. by rewrite remove_market_lookup, decide_False.
  - intros Hactive b Hb Hlt.
    assert (Hnot : slug ∉ ended) by (by rewrite Hended).
    unfold s', TradeExecutor.recreate_one.
    rewrite bool_decide_eq_false_2 by done. fold balance. rewrite Hb.
    rewrite (proj2 (Qltb_lt dust b) Hlt). simpl.
    repeat split.
    rewrite mark_order_filled_lookup, decide_True by done.
    by destruct (PyDict.getitem oid (TradeExecutor.order_monitor s)).
  - intros Hactive b Hb Hle.
    assert (Hnot : slug ∉ ended) by (by rewrite Hended).
    split; [|exact Hrequest].
    unfold s', TradeExecutor.recreate_one.
    rewrite bool_decide_eq_false_2 by done. fold balance. rewrite Hb.
    rewrite (proj2 (Qltb_ge dust b) Hle).
    by destruct (TradeExecutor.place_limit client _ _) as [[new|]|].
  - rewrite <- Hrequest. unfold s', TradeExecutor.recreate_one.
    case_bool_decide as Hslug; [done|].
    fold balance. destruct balance as [b|] eqn:Hb; [|done].
    destruct (Qltb dust b) eqn:Hdust; [done|].
    intros _. split; [by rewrite <- Hended|].
    split; [exists b; split; [done | by apply Qltb_ge]|].
    by destruct (TradeExecutor.place_limit client _ _) as [[new|]|].
Qed.

(** Scenario B: O1 disappears while 12 shares of T are held. *)
Lemma C3_reconciliation_safety_witness :
  let od := Samples.order "disappeared" 1 in
  let ended := TradeExecutor.ended_markets (Some Samples.all_active) [od] in
  let s :=
    {| TradeExecutor.order_monitor := Samples.ledger "disappeared" 1;
       TradeExecutor.market_queue := Some Samples.queue;
       TradeExecutor.events := [];
       TradeExecutor.recreated_count := 0;
       TradeExecutor.skipped_ended_markets := 0 |} in
  let s' := TradeExecutor.recreate_one Samples.holding 5 ended s od in
  TradeExecutor.check_and_recreate_orders Samples.holding (Some Samples.all_active) 5
    [] (Samples.ledger "active" 0) (Some Samples.queue) []
  = TradeExecutor.recreate_all Samples.holding 5 ended [] s'
  /\ OrderMonitor.status <$> PyDict.getitem "O1" (TradeExecutor.order_monitor s')
     = Some "filled"
  /\ TradeExecutor.placements (TradeExecutor.events s') = [].
Proof.
  intros od ended s s'.
  destruct (C3_reconciliation_safety Samples.holding (Some Samples.all_active) 5
              [] (Samples.ledger "active" 0) (Some Samples.queue) [] [] [] od)
    as (Hpass & _ & Hfilled & _).
  { reflexivity. }
  split; [exact Hpass|].
  destruct (Hfilled) with (b := 12 # 1) as (_ & Hstatus & Hplaced & _).
  - intros (f & [= <-] & Hf). discriminate.
  - reflexivity.
  - reflexivity.
  - split; [exact Hstatus | exact Hplaced].
Defined.

(** The ended-market branch on the same order: O1 leaves the ledger, its
    market leaves the queue, the venue is not asked. *)
Lemma ended_market_scenario :
  let pass :=
    TradeExecutor.check_and_recreate_orders Samples.accepting
      (Some Samples.all_ended) 5 [] (Samples.ledger "active" 0)
      (Some {[ "S" := Samples.m1 ]}) [] in
  TradeExecutor.order_monitor pass = []
  /\ (TradeExecutor.market_queue pass ≫= lookup "S") = None
  /\ TradeExecutor.events pass = []
  /\ TradeExecutor.recreated_count pass = 0%nat
  /\ TradeExecutor.skipped_ended_markets pass = 1%nat.
Proof. vm_compute. repeat split. Qed.

(** C9 — a failed recreation is isolated.  Take any disappeared order [od]
    the pass goes through, whose market is not ended and whose token
    balance is at most 0.1, and let the submission of its request raise or
    come back without an order id.  Its iteration leaves the ledger, the
    queue and the count of recreated orders as they were (no entry added,
    nothing marked recreated: [od], listed with status 'disappeared', stays
    as it is), and exactly one submission was made for it.  The pass goes
    on with the orders after [od].  Over the whole pass the submissions are
    the requests of a sub-list of the disappeared orders: at most one
    attempt per order. *)
Theorem C9_recreation_failure_isolated
    (client : TradeExecutor.Client) (market_scanner : option (string -> bool))
    (now : Z) (open_orders : list TradeExecutor.OpenOrder)
    (tracked : OrderMonitor.tracked_orders)
    (queue : option (gmap string MarketQueue.QueuedMarket))
    (history : list TradeExecutor.Event)
    (before after : list OrderMonitor.TrackedOrder) (od : OrderMonitor.TrackedOrder)
    (b : Q) :
  let observed :=
    TradeExecutor.observe_all now (TradeExecutor.open_order_ids open_orders) tracked in
  let disappeared := OrderMonitor.get_disappeared_orders observed in
  let ended := TradeExecutor.ended_markets market_scanner disappeared in
  let s :=
    TradeExecutor.recreate_all client now ended before
      {| TradeExecutor.order_monitor := observed;
         TradeExecutor.market_queue := queue;
         TradeExecutor.events := history;
         TradeExecutor.recreated_count := 0;
         TradeExecutor.skipped_ended_markets := 0 |} in
  let s' := TradeExecutor.recreate_one client now ended s od in
  let final :=
    TradeExecutor.check_and_recreate_orders client market_scanner now open_orders
      tracked queue history in
  let asked :=
    TradeExecutor.BalanceQuery (OrderMonitor.token_id od) (TradeExecutor.Returned b)
      :: TradeExecutor.events s in
  let response :=
    TradeExecutor.place_limit client asked (TradeExecutor.recreate_request od) in
  disappeared = before ++ od :: after ->
  OrderMonitor.market_slug od ∉ ended ->
  TradeExecutor.get_token_balance client (TradeExecutor.events s)
    (OrderMonitor.token_id od) = TradeExecutor.Returned b ->
  (b <= dust)%Q ->
  response = TradeExecutor.Raised \/ response = TradeExecutor.Returned None ->
  TradeExecutor.order_monitor s' = TradeExecutor.order_monitor s
  /\ TradeExecutor.market_queue s' = TradeExecutor.market_queue s
  /\ TradeExecutor.recreated_count s' = TradeExecutor.recreated_count s
  /\ od ∈ PyDict.values observed
  /\ OrderMonitor.status od = "disappeared"
  /\ TradeExecutor.placements (TradeExecutor.events s')
     = TradeExecutor.recreate_request od
         :: TradeExecutor.placements (TradeExecutor.events s)
  /\ final = TradeExecutor.recreate_all client now ended after s'
  /\ exists attempted : list OrderMonitor.TrackedOrder,
       attempted `sublist_of` disappeared
       /\ TradeExecutor.placements (TradeExecutor.events final)
          = reverse (TradeExecutor.recreate_request <$> attempted)
              ++ TradeExecutor.placements history.
Proof.
  intros observed disappeared ended s s' final asked response
         Hsplit Hlive Hbalance Hdust Hfail.
  assert (Hin : od ∈ disappeared).
  { rewrite Hsplit. apply elem_of_app. right. apply list_elem_of_here. }
  assert (Hstep : s' = {| TradeExecutor.order_monitor := TradeExecutor.order_monitor s;
                          TradeExecutor.market_queue := TradeExecutor.market_queue s;
                          TradeExecutor.events :=
                            TradeExecutor.Placement (TradeExecutor.recreate_request od)
                              response :: asked;
                          TradeExecutor.recreated_count := TradeExecutor.recreated_count s;
                          TradeExecutor.skipped_ended_markets :=
                            TradeExecutor.skipped_ended_markets s |}).
  { unfold s', TradeExecutor.recreate_one.
    rewrite bool_decide_eq_false_2 by done. rewrite Hbalance.
    rewrite (proj2 (Qltb_ge dust b) Hdust).
    fold asked. fold response. by destruct Hfail as [-> | ->]. }
  assert (Hfinal : final = TradeExecutor.recreate_all client now ended after s').
  { by apply check_and_recreate_orders_split. }
  repeat split; try (rewrite Hstep; done).
  - unfold disappeared, OrderMonitor.get_disappeared_orders in Hin.
    apply list_elem_of_filter in Hin. tauto.
  - by eapply get_disappeared_orders_status.
  - exact Hfinal.
  - unfold final, TradeExecutor.check_and_recreate_orders.
    fold observed. fold disappeared. fold ended.
    destruct disappeared as [|d ds] eqn:Hd.
    + exists []. split; [constructor | done].
    + apply (recreate_all_attempts client now ended (d :: ds)).
Qed.

(** Scenario A with a venue that rejects the submission: O1 stays
    'disappeared', one attempt was made, nothing was recreated. *)
Lemma C9_recreation_failure_isolated_witness :
  let od := Samples.order "disappeared" 1 in
  let ended := TradeExecutor.ended_markets (Some Samples.all_active) [od] in
  let s :=
    {| TradeExecutor.order_monitor := Samples.ledger "disappeared" 1;
       TradeExecutor.market_queue := None;
       TradeExecutor.events := [];
       TradeExecutor.recreated_count := 0;
       TradeExecutor.skipped_ended_markets := 0 |} in
  let s' := TradeExecutor.recreate_one Samples.rejecting 5 ended s od in
  TradeExecutor.order_monitor s' = Samples.ledger "disappeared" 1
  /\ TradeExecutor.market_queue s' = None
  /\ TradeExecutor.recreated_count s' = 0%nat.
Proof.
  intros od ended s s'.
  destruct (C9_recreation_failure_isolated Samples.rejecting (Some Samples.all_active)
              5 [] (Samples.ledger "active" 0) None [] [] [] od (0 # 1))
    as (Hledger & Hqueue & Hcount & _).
  - reflexivity.
  - apply (bool_decide_eq_false_1 _). vm_compute. reflexivity.
  - reflexivity.
  - vm_compute. discriminate.
  - right. reflexivity.
  - split; [exact Hledger | split; [exact Hqueue | exact Hcount]].
Defined.

(** ** Claims on the exit pass *)

Section exit_facts.
Variable client : TradeExecutor.Client.
Variable now : Z.
Variable already_profitable_markets : gset string.
Variable price_cache : gmap string TradeExecutor.PriceData.

(** Order ids assigned by the venue are not empty, so an accepted sell
    is a truthy [tp_order_id]. *)
Hypothesis order_ids_nonempty :
  forall h r, TradeExecutor.place_limit client h r
              <> TradeExecutor.Returned (Some EmptyString).

Implicit Types (s : TradeExecutor.Exit) (p : TradeExecutor.Position).




End exit_facts.

Section open_sells_facts.
Implicit Types (orders : list TradeExecutor.OpenOrder) (m : gmap string Q).


End open_sells_facts.




Section exit_rule_facts.
Implicit Types (entry : TradeExecutor.PriceData).


End exit_rule_facts.



(** The rule on floats: with the strong team at 30.04 cents and an entry at
    22 cents, [102 - 30.04] is the float 71.96000000000001 and the sell
    goes out at 0.7196000000000001. *)
Lemma weak_team_exit_price_is_a_float :
  TradeExecutor.take_profit_price
    {| TradeExecutor.pd_price := Some (22 # 100);
       TradeExecutor.pd_strong_team_price_cents := Some (3004 # 100);
       TradeExecutor.pd_filled_entry_numbers := Some [2%Z];
       TradeExecutor.pd_other_keys := false |}
  = Some (7196000000000001 # 10000000000000000)
  /\ ~ (7196000000000001 # 10000000000000000 == (102 - (3004 # 100)) / 100)%Q.
Proof.
  split; [vm_compute; reflexivity|]. intros Heq. vm_compute in Heq. discriminate.
Qed.


(** * Further properties of the stores *)

(** ** The price cache: markets and clearing *)

Section cache_market_facts.
Implicit Types (cached : gmap string PriceCache.CachedPrice) (key : string).

Lemma prefix_append (p s : string) : String.prefix p (p +:+ s) = true.
Proof.
  induction p as [|a p IH]; simpl; [by destruct s|].
  destruct (Ascii.ascii_dec a a); [exact IH | done].
Qed.

Lemma cache_key_of_market slug tok :
  PriceCache.of_market slug (PriceCache.cache_key slug tok) = true.
Proof.
  unfold PriceCache.of_market, PriceCache.cache_key.
  assert (Hassoc : forall a b c : string, a +:+ b +:+ c = (a +:+ b) +:+ c).
  { intros a b c. induction a as [|x a IH]; [reflexivity|].
    change (String x (a +:+ b +:+ c) = String x ((a +:+ b) +:+ c)).
    by rewrite IH. }
  rewrite Hassoc. apply prefix_append.
Qed.

Lemma has_cached_price_spec slug cached :
  PriceCache.has_cached_price slug cached = true
  <-> exists key entry,
        cached !! key = Some entry /\ PriceCache.of_market slug key = true.
Proof.
  unfold PriceCache.has_cached_price. rewrite existsb_exists. split.
  - intros ([key entry] & Hin & Hof). exists key, entry. split; [|done].
    apply elem_of_map_to_list. by apply list_elem_of_In.
  - intros (key & entry & Hkey & Hof). exists (key, entry). split; [|done].
    apply list_elem_of_In. by apply elem_of_map_to_list.
Qed.

Lemma lookup_foldl_delete {V : Type} (m : gmap string V) (ks : list string) key :
  foldl (fun m k => delete k m) m ks !! key
  = if decide (key ∈ ks) then None else m !! key.
Proof.
  revert m. induction ks as [|k ks IH]; intros m; simpl.
  - destruct (decide (key ∈ [])) as [Hin|_]; [by apply elem_of_nil in Hin | done].
  - rewrite IH.
    destruct (decide (key ∈ ks)) as [Hin|Hout];
      destruct (decide (key ∈ k :: ks)) as [Hin'|Hout']; try done.
    + exfalso. apply Hout'. by apply list_elem_of_further.
    + apply elem_of_cons in Hin' as [->|?]; [apply lookup_delete_eq | done].
    + apply lookup_delete_ne. intros ->. apply Hout', list_elem_of_here.
Qed.

Lemma clear_market_lookup slug cached key :
  PriceCache.clear_market slug cached !! key
  = if PriceCache.of_market slug key then None else cached !! key.
Proof.
  unfold PriceCache.clear_market. rewrite lookup_foldl_delete.
  destruct (PriceCache.of_market slug key) eqn:Hof.
  - destruct (cached !! key) as [entry|] eqn:Hkey; [|by case_decide].
    case_decide as Hin; [done|]. exfalso. apply Hin.
    apply list_elem_of_filter. split; [done|].
    apply list_elem_of_fmap. exists (key, entry). split; [done|].
    by apply elem_of_map_to_list.
  - case_decide as Hin; [|done].
    apply list_elem_of_filter in Hin as [Hof' _]. congruence.
Qed.
End cache_market_facts.

(** [has_cached_price] tells whether some key of the store starts with
    "slug:".  It is true right after [cache_price] on the market, whatever
    the store held, and whenever [get_cached_price] finds a price for one of
    its tokens. *)
Theorem has_cached_price_after_cache_price
    (slug tok : string) (pr : Q) (team : string) (now : Z)
    (cached : gmap string PriceCache.CachedPrice) :
  PriceCache.has_cached_price slug
    (PriceCache.cache_price slug tok pr team now cached) = true
  /\ (is_Some (PriceCache.get_cached_price slug tok cached) ->
      PriceCache.has_cached_price slug cached = true)
  /\ (PriceCache.has_cached_price slug cached = true
      <-> exists key entry,
            cached !! key = Some entry
            /\ String.prefix (slug +:+ ":") key = true).
Proof.
  split; [|split].
  - apply has_cached_price_spec.
    unfold PriceCache.cache_price.
    destruct (cached !! PriceCache.cache_key slug tok) as [entry|] eqn:Hkey.
    + exists (PriceCache.cache_key slug tok), entry.
      split; [done | apply cache_key_of_market].
    + eexists (PriceCache.cache_key slug tok), _.
      split; [apply lookup_insert_eq | apply cache_key_of_market].
  - unfold PriceCache.get_cached_price.
    destruct (cached !! PriceCache.cache_key slug tok) as [entry|] eqn:Hkey.
    + intros _. apply has_cached_price_spec.
      exists (PriceCache.cache_key slug tok), entry.
      split; [done | apply cache_key_of_market].
    + by intros [? ?].
  - apply has_cached_price_spec.
Qed.

(** X1 — [clear_market] removes exactly the keys that start with "slug:".
    Afterwards the market has no cached price and [get_cached_price] finds
    nothing for any of its tokens; every other key keeps its entry. *)
Theorem clear_market_removes_the_market
    (slug : string) (cached : gmap string PriceCache.CachedPrice) :
  let cleared := PriceCache.clear_market slug cached in
  PriceCache.has_cached_price slug cleared = false
  /\ (forall tok, PriceCache.get_cached_price slug tok cleared = None)
  /\ (forall key,
        cleared !! key
        = if String.prefix (slug +:+ ":") key then None else cached !! key).
Proof.
  intros cleared. split; [|split].
  - destruct (PriceCache.has_cached_price slug cleared) eqn:Hhas; [|done].
    apply has_cached_price_spec in Hhas as (key & entry & Hkey & Hof).
    unfold cleared in Hkey. rewrite clear_market_lookup, Hof in Hkey. done.
  - intros tok. unfold PriceCache.get_cached_price, cleared.
    by rewrite clear_market_lookup, cache_key_of_market.
  - intros key. apply clear_market_lookup.
Qed.

(** Clearing reopens a key.  After [clear_market] the next
    [cache_price] on the market stores its price, whatever was cached
    before: the write-once rule holds between two clearings. *)
Theorem cache_price_after_clear_market
    (slug tok : string) (pr : Q) (team : string) (now : Z)
    (cached : gmap string PriceCache.CachedPrice) :
  PriceCache.get_cached_price slug tok
    (PriceCache.cache_price slug tok pr team now
       (PriceCache.clear_market slug cached))
  = Some pr.
Proof.
  unfold PriceCache.get_cached_price, PriceCache.cache_price.
  rewrite clear_market_lookup, cache_key_of_market.
  by rewrite lookup_insert_eq.
Qed.

(** ** The admission queue: entering, expiry, counters *)

Section queue_gate_facts.
Variable fromisoformat : string -> option Z.
Implicit Types (pending : gmap string MarketQueue.QueuedMarket) (s : string).

Lemma elem_of_ready grace now pending s :
  s ∈ MarketQueue.get_markets_ready_for_entry fromisoformat grace now pending
  <-> exists m, pending !! s = Some m
                /\ MarketQueue.ready_for_entry fromisoformat grace now m = true.
Proof.
  unfold MarketQueue.get_markets_ready_for_entry.
  rewrite list_elem_of_fmap. split.
  - intros ([k m] & -> & Hin). apply list_elem_of_filter in Hin as [Hready Hin].
    exists m. split; [by apply elem_of_map_to_list | done].
  - intros (m & Hs & Hready). exists (s, m). split; [done|].
    apply list_elem_of_filter. split; [done | by apply elem_of_map_to_list].
Qed.

Lemma cleanup_expired_markets_lookup now pending s :
  MarketQueue.cleanup_expired_markets fromisoformat now pending !! s
  = match pending !! s with
    | Some m => if MarketQueue.expired fromisoformat now m then None else Some m
    | None => None
    end.
Proof.
  unfold MarketQueue.cleanup_expired_markets. rewrite lookup_foldl_delete.
  destruct (pending !! s) as [m|] eqn:Hs.
  - destruct (MarketQueue.expired fromisoformat now m) eqn:Hexp.
    + case_decide as Hin; [done|]. exfalso. apply Hin.
      apply list_elem_of_fmap. exists (s, m). split; [done|].
      apply list_elem_of_filter. split; [done | by apply elem_of_map_to_list].
    + case_decide as Hin; [|done].
      apply list_elem_of_fmap in Hin as ([k m'] & -> & Hin).
      apply list_elem_of_filter in Hin as [Hexp' Hin].
      apply elem_of_map_to_list in Hin. simpl in *. congruence.
  - by case_decide.
Qed.

Lemma ready_not_expired expiry_fromisoformat grace now m :
  (forall start,
     fromisoformat (MarketQueue.match_start_time m) = Some start ->
     expiry_fromisoformat (MarketQueue.match_start_time m) = Some start) ->
  MarketQueue.ready_for_entry fromisoformat grace now m = true ->
  MarketQueue.expired expiry_fromisoformat now m = false.
Proof.
  intros Hsame. unfold MarketQueue.ready_for_entry, MarketQueue.expired.
  case_bool_decide; [|done].
  destruct (fromisoformat (MarketQueue.entry_time m)); [|done].
  destruct (fromisoformat (MarketQueue.match_start_time m)) as [start|]; [|done].
  rewrite (Hsame start eq_refl).
  unfold MarketQueue.hour. lia.
Qed.
End queue_gate_facts.

(** X2 — an entered market is never ready for entry again.  After
    [mark_market_entered] the slug is not in
    [get_markets_ready_for_entry], at any time and for any grace period;
    the readiness of the other slugs is unchanged, and the call leaves a
    queue that does not hold the slug as it is. *)
Theorem entered_market_is_never_ready
    (fromisoformat : string -> option Z) (grace_period_minutes now later : Z)
    (s : string) (pending : gmap string MarketQueue.QueuedMarket) :
  let marked := MarketQueue.mark_market_entered s now pending in
  (s ∉ MarketQueue.get_markets_ready_for_entry fromisoformat
         grace_period_minutes later marked)
  /\ (forall other, other <> s ->
        other ∈ MarketQueue.get_markets_ready_for_entry fromisoformat
                  grace_period_minutes later marked
        <-> other ∈ MarketQueue.get_markets_ready_for_entry fromisoformat
                      grace_period_minutes later pending)
  /\ (pending !! s = None -> marked = pending).
Proof.
  intros marked. split; [|split].
  - intros Hin. apply elem_of_ready in Hin as (m & Hs & Hready).
    unfold marked, MarketQueue.mark_market_entered in Hs.
    rewrite lookup_alter_eq in Hs.
    destruct (pending !! s) as [m0|]; [|done]. simpl in Hs. injection Hs as <-.
    unfold MarketQueue.ready_for_entry in Hready. simpl in Hready. done.
  - intros other Hne. rewrite !elem_of_ready.
    unfold marked, MarketQueue.mark_market_entered.
    by rewrite lookup_alter_ne.
  - intros Hs. unfold marked, MarketQueue.mark_market_entered.
    apply map_eq. intros k. destruct (decide (k = s)) as [->|Hne].
    + by rewrite lookup_alter_eq, Hs.
    + by rewrite lookup_alter_ne.
Qed.

(** X3 — [cleanup_expired_markets] removes exactly the markets whose
    match start is more than one hour past, or whose match start time does
    not parse; every other market keeps its entry. *)
Theorem cleanup_expired_markets_exact
    (fromisoformat : string -> option Z) (now : Z) (s : string)
    (pending : gmap string MarketQueue.QueuedMarket) :
  MarketQueue.cleanup_expired_markets fromisoformat now pending !! s
  = match pending !! s with
    | Some m =>
        match fromisoformat (MarketQueue.match_start_time m) with
        | Some start =>
            if (start + MarketQueue.hour <? now)%Z then None else Some m
        | None => None
        end
    | None => None
    end.
Proof.
  rewrite cleanup_expired_markets_lookup.
  destruct (pending !! s) as [m|]; [|done].
  unfold MarketQueue.expired.
  by destruct (fromisoformat (MarketQueue.match_start_time m)).
Qed.

(** X4 — expiry never drops a market that is ready for entry, as long as
    the hour can be added to its match start.  The two functions read the
    match start in their own [try] blocks, and the one of
    [cleanup_expired_markets] also fails when [match_start_time + 1 hour]
    overflows.  For a slug whose match start, when the entry check reads
    it, is read as the same instant by the expiry check:
    [get_markets_ready_for_entry] lists the slug after
    [cleanup_expired_markets] exactly when it lists it before, at any
    instant. *)
Theorem cleanup_keeps_ready_markets
    (fromisoformat expiry_fromisoformat : string -> option Z)
    (grace_period_minutes now : Z)
    (pending : gmap string MarketQueue.QueuedMarket) (s : string) :
  (forall m start,
     pending !! s = Some m ->
     fromisoformat (MarketQueue.match_start_time m) = Some start ->
     expiry_fromisoformat (MarketQueue.match_start_time m) = Some start) ->
  s ∈ MarketQueue.get_markets_ready_for_entry fromisoformat grace_period_minutes
        now (MarketQueue.cleanup_expired_markets expiry_fromisoformat now pending)
  <-> s ∈ MarketQueue.get_markets_ready_for_entry fromisoformat
            grace_period_minutes now pending.
Proof.
  intros Hsame.
  rewrite !elem_of_ready. setoid_rewrite cleanup_expired_markets_lookup. split.
  - intros (m & Hs & Hready). exists m. split; [|done].
    destruct (pending !! s) as [m0|]; [|done].
    by destruct (MarketQueue.expired expiry_fromisoformat now m0); simplify_eq.
  - intros (m & Hs & Hready). exists m. split; [|done].
    rewrite Hs.
    by rewrite (ready_not_expired _ _ _ _ _ (fun start => Hsame m start Hs) Hready).
Qed.

(** Market m1 is ready at instant 100 and still listed after the cleanup
    run at that instant. *)
Lemma cleanup_keeps_ready_markets_witness :
  "m1" ∈ MarketQueue.get_markets_ready_for_entry Samples.fromisoformat 2 100
           (MarketQueue.cleanup_expired_markets Samples.expiry_fromisoformat 100
              Samples.queue).
Proof.
  apply (cleanup_keeps_ready_markets Samples.fromisoformat
           Samples.expiry_fromisoformat 2 100 Samples.queue "m1").
  - intros m start Hm. unfold Samples.queue in Hm.
    rewrite lookup_singleton_eq in Hm. injection Hm as <-.
    vm_compute. done.
  - apply elem_of_ready. exists Samples.m1. split.
    + unfold Samples.queue. by rewrite lookup_singleton_eq.
    + vm_compute. reflexivity.
Defined.

(** Without that agreement the cleanup does drop a ready market.  The
    match of m2 starts at 23:30 on the last day of the year 9999: the
    entry check lists m2 at instant 100, the expiry check cannot add the
    hour and removes it. *)
Lemma cleanup_drops_ready_market_on_overflow :
  let pending : gmap string MarketQueue.QueuedMarket := {[ "m2" := Samples.m2 ]} in
  "m2" ∈ MarketQueue.get_markets_ready_for_entry Samples.fromisoformat 2 100 pending
  /\ MarketQueue.cleanup_expired_markets Samples.expiry_fromisoformat 100 pending
       !! "m2" = None
  /\ "m2" ∉ MarketQueue.get_markets_ready_for_entry Samples.fromisoformat 2 100
              (MarketQueue.cleanup_expired_markets Samples.expiry_fromisoformat
                 100 pending).
Proof.
  intros pending.
  assert (Hdropped : MarketQueue.cleanup_expired_markets
                       Samples.expiry_fromisoformat 100 pending !! "m2" = None).
  { rewrite cleanup_expired_markets_lookup. unfold pending.
    by rewrite lookup_singleton_eq. }
  split; [|split; [exact Hdropped|]].
  - apply elem_of_ready. exists Samples.m2. split.
    + unfold pending. by rewrite lookup_singleton_eq.
    + vm_compute. reflexivity.
  - intros Hin. apply elem_of_ready in Hin as (m & Hm & _). congruence.
Qed.

(** X5 — registering a market and removing it is a round trip.  After
    [add_pending_market] the slug is in the queue and
    [get_match_start_time] returns a start time (the one given, when the
    slug was new); [remove_market] then makes [has_market] false, and on a
    slug that was new it gives back the queue as it was. *)
Theorem register_remove_round_trip
    (s entry start : string) (now : Z)
    (pending : gmap string MarketQueue.QueuedMarket) :
  let added := MarketQueue.add_pending_market s entry start now pending in
  MarketQueue.has_market s added = true
  /\ is_Some (MarketQueue.get_match_start_time s added)
  /\ (pending !! s = None ->
      MarketQueue.get_match_start_time s added = Some start)
  /\ MarketQueue.has_market s (MarketQueue.remove_market s added) = false
  /\ MarketQueue.get_match_start_time s (MarketQueue.remove_market s added) = None
  /\ (pending !! s = None -> MarketQueue.remove_market s added = pending).
Proof.
  intros added.
  assert (Hadded : is_Some (added !! s)).
  { unfold added, MarketQueue.add_pending_market.
    destruct (pending !! s) as [m|] eqn:Hs; [by rewrite Hs|].
    rewrite lookup_insert_eq. eauto. }
  repeat split.
  - unfold MarketQueue.has_market. by apply bool_decide_eq_true_2.
  - unfold MarketQueue.get_match_start_time. destruct Hadded as [m ->]. eauto.
  - intros Hs. unfold MarketQueue.get_match_start_time, added,
      MarketQueue.add_pending_market. by rewrite Hs, lookup_insert_eq.
  - unfold MarketQueue.has_market, MarketQueue.remove_market.
    apply bool_decide_eq_false_2. rewrite lookup_delete_eq. by intros [? ?].
  - unfold MarketQueue.get_match_start_time, MarketQueue.remove_market.
    by rewrite lookup_delete_eq.
  - intros Hs. unfold MarketQueue.remove_market, added,
      MarketQueue.add_pending_market. rewrite Hs.
    rewrite delete_insert_eq. by apply delete_id.
Qed.

Section queue_status_facts.
Implicit Types (pending : gmap string MarketQueue.QueuedMarket).

Lemma count_statuses (l : list MarketQueue.QueuedMarket)
    (counts : MarketQueue.QueueStatus) :
  Forall (fun m => MarketQueue.status m = "pending"
                   \/ MarketQueue.status m = "entered") l ->
  let final :=
    foldl (fun counts market_data =>
             if bool_decide (MarketQueue.status market_data = "pending") then
               {| MarketQueue.count_pending := S (MarketQueue.count_pending counts);
                  MarketQueue.count_entered := MarketQueue.count_entered counts;
                  MarketQueue.count_total := MarketQueue.count_total counts |}
             else if bool_decide (MarketQueue.status market_data = "entered") then
               {| MarketQueue.count_pending := MarketQueue.count_pending counts;
                  MarketQueue.count_entered := S (MarketQueue.count_entered counts);
                  MarketQueue.count_total := MarketQueue.count_total counts |}
             else if bool_decide (MarketQueue.status market_data = "total") then
               {| MarketQueue.count_pending := MarketQueue.count_pending counts;
                  MarketQueue.count_entered := MarketQueue.count_entered counts;
                  MarketQueue.count_total := S (MarketQueue.count_total counts) |}
             else counts) counts l in
  MarketQueue.count_total final = MarketQueue.count_total counts
  /\ (MarketQueue.count_pending final + MarketQueue.count_entered final
      = MarketQueue.count_pending counts + MarketQueue.count_entered counts
        + length l)%nat.
Proof.
  intros Hl. revert counts. induction Hl as [|m l Hm _ IH]; intros counts; simpl.
  - split; [done | lia].
  - destruct Hm as [Hm|Hm].
    + rewrite bool_decide_eq_true_2 by done.
      destruct (IH {| MarketQueue.count_pending := S (MarketQueue.count_pending counts);
                      MarketQueue.count_entered := MarketQueue.count_entered counts;
                      MarketQueue.count_total := MarketQueue.count_total counts |})
        as [-> ->]. simpl. split; [done | lia].
    + rewrite bool_decide_eq_false_2 by (rewrite Hm; done).
      rewrite bool_decide_eq_true_2 by done.
      destruct (IH {| MarketQueue.count_pending := MarketQueue.count_pending counts;
                      MarketQueue.count_entered := S (MarketQueue.count_entered counts);
                      MarketQueue.count_total := MarketQueue.count_total counts |})
        as [-> ->]. simpl. split; [done | lia].
Qed.
End queue_status_facts.

(** X6 — the counters of [get_queue_status] add up.  In a queue whose
    statuses are all 'pending' or 'entered', pending + entered = total =
    the number of queued markets; [add_pending_market] and
    [mark_market_entered], the only writers of a status, keep the queue
    that way. *)
Theorem queue_status_adds_up
    (pending : gmap string MarketQueue.QueuedMarket) (s entry start : string)
    (now : Z) :
  let known (q : gmap string MarketQueue.QueuedMarket) :=
    map_Forall (fun _ m => MarketQueue.status m = "pending"
                           \/ MarketQueue.status m = "entered") q in
  known pending ->
  let counts := MarketQueue.get_queue_status pending in
  MarketQueue.count_total counts = size pending
  /\ (MarketQueue.count_pending counts + MarketQueue.count_entered counts
      = MarketQueue.count_total counts)%nat
  /\ known (MarketQueue.add_pending_market s entry start now pending)
  /\ known (MarketQueue.mark_market_entered s now pending).
Proof.
  intros known Hknown counts.
  destruct (count_statuses (map_to_list pending).*2
              {| MarketQueue.count_pending := 0; MarketQueue.count_entered := 0;
                 MarketQueue.count_total := size pending |}) as [Htotal Hsum].
  { apply Forall_fmap, Forall_forall. intros [k m] Hin.
    apply elem_of_map_to_list in Hin. exact (Hknown k m Hin). }
  split; [exact Htotal|]. split.
  - transitivity (size pending); [|symmetry; exact Htotal].
    etrans; [exact Hsum|]. simpl.
    by rewrite length_fmap, length_map_to_list.
  - split.
    + unfold MarketQueue.add_pending_market.
      destruct (pending !! s) eqn:Hs; [done|].
      apply map_Forall_insert_2; [by left | done].
    + unfold MarketQueue.mark_market_entered.
      intros k m Hk. destruct (decide (k = s)) as [->|Hne].
      * rewrite lookup_alter_eq in Hk.
        destruct (pending !! s); [|done]. simpl in Hk. injection Hk as <-. by right.
      * rewrite lookup_alter_ne in Hk by done. exact (Hknown k m Hk).
Qed.

Lemma queue_status_adds_up_witness :
  let counts :=
    MarketQueue.get_queue_status
      (MarketQueue.mark_market_entered "m1" 9 Samples.queue) in
  (MarketQueue.count_pending counts + MarketQueue.count_entered counts
   = MarketQueue.count_total counts)%nat.
Proof.
  apply (queue_status_adds_up
           (MarketQueue.mark_market_entered "m1" 9 Samples.queue) "m1" "" "" 0).
  intros k m Hk. apply (bool_decide_eq_true_1 _).
  destruct (decide (k = "m1")) as [->|Hne].
  - vm_compute in Hk. injection Hk as <-. reflexivity.
  - unfold MarketQueue.mark_market_entered, Samples.queue in Hk.
    rewrite lookup_alter_ne, lookup_singleton_ne in Hk by done. done.
Defined.

(** ** The ledger: invariant, idempotence, cleanup, markets *)

Section ledger_structure_facts.
Context {V : Type}.
Implicit Types (d : list (string * V)) (k : string).

Lemma keys_setitem k v d :
  PyDict.keys (PyDict.setitem k v d)
  = if PyDict.contains k d then PyDict.keys d else PyDict.keys d ++ [k].
Proof.
  unfold PyDict.keys, PyDict.contains.
  induction d as [|[k' v'] d IH]; simpl; [done|].
  destruct (decide (k = k')) as [->|Hne]; simpl; [done|].
  destruct (PyDict.getitem k d); simpl; f_equal; exact IH.
Qed.

Lemma getitem_None_keys k d :
  PyDict.getitem k d = None <-> k ∉ PyDict.keys d.
Proof.
  unfold PyDict.keys. induction d as [|[k' v'] d IH]; simpl.
  - split; [intros _; apply not_elem_of_nil | done].
  - destruct (decide (k = k')) as [->|Hne].
    + split; [done|]. intros Hout. exfalso. apply Hout, list_elem_of_here.
    + rewrite IH. rewrite not_elem_of_cons. tauto.
Qed.

Lemma delitem_filter k d :
  PyDict.delitem k d = filter (fun kv => kv.1 <> k) d.
Proof.
  induction d as [|[k' v'] d IH]; simpl; [done|].
  destruct (decide (k = k')) as [->|Hne].
  - by rewrite filter_cons_False by (simpl; tauto).
  - rewrite filter_cons_True by (simpl; congruence). by rewrite IH.
Qed.

Lemma modify_fmap (f : V -> V) k d :
  NoDup (PyDict.keys d) ->
  PyDict.modify f k d
  = (fun kv => if decide (kv.1 = k) then (kv.1, f kv.2) else kv) <$> d.
Proof.
  unfold PyDict.keys. induction d as [|[k' v'] d IH]; simpl; [done|].
  intros [Hfresh Hnd]%NoDup_cons.
  destruct (decide (k = k')) as [->|Hne].
  - rewrite decide_True by done. f_equal.
    clear IH. induction d as [|[k1 v1] d IH']; simpl; [done|].
    apply not_elem_of_cons in Hfresh as [Hk1 Hfresh].
    apply NoDup_cons in Hnd as [_ Hnd].
    rewrite decide_False by done. f_equal. by apply IH'.
  - rewrite decide_False by done. f_equal. by apply IH.
Qed.

Lemma getitem_elem k v d : PyDict.getitem k d = Some v -> (k, v) ∈ d.
Proof.
  induction d as [|[k' v'] d IH]; simpl; [done|].
  destruct (decide (k = k')) as [->|Hne].
  - intros [= ->]. apply list_elem_of_here.
  - intros Hget. by apply list_elem_of_further, IH.
Qed.

Lemma getitem_foldl_delitem (ks : list string) k d :
  PyDict.getitem k (foldl (fun t key => PyDict.delitem key t) d ks)
  = if decide (k ∈ ks) then None else PyDict.getitem k d.
Proof.
  revert d. induction ks as [|k' ks IH]; intros d; simpl.
  - destruct (decide (k ∈ [])) as [Hin|_]; [by apply elem_of_nil in Hin | done].
  - rewrite IH, getitem_delitem.
    destruct (decide (k ∈ ks)) as [Hin|Hout];
      destruct (decide (k ∈ k' :: ks)) as [Hin'|Hout']; try done.
    + exfalso. apply Hout'. by apply list_elem_of_further.
    + apply elem_of_cons in Hin' as [->|?]; [by rewrite decide_True | done].
    + rewrite decide_False; [done|]. intros ->. apply Hout', list_elem_of_here.
Qed.
End ledger_structure_facts.

Section ledger_invariant.
Implicit Types (tracked : OrderMonitor.tracked_orders) (oid : string).


Lemma modify_shaped (f : OrderMonitor.TrackedOrder -> OrderMonitor.TrackedOrder)
    oid tracked :
  (forall o, OrderMonitor.order_id (f o) = OrderMonitor.order_id o) ->
  OrderMonitor.shaped tracked -> OrderMonitor.shaped (PyDict.modify f oid tracked).
Proof.
  intros Hf [Hnd Hwk]. split; [by rewrite keys_modify|].
  unfold OrderMonitor.well_keyed in *. clear Hnd.
  induction Hwk as [|[k v] d Hkv Hd IH]; simpl; [constructor|].
  destruct (decide (oid = k)) as [->|Hne]; constructor; try done.
  simpl in *. by rewrite Hf.
Qed.

Lemma delitem_shaped oid tracked :
  OrderMonitor.shaped tracked -> OrderMonitor.shaped (PyDict.delitem oid tracked).
Proof.
  intros [Hnd Hwk]. rewrite delitem_filter. split.
  - unfold PyDict.keys in *. eapply sublist_NoDup; [exact Hnd|].
    apply fmap_sublist, sublist_filter.
  - unfold OrderMonitor.well_keyed in *. rewrite Forall_forall in Hwk.
    apply Forall_forall. intros kv [_ Hin]%list_elem_of_filter. by apply Hwk.
Qed.

Lemma add_order_shaped oid tok slug sd pr sz entry strong now tracked :
  OrderMonitor.shaped tracked ->
  OrderMonitor.shaped (OrderMonitor.add_order oid tok slug sd pr sz entry strong now tracked).
Proof.
  intros [Hnd Hwk]. unfold OrderMonitor.add_order. split.
  - rewrite keys_setitem. unfold PyDict.contains.
    destruct (PyDict.getitem oid tracked) eqn:Hget; [done|].
    apply NoDup_app. split; [done|]. split; [|apply NoDup_singleton].
    intros k Hk ->%list_elem_of_singleton.
    by apply getitem_None_keys in Hget.
  - unfold OrderMonitor.well_keyed in *. clear Hnd.
    induction Hwk as [|[k v] d Hkv Hd IH]; simpl.
    + by repeat constructor.
    + destruct (decide (oid = k)) as [->|Hne]; constructor; done.
Qed.

Lemma cleanup_old_orders_shaped days_old now tracked :
  OrderMonitor.shaped tracked -> OrderMonitor.shaped (OrderMonitor.cleanup_old_orders days_old now tracked).
Proof.
  unfold OrderMonitor.cleanup_old_orders.
  generalize ((filter (fun kv => (OrderMonitor.created_at kv.2
                                  < now - days_old * OrderMonitor.day)%Z
                                 /\ OrderMonitor.is_live kv.2 = false) tracked).*1).
  intros ks. revert tracked. induction ks as [|k ks IH]; intros tracked Hs; simpl.
  - done.
  - by apply IH, delitem_shaped.
Qed.

Lemma ledger_operations_shaped oid other tok slug sd pr sz entry strong
    still_exists current_status days_old now tracked :
  OrderMonitor.shaped tracked ->
  OrderMonitor.shaped (OrderMonitor.add_order oid tok slug sd pr sz entry strong now tracked)
  /\ OrderMonitor.shaped (OrderMonitor.update_order_status oid still_exists current_status
               now tracked)
  /\ OrderMonitor.shaped (OrderMonitor.mark_order_filled oid tracked)
  /\ OrderMonitor.shaped (OrderMonitor.mark_order_recreated oid other tracked)
  /\ OrderMonitor.shaped (OrderMonitor.remove_order oid tracked)
  /\ OrderMonitor.shaped (OrderMonitor.cleanup_old_orders days_old now tracked).
Proof.
  intros Hs. repeat split; try (by apply add_order_shaped);
    try (by apply cleanup_old_orders_shaped).
  - rewrite update_order_status_keys. apply Hs.
  - apply update_order_status_well_keyed, Hs.
  - unfold OrderMonitor.mark_order_filled.
    destruct (PyDict.contains oid tracked); [|apply Hs].
    by apply modify_shaped.
  - unfold OrderMonitor.mark_order_filled.
    destruct (PyDict.contains oid tracked); [|apply Hs].
    by apply modify_shaped.
  - unfold OrderMonitor.mark_order_recreated.
    destruct (PyDict.contains oid tracked); [|apply Hs].
    by apply modify_shaped.
  - unfold OrderMonitor.mark_order_recreated.
    destruct (PyDict.contains oid tracked); [|apply Hs].
    by apply modify_shaped.
  - unfold OrderMonitor.remove_order.
    destruct (PyDict.contains oid tracked); [|apply Hs].
    by apply delitem_shaped.
  - unfold OrderMonitor.remove_order.
    destruct (PyDict.contains oid tracked); [|apply Hs].
    by apply delitem_shaped.
Qed.
End ledger_invariant.

(** X7 — the shape of the ledger is an invariant.  If the keys are
    distinct and every record is stored under its own [order_id], the same
    holds after [add_order], [update_order_status], [mark_order_filled],
    [mark_order_recreated], [remove_order] and [cleanup_old_orders]. *)
Theorem ledger_shape_is_invariant
    (oid other tok slug sd : string) (pr sz : Q) (entry : option Z)
    (strong : option Q) (still_exists : bool) (current_status : option string)
    (days_old now : Z) (tracked : OrderMonitor.tracked_orders) :
  OrderMonitor.shaped tracked ->
  OrderMonitor.shaped
    (OrderMonitor.add_order oid tok slug sd pr sz entry strong now tracked)
  /\ OrderMonitor.shaped
       (OrderMonitor.update_order_status oid still_exists current_status now
          tracked)
  /\ OrderMonitor.shaped (OrderMonitor.mark_order_filled oid tracked)
  /\ OrderMonitor.shaped (OrderMonitor.mark_order_recreated oid other tracked)
  /\ OrderMonitor.shaped (OrderMonitor.remove_order oid tracked)
  /\ OrderMonitor.shaped (OrderMonitor.cleanup_old_orders days_old now tracked).
Proof.
  apply ledger_operations_shaped.
Qed.

Lemma ledger_shape_is_invariant_witness :
  OrderMonitor.shaped (OrderMonitor.mark_order_filled "O1" Samples.two_tiers).
Proof.
  apply (ledger_shape_is_invariant "O1" "N1" "T" "S" "BUY" (25 # 100) (10 # 1)
           None None true None 7 0 Samples.two_tiers).
  split.
  - apply (bool_decide_eq_true_1 _). vm_compute. reflexivity.
  - repeat constructor.
Defined.

Section ledger_idempotence.
Context {V : Type}.

Lemma modify_idempotent (f : V -> V) (k : string) (d : list (string * V)) :
  (forall v, f (f v) = f v) ->
  PyDict.modify f k (PyDict.modify f k d) = PyDict.modify f k d.
Proof.
  intros Hf. induction d as [|[k' v] d IH]; simpl; [done|].
  destruct (decide (k = k')) as [->|Hne]; simpl.
  - by rewrite decide_True, Hf.
  - by rewrite decide_False, IH.
Qed.

Lemma contains_modify (f : V -> V) (k k' : string) (d : list (string * V)) :
  PyDict.contains k' (PyDict.modify f k d) = PyDict.contains k' d.
Proof.
  unfold PyDict.contains. rewrite getitem_modify.
  destruct (decide (k = k')); [|done]. by destruct (PyDict.getitem k' d).
Qed.

Lemma contains_delitem (k : string) (d : list (string * V)) :
  PyDict.contains k (PyDict.delitem k d) = false.
Proof.
  unfold PyDict.contains. by rewrite getitem_delitem, decide_True.
Qed.
End ledger_idempotence.

(** X8 — the three markers are idempotent and ignore unknown ids.
    Applying [mark_order_filled], [mark_order_recreated] (with the same new
    id) or [remove_order] twice gives what one application gives, and on an
    order id the ledger does not hold each of them returns the ledger as it
    is. *)
Theorem ledger_markers_idempotent
    (oid new_order_id : string) (tracked : OrderMonitor.tracked_orders) :
  OrderMonitor.mark_order_filled oid (OrderMonitor.mark_order_filled oid tracked)
  = OrderMonitor.mark_order_filled oid tracked
  /\ OrderMonitor.mark_order_recreated oid new_order_id
       (OrderMonitor.mark_order_recreated oid new_order_id tracked)
     = OrderMonitor.mark_order_recreated oid new_order_id tracked
  /\ OrderMonitor.remove_order oid (OrderMonitor.remove_order oid tracked)
     = OrderMonitor.remove_order oid tracked
  /\ (PyDict.getitem oid tracked = None ->
      OrderMonitor.mark_order_filled oid tracked = tracked
      /\ OrderMonitor.mark_order_recreated oid new_order_id tracked = tracked
      /\ OrderMonitor.remove_order oid tracked = tracked).
Proof.
  repeat split.
  - unfold OrderMonitor.mark_order_filled.
    destruct (PyDict.contains oid tracked) eqn:Hc; [|by rewrite Hc].
    rewrite contains_modify, Hc. by apply modify_idempotent.
  - unfold OrderMonitor.mark_order_recreated.
    destruct (PyDict.contains oid tracked) eqn:Hc; [|by rewrite Hc].
    rewrite contains_modify, Hc. by apply modify_idempotent.
  - unfold OrderMonitor.remove_order.
    destruct (PyDict.contains oid tracked) eqn:Hc; [|by rewrite Hc].
    by rewrite contains_delitem.
  - unfold OrderMonitor.mark_order_filled, PyDict.contains. by rewrite H.
  - unfold OrderMonitor.mark_order_recreated, PyDict.contains. by rewrite H.
  - unfold OrderMonitor.remove_order, PyDict.contains. by rewrite H.
Qed.

(** X9 — [cleanup_old_orders] removes exactly the finished old orders.
    On a ledger with distinct keys, an entry is removed when it was created
    before the cutoff (now minus [days_old] days) and its status is neither
    'active' nor 'disappeared'; every other entry, live or recent, is kept
    as it is. *)
Theorem cleanup_old_orders_exact
    (days_old now : Z) (oid : string) (tracked : OrderMonitor.tracked_orders) :
  NoDup (PyDict.keys tracked) ->
  PyDict.getitem oid (OrderMonitor.cleanup_old_orders days_old now tracked)
  = match PyDict.getitem oid tracked with
    | Some o =>
        if bool_decide (OrderMonitor.created_at o
                        < now - days_old * OrderMonitor.day)%Z
           && negb (OrderMonitor.is_live o)
        then None else Some o
    | None => None
    end.
Proof.
  intros Hnd. unfold OrderMonitor.cleanup_old_orders.
  rewrite getitem_foldl_delitem.
  destruct (PyDict.getitem oid tracked) as [o|] eqn:Hget.
  - case_decide as Hin.
    + apply list_elem_of_fmap in Hin as ([k o'] & -> & Hin).
      apply list_elem_of_filter in Hin as [[Hold Hdone] Hin]. simpl in *.
      rewrite (getitem_unique k o' tracked Hnd Hin) in Hget. injection Hget as ->.
      by rewrite bool_decide_eq_true_2, Hdone.
    + destruct (bool_decide _) eqn:Hold; [|done].
      destruct (OrderMonitor.is_live o) eqn:Hlive; [done|].
      exfalso. apply Hin. apply list_elem_of_fmap. exists (oid, o).
      split; [done|]. apply list_elem_of_filter. split.
      * split; [by apply bool_decide_eq_true_1 in Hold | done].
      * by apply getitem_elem.
  - by case_decide.
Qed.

Lemma cleanup_old_orders_exact_witness :
  PyDict.getitem "O1"
    (OrderMonitor.cleanup_old_orders 7 (8 * OrderMonitor.day)
       (Samples.ledger "filled" 0))
  = None.
Proof.
  apply (cleanup_old_orders_exact 7 (8 * OrderMonitor.day) "O1"
           (Samples.ledger "filled" 0)).
  apply (bool_decide_eq_true_1 _). vm_compute. reflexivity.
Defined.

(** X10 — the markets with orders are the markets with a live order.  A
    slug is in [get_markets_with_orders] exactly when
    [get_active_orders_by_market] lists an order for it; in particular the
    market of every disappeared order is there. *)
Theorem markets_with_orders_have_active_orders
    (slug : string) (tracked : OrderMonitor.tracked_orders) :
  (slug ∈ OrderMonitor.get_markets_with_orders tracked
   <-> OrderMonitor.get_active_orders_by_market slug tracked <> [])
  /\ (forall o, o ∈ OrderMonitor.get_disappeared_orders tracked ->
        OrderMonitor.market_slug o ∈ OrderMonitor.get_markets_with_orders tracked
        /\ o ∈ OrderMonitor.get_active_orders_by_market
                 (OrderMonitor.market_slug o) tracked).
Proof.
  split.
  - unfold OrderMonitor.get_markets_with_orders,
      OrderMonitor.get_active_orders_by_market.
    rewrite elem_of_list_to_set, list_elem_of_fmap. split.
    + intros (o & -> & Hin). apply list_elem_of_filter in Hin as [Hlive Hin].
      intros Hnil.
      assert (Ho : o ∈ filter (fun o' => OrderMonitor.market_slug o'
                                         = OrderMonitor.market_slug o
                                         /\ OrderMonitor.is_live o' = true)
                         (PyDict.values tracked)).
      { by apply list_elem_of_filter. }
      rewrite Hnil in Ho. by apply elem_of_nil in Ho.
    + intros Hne.
      destruct (filter _ (PyDict.values tracked)) as [|o l] eqn:Hf; [done|].
      assert (Ho : o ∈ o :: l) by apply list_elem_of_here.
      rewrite <- Hf in Ho. apply list_elem_of_filter in Ho as [[Hslug Hlive] Hin].
      exists o. split; [done|]. by apply list_elem_of_filter.
  - intros o Hin.
    unfold OrderMonitor.get_disappeared_orders in Hin.
    apply list_elem_of_filter in Hin as [Hstatus Hin].
    assert (Hlive : OrderMonitor.is_live o = true).
    { unfold OrderMonitor.is_live. rewrite Hstatus. done. }
    split.
    + unfold OrderMonitor.get_markets_with_orders.
      rewrite elem_of_list_to_set, list_elem_of_fmap.
      exists o. split; [done|]. by apply list_elem_of_filter.
    + unfold OrderMonitor.get_active_orders_by_market.
      by apply list_elem_of_filter.
Qed.

Section disappeared_list.
Implicit Types (tracked : OrderMonitor.tracked_orders) (oid : string).

Lemma modify_absent {V : Type} (f : V -> V) (k : string) (d : list (string * V)) :
  PyDict.getitem k d = None -> PyDict.modify f k d = d.
Proof.
  induction d as [|[k' v] d IH]; simpl; [done|].
  destruct (decide (k = k')); [done|]. intros Hget. by rewrite IH.
Qed.

Lemma delitem_absent {V : Type} (k : string) (d : list (string * V)) :
  PyDict.getitem k d = None -> PyDict.delitem k d = d.
Proof.
  induction d as [|[k' v] d IH]; simpl; [done|].
  destruct (decide (k = k')); [done|]. intros Hget. by rewrite IH.
Qed.

Lemma get_disappeared_orders_modify
    (f : OrderMonitor.TrackedOrder -> OrderMonitor.TrackedOrder) oid tracked :
  (forall o, OrderMonitor.status (f o) <> "disappeared") ->
  OrderMonitor.shaped tracked ->
  OrderMonitor.get_disappeared_orders (PyDict.modify f oid tracked)
  = filter (fun o => OrderMonitor.order_id o <> oid)
      (OrderMonitor.get_disappeared_orders tracked).
Proof.
  intros Hf [Hnd Hwk]. rewrite (modify_fmap f oid tracked Hnd). clear Hnd.
  unfold OrderMonitor.get_disappeared_orders, PyDict.values,
    OrderMonitor.well_keyed in *.
  induction Hwk as [|[k v] d Hkv Hd IH]; [done|]. simpl in Hkv.
  rewrite !fmap_cons. simpl.
  destruct (decide (k = oid)) as [->|Hne]; simpl.
  - rewrite filter_cons_False by apply Hf. rewrite IH.
    destruct (decide (OrderMonitor.status v = "disappeared")) as [Hs|Hs].
    + rewrite (filter_cons_True _ v) by done.
      by rewrite filter_cons_False by (intros Hx; by apply Hx).
    + by rewrite (filter_cons_False _ v) by done.
  - destruct (decide (OrderMonitor.status v = "disappeared")) as [Hs|Hs].
    + rewrite !(filter_cons_True _ v) by done.
      rewrite filter_cons_True by congruence. by rewrite IH.
    + rewrite !(filter_cons_False _ v) by done. by rewrite IH.
Qed.

Lemma get_disappeared_orders_delitem oid tracked :
  OrderMonitor.shaped tracked ->
  OrderMonitor.get_disappeared_orders (PyDict.delitem oid tracked)
  = filter (fun o => OrderMonitor.order_id o <> oid)
      (OrderMonitor.get_disappeared_orders tracked).
Proof.
  intros [_ Hwk].
  unfold OrderMonitor.get_disappeared_orders, PyDict.values,
    OrderMonitor.well_keyed in *.
  induction Hwk as [|[k v] d Hkv Hd IH]; [done|]. simpl in Hkv.
  cbn [PyDict.delitem].
  destruct (decide (oid = k)) as [->|Hne]; rewrite ?fmap_cons; cbn [snd].
  - rewrite IH.
    destruct (decide (OrderMonitor.status v = "disappeared")) as [Hs|Hs].
    + rewrite (filter_cons_True _ v) by done.
      by rewrite filter_cons_False by (intros Hx; by apply Hx).
    + by rewrite (filter_cons_False _ v) by done.
  - destruct (decide (OrderMonitor.status v = "disappeared")) as [Hs|Hs].
    + rewrite !(filter_cons_True _ v) by done.
      rewrite filter_cons_True by congruence. by rewrite IH.
    + rewrite !(filter_cons_False _ v) by done. by rewrite IH.
Qed.
End disappeared_list.

(** X11 — finishing an order takes exactly that order off the list of
    disappeared orders.  On a ledger of the right shape, after
    [mark_order_filled], [mark_order_recreated] or [remove_order] for an
    order id, [get_disappeared_orders] is the former list without the order
    of that id, in the same order; no other order leaves or joins it. *)
Theorem finished_order_leaves_disappeared_list
    (oid new_order_id : string) (tracked : OrderMonitor.tracked_orders) :
  OrderMonitor.shaped tracked ->
  let others := filter (fun o => OrderMonitor.order_id o <> oid)
                  (OrderMonitor.get_disappeared_orders tracked) in
  OrderMonitor.get_disappeared_orders (OrderMonitor.mark_order_filled oid tracked)
  = others
  /\ OrderMonitor.get_disappeared_orders
       (OrderMonitor.mark_order_recreated oid new_order_id tracked)
     = others
  /\ OrderMonitor.get_disappeared_orders (OrderMonitor.remove_order oid tracked)
     = others.
Proof.
  intros Hs others. subst others.
  unfold OrderMonitor.mark_order_filled, OrderMonitor.mark_order_recreated,
    OrderMonitor.remove_order, PyDict.contains.
  destruct (PyDict.getitem oid tracked) as [o|] eqn:Hget.
  - split; [|split].
    + by apply get_disappeared_orders_modify.
    + by apply get_disappeared_orders_modify.
    + by apply get_disappeared_orders_delitem.
  - rewrite <- (get_disappeared_orders_delitem oid tracked Hs).
    by rewrite (delitem_absent oid tracked Hget).
Qed.

Lemma finished_order_leaves_disappeared_list_witness :
  OrderMonitor.get_disappeared_orders
    (OrderMonitor.mark_order_filled "O1" (Samples.ledger "disappeared" 1))
  = [].
Proof.
  apply (finished_order_leaves_disappeared_list "O1" "N1"
           (Samples.ledger "disappeared" 1)).
  split.
  - apply (bool_decide_eq_true_1 _). vm_compute. reflexivity.
  - repeat constructor.
Defined.

(** ** The entry strategy: the table, the orders, the take profit *)

Section strategy_table_facts.

(** The row of [STRATEGY_TABLE] that a price selects. *)
Lemma find_entries_rows (p : Q) (entry1 entry2 : Z) :
  EntryStrategy.find_entries EntryStrategy.STRATEGY_TABLE p = Some (entry1, entry2) ->
  (0 <= p <= 60 /\ entry1 = 25%Z /\ entry2 = 22%Z)%Q
  \/ (61 <= p <= 6399 # 100 /\ entry1 = 41%Z /\ entry2 = 26%Z)%Q
  \/ (64 <= p <= 6699 # 100 /\ entry1 = 43%Z /\ entry2 = 30%Z)%Q
  \/ (67 <= p <= 6999 # 100 /\ entry1 = 44%Z /\ entry2 = 32%Z)%Q
  \/ (70 <= p <= 7499 # 100 /\ entry1 = 51%Z /\ entry2 = 37%Z)%Q
  \/ (75 <= p <= 7999 # 100 /\ entry1 = 57%Z /\ entry2 = 41%Z)%Q
  \/ (80 <= p <= 100 /\ entry1 = 67%Z /\ entry2 = 54%Z)%Q.
Proof.
  unfold EntryStrategy.STRATEGY_TABLE. cbn [EntryStrategy.find_entries].
  repeat match goal with
  | |- context [Qle_bool ?a p && Qle_bool p ?b] =>
      let H := fresh "Hrow" in
      destruct (Qle_bool a p && Qle_bool p b) eqn:H;
      [ apply andb_true_iff in H as [?%Qle_bool_iff ?%Qle_bool_iff];
        intros [= <- <-]; tauto
      | clear H ]
  end.
  discriminate.
Qed.

Lemma find_entries_in_row (p lo hi : Q) (entries : Z * Z) before after :
  EntryStrategy.STRATEGY_TABLE = before ++ ((lo, hi), entries) :: after ->
  Forall (fun row => (row.1.2 < lo)%Q) before ->
  (lo <= p <= hi)%Q ->
  EntryStrategy.find_entries EntryStrategy.STRATEGY_TABLE p = Some entries.
Proof.
  intros -> Hbefore [Hlo Hhi].
  induction Hbefore as [|[[lo' hi'] e'] before Hrow _ IH]; simpl.
  - apply Qle_bool_iff in Hlo, Hhi. by rewrite Hlo, Hhi.
  - simpl in Hrow.
    destruct (Qle_bool p hi') eqn:Hle.
    + apply Qle_bool_iff in Hle. lra.
    + by rewrite andb_false_r.
Qed.

Lemma get_entry_prices_unfold size p :
  EntryStrategy.get_entry_prices size p
  = match EntryStrategy.find_entries EntryStrategy.STRATEGY_TABLE p with
    | Some (entry1, entry2) =>
        Some {| EntryStrategy.entry1_cents := entry1;
                EntryStrategy.entry1_price := inject_Z entry1 / 100;
                EntryStrategy.entry2_cents := entry2;
                EntryStrategy.entry2_price := inject_Z entry2 / 100;
                EntryStrategy.entry_size_usd := size |}
    | None => None
    end.
Proof. reflexivity. Qed.

Lemma get_entry_prices_rows size p cfg :
  EntryStrategy.get_entry_prices size p = Some cfg ->
  EntryStrategy.find_entries EntryStrategy.STRATEGY_TABLE p
  = Some (EntryStrategy.entry1_cents cfg, EntryStrategy.entry2_cents cfg)
  /\ EntryStrategy.entry1_price cfg
     = (inject_Z (EntryStrategy.entry1_cents cfg) / 100)%Q
  /\ EntryStrategy.entry2_price cfg
     = (inject_Z (EntryStrategy.entry2_cents cfg) / 100)%Q
  /\ EntryStrategy.entry_size_usd cfg = size.
Proof.
  rewrite get_entry_prices_unfold.
  destruct (EntryStrategy.find_entries _ p) as [[e1 e2]|]; [|done].
  by intros [= <-].
Qed.

Lemma get_entry_prices_gap size p :
  (60 < p < 61)%Q -> EntryStrategy.get_entry_prices size p = None.
Proof.
  intros Hp. rewrite get_entry_prices_unfold.
  destruct (EntryStrategy.find_entries _ p) as [[e1 e2]|] eqn:Hfind; [|done].
  apply find_entries_rows in Hfind. exfalso. lra.
Qed.
End strategy_table_facts.

(** X12 — the entries of the table lie below one another and below the
    price.  Whenever [get_entry_prices] finds a strategy, the strong price
    is between 0 and 100 cents, entry 2 is cheaper than entry 1, both
    prices are strictly between 0 and 1 and are the cent values over 100,
    the size is the configured one, and above 60 cents entry 1 is at least
    13 cents below the strong team's price. *)
Theorem entry_prices_below_strong_price
    (size p : Q) (cfg : EntryStrategy.EntryConfig) :
  EntryStrategy.get_entry_prices size p = Some cfg ->
  (0 <= p <= 100
   /\ 0 < EntryStrategy.entry2_price cfg
   /\ EntryStrategy.entry2_price cfg < EntryStrategy.entry1_price cfg
   /\ EntryStrategy.entry1_price cfg < 1
   /\ EntryStrategy.entry1_price cfg * 100 == inject_Z (EntryStrategy.entry1_cents cfg)
   /\ EntryStrategy.entry2_price cfg * 100 == inject_Z (EntryStrategy.entry2_cents cfg)
   /\ (60 < p -> inject_Z (EntryStrategy.entry1_cents cfg) + 13 <= p))%Q
  /\ EntryStrategy.entry_size_usd cfg = size.
Proof.
  intros (Hfind & H1 & H2 & Hsize)%get_entry_prices_rows.
  split; [|done]. rewrite H1, H2. clear H1 H2 Hsize.
  apply find_entries_rows in Hfind.
  destruct Hfind as [H|[H|[H|[H|[H|[H|H]]]]]];
    destruct H as ([Hlo Hhi] & -> & ->);
    repeat split; try lra; try reflexivity; unfold inject_Z; lra.
Qed.

Lemma entry_prices_below_strong_price_witness :
  (EntryStrategy.entry2_price
     {| EntryStrategy.entry1_cents := 43; EntryStrategy.entry1_price := 43 / 100;
        EntryStrategy.entry2_cents := 30; EntryStrategy.entry2_price := 30 / 100;
        EntryStrategy.entry_size_usd := 7 # 2 |}
   < EntryStrategy.entry1_price
       {| EntryStrategy.entry1_cents := 43; EntryStrategy.entry1_price := 43 / 100;
          EntryStrategy.entry2_cents := 30; EntryStrategy.entry2_price := 30 / 100;
          EntryStrategy.entry_size_usd := 7 # 2 |})%Q.
Proof.
  apply (entry_prices_below_strong_price (7 # 2) (65 # 1)). reflexivity.
Defined.

(** X13 — a stronger favourite never gets cheaper entries.  If two strong
    prices both have a strategy and the first is not above the second,
    neither entry of the first is above the matching entry of the second. *)
Theorem entry_prices_monotone
    (size p q : Q) (cfg_p cfg_q : EntryStrategy.EntryConfig) :
  (p <= q)%Q ->
  EntryStrategy.get_entry_prices size p = Some cfg_p ->
  EntryStrategy.get_entry_prices size q = Some cfg_q ->
  (EntryStrategy.entry1_cents cfg_p <= EntryStrategy.entry1_cents cfg_q)%Z
  /\ (EntryStrategy.entry2_cents cfg_p <= EntryStrategy.entry2_cents cfg_q)%Z.
Proof.
  intros Hpq (Hp & _)%get_entry_prices_rows (Hq & _)%get_entry_prices_rows.
  apply find_entries_rows in Hp, Hq.
  destruct Hp as [H|[H|[H|[H|[H|[H|H]]]]]];
    destruct H as ([Hlo Hhi] & -> & ->);
    destruct Hq as [H|[H|[H|[H|[H|[H|H]]]]]];
    destruct H as ([Hlo' Hhi'] & -> & ->);
    first [ split; lia | exfalso; lra ].
Qed.

Lemma entry_prices_monotone_witness :
  (EntryStrategy.entry1_cents
     {| EntryStrategy.entry1_cents := 43; EntryStrategy.entry1_price := 43 / 100;
        EntryStrategy.entry2_cents := 30; EntryStrategy.entry2_price := 30 / 100;
        EntryStrategy.entry_size_usd := 7 # 2 |}
   <= EntryStrategy.entry1_cents
        {| EntryStrategy.entry1_cents := 57; EntryStrategy.entry1_price := 57 / 100;
           EntryStrategy.entry2_cents := 41; EntryStrategy.entry2_price := 41 / 100;
           EntryStrategy.entry_size_usd := 7 # 2 |})%Z.
Proof.
  apply (entry_prices_monotone (7 # 2) (65 # 1) (77 # 1)).
  - vm_compute. discriminate.
  - reflexivity.
  - reflexivity.
Defined.

(** X14 — the table covers every whole-cent price from 0 to 100 and nothing
    outside that range, and it has gaps between its rows: a strong price
    strictly between 60 and 61 cents has no strategy, so [calculate_orders]
    returns [None] for such a market. *)
Theorem entry_table_coverage (size : Q) :
  (forall n : Z, (0 <= n <= 100)%Z ->
     is_Some (EntryStrategy.get_entry_prices size (inject_Z n)))
  /\ (forall p, (p < 0 \/ 100 < p)%Q ->
        EntryStrategy.get_entry_prices size p = None)
  /\ (forall p, (60 < p < 61)%Q ->
        EntryStrategy.get_entry_prices size p = None)
  /\ (forall market,
        (60 < EntryStrategy.price_cents (EntryStrategy.strong_team market) < 61)%Q ->
        EntryStrategy.calculate_orders size market = None).
Proof.
  split; [|split; [|split]].
  - intros n Hn. rewrite get_entry_prices_unfold.
    assert (Hrow : forall lo hi : Z, (lo <= n <= hi)%Z ->
              (lo # 1 <= inject_Z n <= hi # 1)%Q).
    { intros lo hi [? ?].
      change (inject_Z lo <= inject_Z n <= inject_Z hi)%Q.
      split; by rewrite <- Zle_Qle. }
    assert (Hfind : is_Some (EntryStrategy.find_entries
                               EntryStrategy.STRATEGY_TABLE (inject_Z n))).
    { destruct (decide (n <= 60)%Z).
      { eexists. eapply (find_entries_in_row _ 0 60 _ []); [reflexivity|constructor|].
        apply (Hrow 0 60)%Z. lia. }
      destruct (decide (n <= 63)%Z).
      { eexists.
        eapply (find_entries_in_row _ 61 (6399 # 100) _ [_]);
          [reflexivity|repeat constructor|].
        destruct (Hrow 61 63)%Z as [? ?]; [lia|]. split; lra. }
      destruct (decide (n <= 66)%Z).
      { eexists.
        eapply (find_entries_in_row _ 64 (6699 # 100) _ [_; _]);
          [reflexivity|repeat constructor|].
        destruct (Hrow 64 66)%Z as [? ?]; [lia|]. split; lra. }
      destruct (decide (n <= 69)%Z).
      { eexists.
        eapply (find_entries_in_row _ 67 (6999 # 100) _ [_; _; _]);
          [reflexivity|repeat constructor|].
        destruct (Hrow 67 69)%Z as [? ?]; [lia|]. split; lra. }
      destruct (decide (n <= 74)%Z).
      { eexists.
        eapply (find_entries_in_row _ 70 (7499 # 100) _ [_; _; _; _]);
          [reflexivity|repeat constructor|].
        destruct (Hrow 70 74)%Z as [? ?]; [lia|]. split; lra. }
      destruct (decide (n <= 79)%Z).
      { eexists.
        eapply (find_entries_in_row _ 75 (7999 # 100) _ [_; _; _; _; _]);
          [reflexivity|repeat constructor|].
        destruct (Hrow 75 79)%Z as [? ?]; [lia|]. split; lra. }
      eexists.
      eapply (find_entries_in_row _ 80 100 _ [_; _; _; _; _; _]);
        [reflexivity|repeat constructor|].
      destruct (Hrow 80 100)%Z as [? ?]; [lia|]. split; lra. }
    destruct Hfind as [[e1 e2] ->]. by eexists.
  - intros p Hp. rewrite get_entry_prices_unfold.
    destruct (EntryStrategy.find_entries _ p) as [[e1 e2]|] eqn:Hfind; [|done].
    apply find_entries_rows in Hfind. exfalso. lra.
  - intros p. apply get_entry_prices_gap.
  - intros market Hp. unfold EntryStrategy.calculate_orders.
    by rewrite (get_entry_prices_gap size _ Hp).
Qed.

Lemma calculate_orders_shape
    (size : Q) (market : EntryStrategy.Market) (orders : list EntryStrategy.OrderSpec) :
  EntryStrategy.calculate_orders size market = Some orders ->
  exists first second,
    orders = [first; second]
    /\ EntryStrategy.entry_number first = 1%Z
    /\ EntryStrategy.entry_number second = 2%Z
    /\ EntryStrategy.spec_token_id first
       = EntryStrategy.token_id (EntryStrategy.strong_team market)
    /\ EntryStrategy.spec_token_id second
       = (if Qle_bool (EntryStrategy.price_cents (EntryStrategy.strong_team market)) 60
          then EntryStrategy.token_id (EntryStrategy.weak_team market)
          else EntryStrategy.token_id (EntryStrategy.strong_team market))
    /\ Forall (fun o => EntryStrategy.amount_usd o = size
                        /\ EntryStrategy.market_slug o = EntryStrategy.slug market
                        /\ EntryStrategy.order_type o = "limit_buy") orders
    /\ (0 < EntryStrategy.spec_price second
        /\ EntryStrategy.spec_price second < EntryStrategy.spec_price first
        /\ EntryStrategy.spec_price first < 1)%Q.
Proof.
  unfold EntryStrategy.calculate_orders.
  destruct (EntryStrategy.get_entry_prices size _) as [cfg|] eqn:Hcfg; [|done].
  apply get_entry_prices_rows in Hcfg as (Hfind & H1 & H2 & _).
  assert (Hprices : (0 < EntryStrategy.entry2_price cfg
                     /\ EntryStrategy.entry2_price cfg < EntryStrategy.entry1_price cfg
                     /\ EntryStrategy.entry1_price cfg < 1)%Q).
  { rewrite H1, H2. apply find_entries_rows in Hfind.
    destruct Hfind as [H|[H|[H|[H|[H|[H|H]]]]]];
      destruct H as (_ & -> & ->); repeat split; lra. }
  destruct Hprices as (Hpos & Hlt & Hone).
  destruct (Qle_bool _ 60); intros [= <-]; eexists _, _;
    (split; [reflexivity|]);
    (split; [reflexivity|]); (split; [reflexivity|]);
    (split; [reflexivity|]); (split; [reflexivity|]);
    (split; [by repeat constructor|]); done.
Qed.

(** X15 — [calculate_orders] gives two limit buys or nothing.  When it
    returns orders there are exactly two, numbered 1 and 2, each for the
    configured amount on the market's slug; the first is on the strong
    team's token, the second on the weak team's token when the strong price
    is at most 60 cents and on the strong team's token otherwise; and the
    second is priced below the first, both strictly between 0 and 1. *)
Theorem calculate_orders_two_entries
    (size : Q) (market : EntryStrategy.Market) (orders : list EntryStrategy.OrderSpec) :
  EntryStrategy.calculate_orders size market = Some orders ->
  exists first second,
    orders = [first; second]
    /\ EntryStrategy.entry_number first = 1%Z
    /\ EntryStrategy.entry_number second = 2%Z
    /\ EntryStrategy.spec_token_id first
       = EntryStrategy.token_id (EntryStrategy.strong_team market)
    /\ EntryStrategy.spec_token_id second
       = (if Qle_bool (EntryStrategy.price_cents (EntryStrategy.strong_team market)) 60
          then EntryStrategy.token_id (EntryStrategy.weak_team market)
          else EntryStrategy.token_id (EntryStrategy.strong_team market))
    /\ Forall (fun o => EntryStrategy.amount_usd o = size
                        /\ EntryStrategy.market_slug o = EntryStrategy.slug market
                        /\ EntryStrategy.order_type o = "limit_buy") orders
    /\ (0 < EntryStrategy.spec_price second
        /\ EntryStrategy.spec_price second < EntryStrategy.spec_price first
        /\ EntryStrategy.spec_price first < 1)%Q.
Proof.
  apply calculate_orders_shape.
Qed.

Lemma calculate_orders_two_entries_witness :
  exists first second,
    [ {| EntryStrategy.order_type := "limit_buy"; EntryStrategy.spec_token_id := "T";
         EntryStrategy.team_name := "A"; EntryStrategy.spec_price := 43 / 100;
         EntryStrategy.spec_price_cents := 43; EntryStrategy.amount_usd := 7 # 2;
         EntryStrategy.entry_number := 1; EntryStrategy.market_question := "Q";
         EntryStrategy.market_slug := "S" |};
      {| EntryStrategy.order_type := "limit_buy"; EntryStrategy.spec_token_id := "T";
         EntryStrategy.team_name := "A"; EntryStrategy.spec_price := 30 / 100;
         EntryStrategy.spec_price_cents := 30; EntryStrategy.amount_usd := 7 # 2;
         EntryStrategy.entry_number := 2; EntryStrategy.market_question := "Q";
         EntryStrategy.market_slug := "S" |} ] = [first; second]
    /\ EntryStrategy.entry_number first = 1%Z.
Proof.
  destruct (calculate_orders_two_entries (7 # 2)
              {| EntryStrategy.question := "Q"; EntryStrategy.slug := "S";
                 EntryStrategy.entry_time := "e"; EntryStrategy.match_start_time := "s";
                 EntryStrategy.strong_team :=
                   {| EntryStrategy.name := "A"; EntryStrategy.price := 65 # 100;
                      EntryStrategy.price_cents := 65; EntryStrategy.token_id := "T" |};
                 EntryStrategy.weak_team :=
                   {| EntryStrategy.name := "B"; EntryStrategy.price := 35 # 100;
                      EntryStrategy.price_cents := 35; EntryStrategy.token_id := "U" |} |}
              _ eq_refl)
    as (first & second & Heq & Hone & _).
  exists first, second. split; [exact Heq | exact Hone].
Defined.

Section entry_numbers_facts.
End entry_numbers_facts.


(** ** The scanner: locked prices and the price filters *)

Section price_lock_facts.
Implicit Types (cached : gmap string PriceCache.CachedPrice).

Lemma append_inj_r (p s t : string) : p +:+ s = p +:+ t -> s = t.
Proof.
  induction p as [|a p IH]; [done|].
  change (String a (p +:+ s) = String a (p +:+ t) -> s = t).
  intros [= H]. by apply IH.
Qed.

Lemma cache_key_inj slug tok tok' :
  PriceCache.cache_key slug tok = PriceCache.cache_key slug tok' -> tok = tok'.
Proof.
  unfold PriceCache.cache_key. intros H%append_inj_r. by apply append_inj_r in H.
Qed.

Lemma has_cached_price_false_lookup slug tok cached :
  PriceCache.has_cached_price slug cached = false ->
  cached !! PriceCache.cache_key slug tok = None.
Proof.
  intros Hhas.
  destruct (cached !! PriceCache.cache_key slug tok) as [entry|] eqn:Hkey; [|done].
  assert (PriceCache.has_cached_price slug cached = true); [|congruence].
  apply has_cached_price_spec. exists (PriceCache.cache_key slug tok), entry.
  split; [done | apply cache_key_of_market].
Qed.

Lemma has_cached_price_cache_price slug tok pr team now cached :
  PriceCache.has_cached_price slug
    (PriceCache.cache_price slug tok pr team now cached) = true.
Proof.
  apply has_cached_price_spec. unfold PriceCache.cache_price.
  destruct (cached !! PriceCache.cache_key slug tok) as [entry|] eqn:Hkey.
  - exists (PriceCache.cache_key slug tok), entry.
    split; [done | apply cache_key_of_market].
  - eexists (PriceCache.cache_key slug tok), _.
    split; [apply lookup_insert_eq | apply cache_key_of_market].
Qed.

Lemma truthy_str_Some (t : option string) :
  truthy_str t = true -> exists s, t = Some s.
Proof. destruct t as [s|]; [by exists s | done]. Qed.
End price_lock_facts.

(** X17 — the scanner locks the first prices it sees in the cache window.
    Take a market with two different token ids and nothing cached.  A scan
    between 0 and 180 minutes before the start goes on with the current
    prices and caches them; every later scan of the market, whatever the
    current prices and the time are, goes on with those first prices and
    leaves the cache as it is. *)
Theorem lock_prices_keeps_first_prices
    (slug : string) (token_id_a token_id_b : option string)
    (outcome_a outcome_b : string) (first_a first_b minutes : Q) (now : Z)
    (cached : gmap string PriceCache.CachedPrice) :
  truthy_str token_id_a = true ->
  truthy_str token_id_b = true ->
  token_id_a <> token_id_b ->
  PriceCache.has_cached_price slug cached = false ->
  (0 <= minutes <= 180)%Q ->
  let first := MarketScanner.lock_prices slug token_id_a token_id_b
                 outcome_a outcome_b first_a first_b minutes now cached in
  first.1 = (Some first_a, Some first_b)
  /\ forall outcome_a' outcome_b' later_a later_b minutes' now',
       MarketScanner.lock_prices slug token_id_a token_id_b
         outcome_a' outcome_b' later_a later_b minutes' now' first.2
       = ((Some first_a, Some first_b), first.2).
Proof.
  intros Ha Hb Hne Hnone [Hlo Hhi] first. subst first.
  destruct (truthy_str_Some _ Ha) as [ta ->].
  destruct (truthy_str_Some _ Hb) as [tb ->].
  assert (Hkeys : PriceCache.cache_key slug ta <> PriceCache.cache_key slug tb).
  { intros Heq%cache_key_inj. congruence. }
  apply Qle_bool_iff in Hlo, Hhi.
  set (cached1 := PriceCache.cache_price slug ta first_a outcome_a now cached).
  set (cached2 := PriceCache.cache_price slug tb first_b outcome_b now cached1).
  assert (Hfirst : MarketScanner.lock_prices slug (Some ta) (Some tb)
                     outcome_a outcome_b first_a first_b minutes now cached
                   = ((Some first_a, Some first_b), cached2)).
  { unfold MarketScanner.lock_prices. by rewrite Ha, Hb, Hnone, Hlo, Hhi. }
  rewrite Hfirst. cbn [fst snd]. clear Hfirst.
  split; [done|]. intros oa' ob' la lb m' now'.
  unfold MarketScanner.lock_prices.
  assert (H2 : PriceCache.has_cached_price slug cached2 = true)
    by apply has_cached_price_cache_price.
  rewrite Ha, H2. cbn [andb MarketScanner.py_str default]. f_equal.
  assert (Hget_a : cached1 !! PriceCache.cache_key slug ta
                   = Some {| PriceCache.price := first_a;
                             PriceCache.team_name := outcome_a;
                             PriceCache.cached_at := now |}).
  { unfold cached1, PriceCache.cache_price.
    rewrite (has_cached_price_false_lookup slug ta cached Hnone).
    apply lookup_insert_eq. }
  assert (Hget_b0 : cached1 !! PriceCache.cache_key slug tb = None).
  { unfold cached1, PriceCache.cache_price.
    rewrite (has_cached_price_false_lookup slug ta cached Hnone).
    rewrite lookup_insert_ne by done.
    apply (has_cached_price_false_lookup slug tb cached Hnone). }
  unfold PriceCache.get_cached_price, cached2, PriceCache.cache_price.
  rewrite Hget_b0.
  rewrite (lookup_insert_ne cached1 _ _ _ (not_eq_sym Hkeys)), Hget_a.
  by rewrite lookup_insert_eq.
Qed.

Lemma lock_prices_keeps_first_prices_witness :
  (MarketScanner.lock_prices "m" (Some "A") (Some "B") "a" "b"
     (65 # 100) (35 # 100) 120 0 ∅).1
  = (Some (65 # 100), Some (35 # 100)).
Proof.
  apply (lock_prices_keeps_first_prices "m" (Some "A") (Some "B") "a" "b"
           (65 # 100) (35 # 100) 120 0 ∅).
  - reflexivity.
  - reflexivity.
  - discriminate.
  - reflexivity.
  - split; vm_compute; discriminate.
Defined.

(** Outside the cache window nothing is locked.  For a market with
    nothing cached, a scan more than 180 minutes before the start, or
    after it, or of a market with a missing token id, goes on with the
    current prices and leaves the cache as it is. *)
Theorem lock_prices_outside_window
    (slug : string) (token_id_a token_id_b : option string)
    (outcome_a outcome_b : string) (current_a current_b minutes : Q) (now : Z)
    (cached : gmap string PriceCache.CachedPrice) :
  PriceCache.has_cached_price slug cached = false ->
  (minutes < 0 \/ 180 < minutes)%Q
  \/ truthy_str token_id_a = false \/ truthy_str token_id_b = false ->
  MarketScanner.lock_prices slug token_id_a token_id_b outcome_a outcome_b
    current_a current_b minutes now cached
  = ((Some current_a, Some current_b), cached).
Proof.
  intros Hnone Hout. unfold MarketScanner.lock_prices.
  rewrite Hnone, andb_false_r. f_equal.
  destruct Hout as [[Hlt|Hgt]|[Ha|Hb]].
  - destruct (Qle_bool 0 minutes) eqn:Hle.
    + apply Qle_bool_iff in Hle. lra.
    + by rewrite andb_false_r.
  - destruct (Qle_bool minutes 180) eqn:Hle.
    + apply Qle_bool_iff in Hle. lra.
    + by rewrite andb_false_r.
  - by rewrite Ha.
  - by rewrite Hb, andb_false_r.
Qed.

Lemma lock_prices_outside_window_witness :
  MarketScanner.lock_prices "m" (Some "A") (Some "B") "a" "b"
    (65 # 100) (35 # 100) 181 0 ∅
  = ((Some (65 # 100), Some (35 # 100)), ∅).
Proof.
  apply (lock_prices_outside_window "m" (Some "A") (Some "B") "a" "b"
           (65 # 100) (35 # 100) 181 0 ∅).
  - reflexivity.
  - left. right. reflexivity.
Defined.

(** X18 — what the price filters let through.  A market that [rank_teams]
    keeps has both prices, their sum in cents is at most [max_total_price],
    the strong price in cents is at least [min_strong_team_price], the weak
    price is not above the strong one, the pair is not the decided pattern
    (strong at 0.99 or more with weak at 0.01 or less), and the strong team
    is outcome 0 exactly when the first price is strictly higher: on equal
    prices it is outcome 1. *)
Theorem rank_teams_sound
    (max_total_price min_strong_team_price : Q) (prices : option Q * option Q)
    (r : MarketScanner.Ranked) :
  MarketScanner.rank_teams max_total_price min_strong_team_price prices = Some r ->
  exists price_a price_b,
    prices = (Some price_a, Some price_b)
    /\ MarketScanner.total_price r = (price_a * 100 + price_b * 100)%Q
    /\ (MarketScanner.total_price r <= max_total_price
        /\ min_strong_team_price <= MarketScanner.strong_team_price r * 100
        /\ MarketScanner.weak_team_price r <= MarketScanner.strong_team_price r
        /\ ~ (99 # 100 <= MarketScanner.strong_team_price r
              /\ MarketScanner.weak_team_price r <= 1 # 100))%Q
    /\ ((price_b < price_a)%Q
        /\ MarketScanner.strong_team_idx r = 0%nat
        /\ MarketScanner.weak_team_idx r = 1%nat
        /\ MarketScanner.strong_team_price r = price_a
        /\ MarketScanner.weak_team_price r = price_b
        \/ (price_a <= price_b)%Q
           /\ MarketScanner.strong_team_idx r = 1%nat
           /\ MarketScanner.weak_team_idx r = 0%nat
           /\ MarketScanner.strong_team_price r = price_b
           /\ MarketScanner.weak_team_price r = price_a).
Proof.
  destruct prices as [[a|] [b|]]; try discriminate.
  unfold MarketScanner.rank_teams. intros Hrank. exists a, b.
  destruct (Qltb max_total_price _) eqn:Htotal; [done|]. apply Qltb_ge in Htotal.
  destruct (Qltb _ min_strong_team_price) eqn:Hstrong; [done|].
  apply Qltb_ge in Hstrong.
  destruct (Qle_bool (99 # 100) _ && Qle_bool _ (1 # 100)) eqn:Hdecided; [done|].
  destruct (_ && _) eqn:Hextreme in Hrank; [done|]. clear Hextreme.
  assert (Hnot : ~ (99 # 100 <= (if Qle_bool b a then a else b)
                    /\ (if Qle_bool a b then a else b) <= 1 # 100)%Q).
  { intros [H1%Qle_bool_iff H2%Qle_bool_iff]. by rewrite H1, H2 in Hdecided. }
  clear Hdecided.
  destruct (Qltb b a) eqn:Hba.
  - apply Qltb_lt in Hba. injection Hrank as <-. cbn.
    assert (Hle : Qle_bool b a = true) by (apply Qle_bool_iff; lra).
    assert (Hnle : Qle_bool a b = false).
    { destruct (Qle_bool a b) eqn:H; [|done]. apply Qle_bool_iff in H. lra. }
    rewrite Hle in Hstrong, Hnot. rewrite Hnle in Hnot.
    split; [done|]. split; [done|]. split.
    + split; [lra|]. split; [lra|]. split; [lra|]. exact Hnot.
    + left. repeat split; done.
  - apply Qltb_ge in Hba. injection Hrank as <-. cbn.
    assert (Hle : Qle_bool a b = true) by (by apply Qle_bool_iff).
    rewrite Hle in Hnot.
    split; [done|]. split; [done|]. split.
    + destruct (Qle_bool b a) eqn:Hle'.
      * apply Qle_bool_iff in Hle'.
        split; [lra|]. split; [lra|]. split; [lra|].
        intros [H1 H2]. apply Hnot. split; lra.
      * split; [lra|]. split; [lra|]. split; [lra|]. exact Hnot.
    + right. repeat split; done.
Qed.

Lemma rank_teams_sound_witness :
  exists price_a price_b,
    (Some (65 # 100), Some (35 # 100)) = (Some price_a, Some price_b)
    /\ MarketScanner.total_price
         {| MarketScanner.strong_team_idx := 0; MarketScanner.weak_team_idx := 1;
            MarketScanner.strong_team_price := 65 # 100;
            MarketScanner.weak_team_price := 35 # 100;
            MarketScanner.total_price := (65 # 100) * 100 + (35 # 100) * 100 |}
       = (price_a * 100 + price_b * 100)%Q.
Proof.
  destruct (rank_teams_sound 110 60 (Some (65 # 100), Some (35 # 100)) _ eq_refl)
    as (price_a & price_b & Hprices & Htotal & _).
  exists price_a, price_b. split; [exact Hprices | exact Htotal].
Defined.

(** ** The reconciliation pass: quiet passes, counters, bookkeeping *)

Section recreation_facts.
Variable client : TradeExecutor.Client.
Variable now : Z.
Variable ended : gset string.
Implicit Types (s : TradeExecutor.Recon) (od : OrderMonitor.TrackedOrder)
  (tracked : OrderMonitor.tracked_orders).

Lemma mark_order_recreated_lookup old new oid tracked :
  PyDict.getitem oid (OrderMonitor.mark_order_recreated old new tracked)
  = if decide (old = oid)
    then (fun o => OrderMonitor.with_recreated_as new
                     (OrderMonitor.with_status "recreated" o))
           <$> PyDict.getitem oid tracked
    else PyDict.getitem oid tracked.
Proof.
  unfold OrderMonitor.mark_order_recreated.
  destruct (PyDict.contains old tracked) eqn:Hc.
  - apply getitem_modify.
  - destruct (decide (old = oid)) as [->|Hne]; [|done].
    unfold PyDict.contains in Hc. by destruct (PyDict.getitem oid tracked).
Qed.

(** What one iteration adds to the counters and to the accepted
    submissions. *)
Lemma recreate_one_counts s od :
  let s' := TradeExecutor.recreate_one client now ended s od in
  (length (TradeExecutor.accepted (TradeExecutor.events s'))
   + TradeExecutor.recreated_count s
   = length (TradeExecutor.accepted (TradeExecutor.events s))
     + TradeExecutor.recreated_count s')%nat
  /\ (TradeExecutor.recreated_count s <= TradeExecutor.recreated_count s')%nat
  /\ (TradeExecutor.skipped_ended_markets s
      <= TradeExecutor.skipped_ended_markets s')%nat
  /\ (TradeExecutor.recreated_count s' + TradeExecutor.skipped_ended_markets s'
      <= S (TradeExecutor.recreated_count s
            + TradeExecutor.skipped_ended_markets s))%nat.
Proof.
  unfold TradeExecutor.recreate_one.
  case_bool_decide; simpl; [lia|].
  destruct (TradeExecutor.get_token_balance client _ _) as [b|]; simpl; [|lia].
  destruct (Qltb dust b); simpl; [lia|].
  destruct (TradeExecutor.place_limit client _ _) as [[new|]|]; simpl; lia.
Qed.

Lemma recreate_all_counts (ds : list OrderMonitor.TrackedOrder) s :
  let s' := TradeExecutor.recreate_all client now ended ds s in
  (length (TradeExecutor.accepted (TradeExecutor.events s'))
   + TradeExecutor.recreated_count s
   = length (TradeExecutor.accepted (TradeExecutor.events s))
     + TradeExecutor.recreated_count s')%nat
  /\ (TradeExecutor.recreated_count s' + TradeExecutor.skipped_ended_markets s'
      <= length ds + (TradeExecutor.recreated_count s
                      + TradeExecutor.skipped_ended_markets s))%nat.
Proof.
  revert s. induction ds as [|od ds IH]; intros s; simpl; [lia|].
  unfold TradeExecutor.recreate_all in *. simpl.
  specialize (IH (TradeExecutor.recreate_one client now ended s od)).
  pose proof (recreate_one_counts s od). simpl in *. lia.
Qed.
End recreation_facts.

Section quiet_pass_facts.
Implicit Types (tracked : OrderMonitor.tracked_orders).

Lemma modify_statuses (f : OrderMonitor.TrackedOrder -> OrderMonitor.TrackedOrder)
    oid tracked :
  (forall o, OrderMonitor.status (f o) = OrderMonitor.status o) ->
  OrderMonitor.status <$> PyDict.values (PyDict.modify f oid tracked)
  = OrderMonitor.status <$> PyDict.values tracked.
Proof.
  intros Hf. unfold PyDict.values.
  induction tracked as [|[k v] d IH]; [done|]. cbn [PyDict.modify].
  destruct (decide (oid = k)); rewrite !fmap_cons; cbn [snd].
  - by rewrite Hf.
  - by rewrite IH.
Qed.

Lemma observe_all_seen_statuses now (ids : gset string) tracked :
  Forall (fun k => k ∈ ids) (PyDict.keys tracked) ->
  OrderMonitor.status <$> PyDict.values (TradeExecutor.observe_all now ids tracked)
  = OrderMonitor.status <$> PyDict.values tracked.
Proof.
  unfold TradeExecutor.observe_all.
  generalize (PyDict.keys tracked) as ks. intros ks Hks. revert tracked.
  induction Hks as [|k ks Hk _ IH]; intros tracked; simpl; [done|].
  rewrite IH. unfold OrderMonitor.update_order_status.
  destruct (PyDict.contains k tracked); [|done].
  apply modify_statuses. intros o. by rewrite bool_decide_eq_true_2.
Qed.

Lemma get_disappeared_orders_nil tracked :
  Forall (fun st => st <> "disappeared")
         (OrderMonitor.status <$> PyDict.values tracked) ->
  OrderMonitor.get_disappeared_orders tracked = [].
Proof.
  unfold OrderMonitor.get_disappeared_orders.
  induction (PyDict.values tracked) as [|o l IH]; [done|].
  rewrite fmap_cons. intros [Ho Hl]%Forall_cons.
  rewrite filter_cons_False by done. by apply IH.
Qed.
End quiet_pass_facts.

(** X19 — a quiet pass asks the venue nothing.  When every tracked order id
    is in the open-order snapshot and no tracked order has status
    'disappeared', [check_and_recreate_orders] submits nothing and asks for
    no balance, reports 0 recreated and 0 skipped, leaves the queue as it
    is, and keeps the keys and the status of every order. *)
Theorem quiet_pass_asks_nothing
    (client : TradeExecutor.Client) (market_scanner : option (string -> bool))
    (now : Z) (open_orders : list TradeExecutor.OpenOrder)
    (tracked : OrderMonitor.tracked_orders)
    (queue : option (gmap string MarketQueue.QueuedMarket))
    (history : list TradeExecutor.Event) :
  Forall (fun kv => kv.1 ∈ TradeExecutor.open_order_ids open_orders
                    /\ OrderMonitor.status kv.2 <> "disappeared") tracked ->
  let pass := TradeExecutor.check_and_recreate_orders client market_scanner now
                open_orders tracked queue history in
  TradeExecutor.events pass = history
  /\ TradeExecutor.recreated_count pass = 0%nat
  /\ TradeExecutor.skipped_ended_markets pass = 0%nat
  /\ TradeExecutor.market_queue pass = queue
  /\ PyDict.keys (TradeExecutor.order_monitor pass) = PyDict.keys tracked
  /\ OrderMonitor.status <$> PyDict.values (TradeExecutor.order_monitor pass)
     = OrderMonitor.status <$> PyDict.values tracked.
Proof.
  intros Hall pass. subst pass. unfold TradeExecutor.check_and_recreate_orders.
  assert (Hkeys : Forall (fun k => k ∈ TradeExecutor.open_order_ids open_orders)
                         (PyDict.keys tracked)).
  { unfold PyDict.keys. apply Forall_fmap.
    eapply Forall_impl; [exact Hall|]. by intros kv [? _]. }
  assert (Hstatus : Forall (fun st => st <> "disappeared")
                           (OrderMonitor.status <$> PyDict.values tracked)).
  { unfold PyDict.values. apply Forall_fmap, Forall_fmap.
    eapply Forall_impl; [exact Hall|]. by intros kv [_ ?]. }
  pose proof (observe_all_seen_statuses now _ tracked Hkeys) as Hobs.
  rewrite get_disappeared_orders_nil by (by rewrite Hobs). simpl.
  repeat split; [|done].
  apply observe_all_invariants.
Qed.

Lemma quiet_pass_asks_nothing_witness :
  TradeExecutor.events
    (TradeExecutor.check_and_recreate_orders Samples.accepting
       (Some Samples.all_active) 7
       [ {| TradeExecutor.oo_id := "O1"; TradeExecutor.oo_asset_id := "T";
            TradeExecutor.oo_side := "BUY";
            TradeExecutor.oo_original_size := 10 |} ]
       (Samples.ledger "filled" 0) None [])
  = [].
Proof.
  apply (quiet_pass_asks_nothing Samples.accepting (Some Samples.all_active) 7
           [ {| TradeExecutor.oo_id := "O1"; TradeExecutor.oo_asset_id := "T";
                TradeExecutor.oo_side := "BUY";
                TradeExecutor.oo_original_size := 10 |} ]
           (Samples.ledger "filled" 0) None []).
  constructor; [|constructor]. split.
  - apply (bool_decide_eq_true_1 _). vm_compute. reflexivity.
  - discriminate.
Defined.

(** X20 — the returned count is the number of orders the venue accepted.
    Over one pass of [check_and_recreate_orders] the number of accepted
    submissions grows by exactly [recreated_count], and recreated plus
    skipped orders are at most the orders that were listed as disappeared
    after the observation loop. *)
Theorem recreated_count_counts_accepted
    (client : TradeExecutor.Client) (market_scanner : option (string -> bool))
    (now : Z) (open_orders : list TradeExecutor.OpenOrder)
    (tracked : OrderMonitor.tracked_orders)
    (queue : option (gmap string MarketQueue.QueuedMarket))
    (history : list TradeExecutor.Event) :
  let pass := TradeExecutor.check_and_recreate_orders client market_scanner now
                open_orders tracked queue history in
  let disappeared :=
    OrderMonitor.get_disappeared_orders
      (TradeExecutor.observe_all now (TradeExecutor.open_order_ids open_orders)
         tracked) in
  length (TradeExecutor.accepted (TradeExecutor.events pass))
  = (length (TradeExecutor.accepted history)
     + TradeExecutor.recreated_count pass)%nat
  /\ (TradeExecutor.recreated_count pass
      + TradeExecutor.skipped_ended_markets pass <= length disappeared)%nat.
Proof.
  cbv zeta. unfold TradeExecutor.check_and_recreate_orders.
  destruct (OrderMonitor.get_disappeared_orders _) as [|od ds].
  - simpl. lia.
  - match goal with
    | |- context [TradeExecutor.recreate_all ?c ?n ?e (od :: ds) ?s] =>
        pose proof (recreate_all_counts c n e (od :: ds) s) as Hc
    end.
    simpl in *. lia.
Qed.

(** X21 — the bookkeeping of a successful recreation.  When the iteration
    of a disappeared order gets a new order id from the venue, different
    from the old one, the new id is tracked as an active order with the
    token, market, side, price, size and entry number of the old order but
    without its strong-team price; the old entry, if tracked, becomes
    'recreated' and points to the new id; every other entry is untouched,
    and the count goes up by one. *)
Theorem recreation_bookkeeping
    (client : TradeExecutor.Client) (now : Z) (ended : gset string)
    (s : TradeExecutor.Recon) (od : OrderMonitor.TrackedOrder)
    (b : Q) (new_order_id : string) :
  OrderMonitor.market_slug od ∉ ended ->
  TradeExecutor.get_token_balance client (TradeExecutor.events s)
    (OrderMonitor.token_id od) = TradeExecutor.Returned b ->
  (b <= dust)%Q ->
  TradeExecutor.place_limit client
    (TradeExecutor.BalanceQuery (OrderMonitor.token_id od) (TradeExecutor.Returned b)
       :: TradeExecutor.events s)
    (TradeExecutor.recreate_request od)
  = TradeExecutor.Returned (Some new_order_id) ->
  new_order_id <> OrderMonitor.order_id od ->
  let s' := TradeExecutor.recreate_one client now ended s od in
  PyDict.getitem new_order_id (TradeExecutor.order_monitor s')
  = Some {| OrderMonitor.order_id := new_order_id;
            OrderMonitor.token_id := OrderMonitor.token_id od;
            OrderMonitor.market_slug := OrderMonitor.market_slug od;
            OrderMonitor.side := OrderMonitor.side od;
            OrderMonitor.price := OrderMonitor.price od;
            OrderMonitor.size := OrderMonitor.size od;
            OrderMonitor.entry_number := OrderMonitor.entry_number od;
            OrderMonitor.strong_team_price_cents := None;
            OrderMonitor.created_at := now; OrderMonitor.last_seen := now;
            OrderMonitor.disappeared_count := 0;
            OrderMonitor.status := "active";
            OrderMonitor.recreated_as := None |}
  /\ PyDict.getitem (OrderMonitor.order_id od) (TradeExecutor.order_monitor s')
     = (fun o => OrderMonitor.with_recreated_as new_order_id
                   (OrderMonitor.with_status "recreated" o))
         <$> PyDict.getitem (OrderMonitor.order_id od) (TradeExecutor.order_monitor s)
  /\ (forall oid, oid <> new_order_id -> oid <> OrderMonitor.order_id od ->
        PyDict.getitem oid (TradeExecutor.order_monitor s')
        = PyDict.getitem oid (TradeExecutor.order_monitor s))
  /\ TradeExecutor.recreated_count s' = S (TradeExecutor.recreated_count s)
  /\ TradeExecutor.skipped_ended_markets s' = TradeExecutor.skipped_ended_markets s
  /\ TradeExecutor.market_queue s' = TradeExecutor.market_queue s.
Proof.
  intros Hslug Hbal Hle Hresp Hne s'. subst s'.
  unfold TradeExecutor.recreate_one.
  rewrite bool_decide_eq_false_2 by done.
  rewrite Hbal, (proj2 (Qltb_ge dust b) Hle), Hresp. simpl.
  split; [|split; [|split]]; [..|done].
  - rewrite mark_order_recreated_lookup, decide_False by done.
    unfold OrderMonitor.add_order. by rewrite getitem_setitem_eq.
  - rewrite mark_order_recreated_lookup, decide_True by done.
    unfold OrderMonitor.add_order. by rewrite getitem_setitem_ne.
  - intros oid Hnew Hold.
    rewrite mark_order_recreated_lookup, decide_False by done.
    unfold OrderMonitor.add_order. by rewrite getitem_setitem_ne.
Qed.

Lemma recreation_bookkeeping_witness :
  TradeExecutor.recreated_count
    (TradeExecutor.recreate_one Samples.accepting 7 ∅
       {| TradeExecutor.order_monitor := Samples.ledger "disappeared" 1;
          TradeExecutor.market_queue := None;
          TradeExecutor.events := [];
          TradeExecutor.recreated_count := 0;
          TradeExecutor.skipped_ended_markets := 0 |}
       (Samples.order "disappeared" 1))
  = 1%nat.
Proof.
  apply (recreation_bookkeeping Samples.accepting 7 ∅
           {| TradeExecutor.order_monitor := Samples.ledger "disappeared" 1;
              TradeExecutor.market_queue := None;
              TradeExecutor.events := [];
              TradeExecutor.recreated_count := 0;
              TradeExecutor.skipped_ended_markets := 0 |}
           (Samples.order "disappeared" 1) 0 "N1").
  - apply not_elem_of_empty.
  - reflexivity.
  - vm_compute. discriminate.
  - reflexivity.
  - discriminate.
Defined.

(** ** Entry orders: submissions, returned ids, tracking *)

Section entry_order_facts.
Variable client : TradeExecutor.Client.
Variable now : Z.
Variable strong : option Q.

Implicit Types (spec : EntryStrategy.OrderSpec)
  (st : list string * OrderMonitor.tracked_orders * list TradeExecutor.Event).

Lemma place_entry_order_step st spec :
  let st' := TradeExecutor.place_entry_order client now strong st spec in
  TradeExecutor.placements st'.2 = TradeExecutor.entry_request spec :: TradeExecutor.placements st.2
  /\ ((exists order_id,
         TradeExecutor.accepted st'.2
         = (TradeExecutor.entry_request spec, order_id) :: TradeExecutor.accepted st.2
         /\ st'.1.1 = st.1.1 ++ [order_id]
         /\ st'.1.2
            = if Qeq_bool (EntryStrategy.spec_price spec) 0 then st.1.2
              else PyDict.setitem order_id (TradeExecutor.entry_record strong now order_id spec) st.1.2)
      \/ (TradeExecutor.accepted st'.2 = TradeExecutor.accepted st.2
          /\ st'.1.1 = st.1.1 /\ st'.1.2 = st.1.2)).
Proof.
  destruct st as [[ids tracked] history].
  unfold TradeExecutor.place_entry_order.
  change (TradeExecutor.LimitBuy _ _ _) with (TradeExecutor.entry_request spec).
  destruct (TradeExecutor.place_limit client history
              (TradeExecutor.entry_request spec)) as [[order_id|]|].
  - destruct (Qeq_bool (EntryStrategy.spec_price spec) 0);
      (split; [reflexivity|]); left; exists order_id; repeat split; reflexivity.
  - split; [reflexivity|]. right. repeat split; reflexivity.
  - split; [reflexivity|]. right. repeat split; reflexivity.
Qed.

Lemma place_entry_orders_log (orders : list EntryStrategy.OrderSpec) st :
  let st' := foldl (TradeExecutor.place_entry_order client now strong) st orders in
  TradeExecutor.placements st'.2
  = reverse (TradeExecutor.entry_request <$> orders) ++ TradeExecutor.placements st.2
  /\ exists new,
       TradeExecutor.accepted st'.2 = new ++ TradeExecutor.accepted st.2
       /\ st'.1.1 = st.1.1 ++ reverse new.*2
       /\ new.*1 `sublist_of` reverse (TradeExecutor.entry_request <$> orders).
Proof.
  revert st. induction orders as [|spec orders IH]; intros st; simpl.
  - split; [done|]. exists []. by rewrite app_nil_r.
  - destruct (IH (TradeExecutor.place_entry_order client now strong st spec))
      as (Hlog & new & Hacc & Hids & Hsub).
    destruct (place_entry_order_step st spec)
      as (Hp & [(order_id & Ha & Hi & _) | (Ha & Hi & _)]).
    + split.
      { rewrite Hlog, Hp, ?fmap_cons, reverse_cons, <- app_assoc. done. }
      exists (new ++ [(TradeExecutor.entry_request spec, order_id)]). split; [|split].
      * by rewrite Hacc, Ha, <- app_assoc.
      * rewrite Hids, Hi, fmap_app, reverse_app, <- app_assoc. done.
      * rewrite fmap_app, ?fmap_cons, reverse_cons. simpl.
        by apply sublist_app.
    + split.
      { rewrite Hlog, Hp, ?fmap_cons, reverse_cons, <- app_assoc. done. }
      exists new. split; [|split].
      * by rewrite Hacc, Ha.
      * by rewrite Hids, Hi.
      * rewrite ?fmap_cons, reverse_cons. by apply sublist_inserts_r.
Qed.

(** The ledger after the loop, for orders with non-zero prices: the ids
    returned so far are tracked with the record of one of the
    specifications, the other ids are as before. *)
Lemma place_entry_orders_tracked (all orders : list EntryStrategy.OrderSpec)
    (tracked0 : OrderMonitor.tracked_orders) st :
  Forall (fun spec => spec ∈ all /\ Qeq_bool (EntryStrategy.spec_price spec) 0 = false)
         orders ->
  (forall order_id, order_id ∈ st.1.1 ->
     exists spec, spec ∈ all
       /\ PyDict.getitem order_id st.1.2 = Some (TradeExecutor.entry_record strong now order_id spec)) ->
  (forall order_id, order_id ∉ st.1.1 ->
     PyDict.getitem order_id st.1.2 = PyDict.getitem order_id tracked0) ->
  let st' := foldl (TradeExecutor.place_entry_order client now strong) st orders in
  (forall order_id, order_id ∈ st'.1.1 ->
     exists spec, spec ∈ all
       /\ PyDict.getitem order_id st'.1.2 = Some (TradeExecutor.entry_record strong now order_id spec))
  /\ (forall order_id, order_id ∉ st'.1.1 ->
        PyDict.getitem order_id st'.1.2 = PyDict.getitem order_id tracked0).
Proof.
  intros Horders. revert st.
  induction Horders as [|spec orders [Hin Hprice] _ IH]; intros st Hids Hrest; simpl.
  - done.
  - apply IH.
    + destruct (place_entry_order_step st spec)
        as (_ & [(new & _ & -> & ->) | (_ & -> & ->)]); [|done].
      rewrite Hprice. intros order_id [Hold | ->%list_elem_of_singleton]%elem_of_app.
      * destruct (decide (new = order_id)) as [->|Hne].
        -- exists spec. by rewrite getitem_setitem_eq.
        -- rewrite getitem_setitem_ne by done. by apply Hids.
      * exists spec. by rewrite getitem_setitem_eq.
    + destruct (place_entry_order_step st spec)
        as (_ & [(new & _ & -> & ->) | (_ & -> & ->)]); [|done].
      rewrite Hprice. intros order_id Hout.
      apply not_elem_of_app in Hout as [Hout Hnew].
      rewrite getitem_setitem_ne; [by apply Hrest|].
      intros ->. apply Hnew, list_elem_of_here.
Qed.
End entry_order_facts.

(** X22 — one limit buy per specification, whatever the venue answers.
    [place_entry_orders] submits exactly the buy of each specification, in
    order, also after a submission that raised or was refused; the ids it
    returns are the ids of the submissions the venue accepted, in order. *)
Theorem place_entry_orders_one_buy_each
    (client : TradeExecutor.Client) (now : Z)
    (orders : list EntryStrategy.OrderSpec) (strong : option Q)
    (tracked : OrderMonitor.tracked_orders) (history : list TradeExecutor.Event) :
  let result := TradeExecutor.place_entry_orders client now orders strong tracked
                  history in
  TradeExecutor.placements result.2
  = reverse (TradeExecutor.entry_request <$> orders)
      ++ TradeExecutor.placements history
  /\ exists new,
       TradeExecutor.accepted result.2 = new ++ TradeExecutor.accepted history
       /\ result.1.1 = reverse new.*2
       /\ new.*1 `sublist_of` reverse (TradeExecutor.entry_request <$> orders).
Proof.
  intros result. subst result.
  apply (place_entry_orders_log client now strong orders ([], tracked, history)).
Qed.

(** X23 — every returned id is tracked.  For specifications with non-zero
    prices, each id [place_entry_orders] returns is in the ledger
    afterwards as an active BUY order under that id, with the token,
    market, price and entry number of one of the specifications, the
    strong-team price given and, as size, the Decimal quotient of amount by
    price, rounded to 28 significant digits; ids that were not returned
    keep the entry they had. *)
Theorem placed_entry_orders_are_tracked
    (client : TradeExecutor.Client) (now : Z)
    (orders : list EntryStrategy.OrderSpec) (strong : option Q)
    (tracked : OrderMonitor.tracked_orders) (history : list TradeExecutor.Event) :
  Forall (fun spec => ~ (EntryStrategy.spec_price spec == 0)%Q) orders ->
  let result := TradeExecutor.place_entry_orders client now orders strong tracked
                  history in
  (forall order_id, order_id ∈ result.1.1 ->
     exists spec, spec ∈ orders
       /\ PyDict.getitem order_id result.1.2
          = Some (TradeExecutor.entry_record strong now order_id spec))
  /\ (forall order_id, order_id ∉ result.1.1 ->
        PyDict.getitem order_id result.1.2 = PyDict.getitem order_id tracked).
Proof.
  intros Hprices result. subst result.
  apply (place_entry_orders_tracked client now strong orders orders tracked
           ([], tracked, history)).
  - apply Forall_forall. intros spec Hin. split; [done|].
    rewrite Forall_forall in Hprices. specialize (Hprices spec Hin).
    destruct (Qeq_bool (EntryStrategy.spec_price spec) 0) eqn:Heq; [|done].
    by apply Qeq_bool_iff in Heq.
  - intros order_id Hin. by apply elem_of_nil in Hin.
  - done.
Qed.

Lemma placed_entry_orders_are_tracked_witness :
  PyDict.getitem "O2"
    (TradeExecutor.place_entry_orders Samples.accepting 7
       [ {| EntryStrategy.order_type := "limit_buy";
            EntryStrategy.spec_token_id := "T"; EntryStrategy.team_name := "A";
            EntryStrategy.spec_price := 43 # 100;
            EntryStrategy.spec_price_cents := 43;
            EntryStrategy.amount_usd := 7 # 2; EntryStrategy.entry_number := 1;
            EntryStrategy.market_question := "Q";
            EntryStrategy.market_slug := "S" |} ]
       (Some (65 # 1)) Samples.two_tiers []).1.2
  = PyDict.getitem "O2" Samples.two_tiers.
Proof.
  apply (placed_entry_orders_are_tracked Samples.accepting 7
           [ {| EntryStrategy.order_type := "limit_buy";
                EntryStrategy.spec_token_id := "T"; EntryStrategy.team_name := "A";
                EntryStrategy.spec_price := 43 # 100;
                EntryStrategy.spec_price_cents := 43;
                EntryStrategy.amount_usd := 7 # 2; EntryStrategy.entry_number := 1;
                EntryStrategy.market_question := "Q";
                EntryStrategy.market_slug := "S" |} ]
           (Some (65 # 1)) Samples.two_tiers []).
  - constructor; [|constructor]. simpl. intros H. vm_compute in H. discriminate.
  - change ("O2" ∉ ["N1"]).
    apply not_elem_of_cons. split; [discriminate | apply not_elem_of_nil].
Defined.

(** The size stored for 3.5 dollars at 43 cents is the 28-digit quotient
    8.139534883720930232558139535, not the fraction 350/43; recreating that
    order as a buy asks for the Decimal product of price and size, which
    rounds back to 3.5. *)
Lemma entry_size_is_rounded :
  let spec :=
    {| EntryStrategy.order_type := "limit_buy";
       EntryStrategy.spec_token_id := "T"; EntryStrategy.team_name := "A";
       EntryStrategy.spec_price := 43 # 100;
       EntryStrategy.spec_price_cents := 43;
       EntryStrategy.amount_usd := 7 # 2; EntryStrategy.entry_number := 1;
       EntryStrategy.market_question := "Q";
       EntryStrategy.market_slug := "S" |} in
  let record := TradeExecutor.entry_record (Some (65 # 1)) 7 "N1" spec in
  (OrderMonitor.size record
   == 8139534883720930232558139535 # 1000000000000000000000000000)%Q
  /\ ~ (OrderMonitor.size record == (7 # 2) / (43 # 100))%Q
  /\ (TradeExecutor.request_price (TradeExecutor.recreate_request record) == 43 # 100)%Q
  /\ TradeExecutor.recreate_request record
     = TradeExecutor.LimitBuy "T" (43 # 100) (7 # 2)
  /\ ~ (OrderMonitor.price record * OrderMonitor.size record == 7 # 2)%Q.
Proof.
  intros spec record.
  split; [vm_compute; reflexivity|].
  split; [intros Heq; vm_compute in Heq; discriminate|].
  split; [vm_compute; reflexivity|].
  split; [vm_compute; reflexivity|].
  intros Heq. vm_compute in Heq. discriminate.
Qed.

(** ** The bot: placing orders for the scanned markets *)

Section step2_facts.
Variable client : TradeExecutor.Client.
Variable entry_size_usd : Q.
Variable now : Z.
Variable all_open_orders : list TradeExecutor.OpenOrder.

Implicit Types (c : TradingBot.Cycle) (market : EntryStrategy.Market)
  (queue : gmap string MarketQueue.QueuedMarket).

Lemma registered_lookup market queue :
  is_Some (TradingBot.registered now market queue !! EntryStrategy.slug market)
  /\ forall s m, queue !! s = Some m -> TradingBot.registered now market queue !! s = Some m.
Proof.
  unfold TradingBot.registered, MarketQueue.has_market, MarketQueue.add_pending_market.
  case_bool_decide as Hin.
  - done.
  - destruct (queue !! EntryStrategy.slug market) as [m|] eqn:Hs.
    { exfalso. apply Hin. by eexists. }
    split; [by rewrite lookup_insert_eq|].
    intros s m Hm. rewrite lookup_insert_ne; [done|]. congruence.
Qed.

Lemma mark_market_entered_lookup s s' t queue :
  MarketQueue.status <$> MarketQueue.mark_market_entered s t queue !! s'
  = if decide (s = s') then (fun _ => "entered") <$> queue !! s'
    else MarketQueue.status <$> queue !! s'.
Proof.
  unfold MarketQueue.mark_market_entered.
  destruct (decide (s = s')) as [->|Hne].
  - rewrite lookup_alter_eq. by destruct (queue !! s').
  - by rewrite lookup_alter_ne.
Qed.

(** What marking a TradingBot.registered now market does to the queue. *)
Lemma entered_queue market queue :
  let marked :=
    MarketQueue.mark_market_entered (EntryStrategy.slug market) now
      (TradingBot.registered now market queue) in
  MarketQueue.status <$> marked !! EntryStrategy.slug market = Some "entered"
  /\ (forall s, is_Some (queue !! s) -> is_Some (marked !! s))
  /\ (forall s, MarketQueue.status <$> queue !! s = Some "entered" ->
        MarketQueue.status <$> marked !! s = Some "entered").
Proof.
  intros marked. subst marked.
  destruct (registered_lookup market queue) as [[m Hm] Hkeep].
  split; [|split].
  - by rewrite mark_market_entered_lookup, decide_True, Hm.
  - intros s [m' Hs]. apply Hkeep in Hs.
    apply fmap_is_Some with (f := MarketQueue.status).
    rewrite mark_market_entered_lookup. rewrite Hs. by case_decide.
  - intros s Hs. rewrite mark_market_entered_lookup.
    destruct (queue !! s) as [m'|] eqn:Hq; [|done].
    apply Hkeep in Hq. rewrite Hq. simpl in *. by case_decide.
Qed.

Lemma registered_queue market queue :
  is_Some (TradingBot.registered now market queue !! EntryStrategy.slug market)
  /\ (forall s, is_Some (queue !! s) -> is_Some (TradingBot.registered now market queue !! s))
  /\ (forall s, MarketQueue.status <$> queue !! s = Some "entered" ->
        MarketQueue.status <$> TradingBot.registered now market queue !! s = Some "entered").
Proof.
  destruct (registered_lookup market queue) as [Hm Hkeep].
  split; [done|]. split.
  - intros s [m' Hs]. rewrite (Hkeep _ _ Hs). by eexists.
  - intros s Hs. destruct (queue !! s) as [m'|] eqn:Hq; [|done].
    by rewrite (Hkeep _ _ Hq).
Qed.

Lemma enter_market_outcome c market :
  TradingBot.aborted c = false ->
  TradingBot.entry_outcome entry_size_usd now all_open_orders c market
    (TradingBot.enter_market client entry_size_usd now all_open_orders c market).
Proof.
  intros Hrun. unfold TradingBot.enter_market. rewrite Hrun.
  change (if MarketQueue.has_market _ _ then _ else _)
    with (TradingBot.registered now market (TradingBot.market_queue c)).
  destruct (TradingBot.has_open_order _ _) eqn:Hopen; [by constructor|].
  destruct (TradeExecutor.get_token_balance client _ _) as [b|];
    [|by apply TradingBot.balance_raised].
  destruct (Qltb (1 # 100) b); [by apply TradingBot.nothing_to_place|].
  destruct (EntryStrategy.calculate_orders entry_size_usd market)
    as [[|spec orders]|] eqn:Horders; [by apply TradingBot.nothing_to_place| |by apply TradingBot.nothing_to_place].
  destruct (TradeExecutor.place_entry_orders _ _ _ _ _ _)
    as [[order_ids tracked] history] eqn:Hplaced.
  unfold TradeExecutor.place_entry_orders in Hplaced.
  match type of Hplaced with
  | foldl _ ?st ?l = _ =>
      destruct (place_entry_orders_log client now
                  (Some (EntryStrategy.price_cents (EntryStrategy.strong_team market)))
                  l st) as (Hlog & new & Hacc & Hids & _)
  end.
  rewrite Hplaced in Hlog, Hacc, Hids. simpl in Hlog, Hacc, Hids.
  assert (Hlen : length order_ids = length new).
  { rewrite Hids, length_reverse. by rewrite length_fmap. }
  destruct order_ids as [|order_id order_ids].
  - eapply TradingBot.all_refused; [done..|].
    destruct new; [done | discriminate].
  - eapply TradingBot.orders_placed with (order_ids := order_id :: order_ids); [done..|].
    by rewrite Hacc, length_app, Hlen.
Qed.

Lemma enter_market_aborted c market :
  TradingBot.aborted c = true ->
  TradingBot.enter_market client entry_size_usd now all_open_orders c market = c.
Proof. intros Hab. unfold TradingBot.enter_market. by rewrite Hab. Qed.

Lemma place_orders_aborted (markets : list EntryStrategy.Market) c :
  TradingBot.aborted c = true ->
  TradingBot.place_orders_for_new_markets client entry_size_usd now all_open_orders
    markets c = c.
Proof.
  intros Hab. unfold TradingBot.place_orders_for_new_markets.
  induction markets as [|market markets IH]; simpl; [done|].
  by rewrite enter_market_aborted.
Qed.

(** The submissions of an iteration. *)
Lemma enter_market_placements c market :
  let c' := TradingBot.enter_market client entry_size_usd now all_open_orders c
              market in
  TradeExecutor.placements (TradingBot.events c')
  = TradeExecutor.placements (TradingBot.events c)
  \/ TradingBot.has_open_order all_open_orders
       (EntryStrategy.token_id (EntryStrategy.strong_team market)) = false
     /\ exists orders,
          EntryStrategy.calculate_orders entry_size_usd market = Some orders
          /\ TradeExecutor.placements (TradingBot.events c')
             = reverse (TradeExecutor.entry_request <$> orders)
                 ++ TradeExecutor.placements (TradingBot.events c).
Proof.
  destruct (TradingBot.aborted c) eqn:Hab.
  { left. by rewrite enter_market_aborted. }
  destruct (enter_market_outcome c market Hab); simpl; eauto.
Qed.

Lemma enter_market_counts c market :
  let c' := TradingBot.enter_market client entry_size_usd now all_open_orders c
              market in
  (length (TradeExecutor.accepted (TradingBot.events c'))
   + TradingBot.new_orders_placed c
   = length (TradeExecutor.accepted (TradingBot.events c))
     + TradingBot.new_orders_placed c')%nat.
Proof.
  destruct (TradingBot.aborted c) eqn:Hab.
  { by rewrite enter_market_aborted. }
  destruct (enter_market_outcome c market Hab) as
    [?|? ? ? Ha|? ? Ha|? ? ? ? ? ? Ha|? ? ? ? ? ? ? Ha]; simpl;
    rewrite ?Ha; lia.
Qed.

Lemma enter_market_queue c market :
  let c' := TradingBot.enter_market client entry_size_usd now all_open_orders c
              market in
  (forall s, is_Some (TradingBot.market_queue c !! s) ->
     is_Some (TradingBot.market_queue c' !! s))
  /\ (forall s,
        MarketQueue.status <$> TradingBot.market_queue c !! s = Some "entered" ->
        MarketQueue.status <$> TradingBot.market_queue c' !! s = Some "entered")
  /\ (TradingBot.aborted c = false ->
      is_Some (TradingBot.market_queue c' !! EntryStrategy.slug market))
  /\ (forall s, s ∈ TradingBot.markets_with_orders c' ->
        s ∈ TradingBot.markets_with_orders c
        \/ MarketQueue.status <$> TradingBot.market_queue c' !! s = Some "entered").
Proof.
  destruct (TradingBot.aborted c) eqn:Hab.
  { rewrite enter_market_aborted by done. repeat split; auto. done. }
  destruct (entered_queue market (TradingBot.market_queue c)) as (He & Hk & Hs).
  destruct (registered_queue market (TradingBot.market_queue c)) as (Hr & Hk' & Hs').
  assert (Hin : is_Some (MarketQueue.mark_market_entered (EntryStrategy.slug market)
                           now (TradingBot.registered now market (TradingBot.market_queue c))
                         !! EntryStrategy.slug market)).
  { apply fmap_is_Some with (f := MarketQueue.status). by rewrite He. }
  destruct (enter_market_outcome c market Hab); simpl;
    (split; [done|]); (split; [done|]); (split; [done|]); try (by left).
  intros s [->%elem_of_singleton|Hold]%elem_of_union; [by right | by left].
Qed.
End step2_facts.

(** X24 — step 2 submits only the entry buys of the strategy.  The
    submissions of the loop over the scanned markets are limit buys taken
    from [calculate_orders] for scanned markets that have no open BUY order
    on the strong team's token in the snapshot; there are at most two per
    scanned market, and nothing is ever sold. *)
Theorem step2_submits_only_entry_buys
    (client : TradeExecutor.Client) (entry_size_usd : Q) (now : Z)
    (all_open_orders : list TradeExecutor.OpenOrder)
    (markets : list EntryStrategy.Market) (c : TradingBot.Cycle) :
  let c' := TradingBot.place_orders_for_new_markets client entry_size_usd now
              all_open_orders markets c in
  exists new,
    TradeExecutor.placements (TradingBot.events c')
    = new ++ TradeExecutor.placements (TradingBot.events c)
    /\ (length new <= 2 * length markets)%nat
    /\ Forall (fun request =>
                 TradeExecutor.request_side request = "BUY"
                 /\ exists market orders spec,
                      market ∈ markets
                      /\ TradingBot.has_open_order all_open_orders
                           (EntryStrategy.token_id (EntryStrategy.strong_team market))
                         = false
                      /\ EntryStrategy.calculate_orders entry_size_usd market
                         = Some orders
                      /\ spec ∈ orders
                      /\ request = TradeExecutor.entry_request spec) new.
Proof.
  intros c'. subst c'. unfold TradingBot.place_orders_for_new_markets.
  revert c. induction markets as [|market markets IH]; intros c; simpl.
  - exists []. repeat split; [simpl; lia | constructor].
  - destruct (IH (TradingBot.enter_market client entry_size_usd now all_open_orders
                    c market)) as (new & Hlog & Hlen & Hall).
    assert (Hweak : Forall (fun request =>
                 TradeExecutor.request_side request = "BUY"
                 /\ exists market' orders spec,
                      market' ∈ market :: markets
                      /\ TradingBot.has_open_order all_open_orders
                           (EntryStrategy.token_id (EntryStrategy.strong_team market'))
                         = false
                      /\ EntryStrategy.calculate_orders entry_size_usd market'
                         = Some orders
                      /\ spec ∈ orders
                      /\ request = TradeExecutor.entry_request spec) new).
    { eapply Forall_impl; [exact Hall|].
      intros r (Hside & m & os & sp & Hm & Hrest). split; [done|].
      exists m, os, sp. split; [by apply list_elem_of_further | done]. }
    destruct (enter_market_placements client entry_size_usd now all_open_orders
                c market) as [Hsame | (Hopen & orders & Horders & Hplaced)].
    + exists new. rewrite Hlog, Hsame. split; [done|]. split; [lia | done].
    + exists (new ++ reverse (TradeExecutor.entry_request <$> orders)).
      rewrite Hlog, Hplaced, <- app_assoc. split; [done|].
      destruct (calculate_orders_shape _ _ _ Horders)
        as (first & second & -> & _).
      split.
      { rewrite length_app, length_reverse, length_fmap. simpl. lia. }
      apply Forall_app. split; [done|].
      apply Forall_reverse, Forall_fmap, Forall_forall. intros spec Hspec.
      split; [done|].
      exists market, [first; second], spec.
      split; [apply list_elem_of_here | done].
Qed.

(** X25 — the counter of step 2 is the number of accepted orders.  Over
    the loop, [new_orders_placed] grows by exactly the number of
    submissions the venue accepted. *)
Theorem step2_counts_accepted_orders
    (client : TradeExecutor.Client) (entry_size_usd : Q) (now : Z)
    (all_open_orders : list TradeExecutor.OpenOrder)
    (markets : list EntryStrategy.Market) (c : TradingBot.Cycle) :
  let c' := TradingBot.place_orders_for_new_markets client entry_size_usd now
              all_open_orders markets c in
  (length (TradeExecutor.accepted (TradingBot.events c'))
   + TradingBot.new_orders_placed c
   = length (TradeExecutor.accepted (TradingBot.events c))
     + TradingBot.new_orders_placed c')%nat.
Proof.
  intros c'. subst c'. unfold TradingBot.place_orders_for_new_markets.
  revert c. induction markets as [|market markets IH]; intros c; simpl; [lia|].
  specialize (IH (TradingBot.enter_market client entry_size_usd now all_open_orders
                    c market)).
  pose proof (enter_market_counts client entry_size_usd now all_open_orders
                c market) as Hstep.
  simpl in Hstep. lia.
Qed.

Lemma place_orders_queue
    (client : TradeExecutor.Client) (entry_size_usd : Q) (now : Z)
    (all_open_orders : list TradeExecutor.OpenOrder)
    (markets : list EntryStrategy.Market) (c : TradingBot.Cycle) :
  let c' := TradingBot.place_orders_for_new_markets client entry_size_usd now
              all_open_orders markets c in
  (forall s, is_Some (TradingBot.market_queue c !! s) ->
     is_Some (TradingBot.market_queue c' !! s))
  /\ (forall s,
        MarketQueue.status <$> TradingBot.market_queue c !! s = Some "entered" ->
        MarketQueue.status <$> TradingBot.market_queue c' !! s = Some "entered")
  /\ (TradingBot.aborted c' = false ->
      Forall (fun market =>
                is_Some (TradingBot.market_queue c' !! EntryStrategy.slug market))
             markets)
  /\ (forall s, s ∈ TradingBot.markets_with_orders c' ->
        s ∈ TradingBot.markets_with_orders c
        \/ MarketQueue.status <$> TradingBot.market_queue c' !! s = Some "entered").
Proof.
  intros c'. subst c'. unfold TradingBot.place_orders_for_new_markets.
  revert c. induction markets as [|market markets IH]; intros c; simpl.
  - repeat split; auto.
  - destruct (IH (TradingBot.enter_market client entry_size_usd now all_open_orders
                    c market)) as (Hkeep & Hstay & Hall & Hwith).
    destruct (enter_market_queue client entry_size_usd now all_open_orders c market)
      as (Hkeep1 & Hstay1 & Hin1 & Hwith1).
    split; [auto|]. split; [auto|]. split.
    + intros Hrun. constructor; [|auto].
      apply Hkeep, Hin1.
      destruct (TradingBot.aborted c) eqn:Hab; [|done].
      rewrite enter_market_aborted in Hrun by done.
      fold (TradingBot.place_orders_for_new_markets client entry_size_usd now
              all_open_orders markets c) in Hrun.
      rewrite place_orders_aborted in Hrun by done. congruence.
    + intros s Hs. apply Hwith in Hs as [Hs|Hs]; [|by right].
      apply Hwith1 in Hs as [Hs|Hs]; [by left | right; auto].
Qed.

(** X26 — every scanned market ends up in the queue.  Step 2 never removes
    a market from the queue and never takes back the status 'entered';
    when no balance query raised, every scanned market is queued
    afterwards; and every market added to [markets_with_orders] is queued
    with status 'entered'. *)
Theorem step2_queues_scanned_markets
    (client : TradeExecutor.Client) (entry_size_usd : Q) (now : Z)
    (all_open_orders : list TradeExecutor.OpenOrder)
    (markets : list EntryStrategy.Market) (c : TradingBot.Cycle) :
  let c' := TradingBot.place_orders_for_new_markets client entry_size_usd now
              all_open_orders markets c in
  (forall s, is_Some (TradingBot.market_queue c !! s) ->
     is_Some (TradingBot.market_queue c' !! s))
  /\ (forall s,
        MarketQueue.status <$> TradingBot.market_queue c !! s = Some "entered" ->
        MarketQueue.status <$> TradingBot.market_queue c' !! s = Some "entered")
  /\ (TradingBot.aborted c' = false ->
      Forall (fun market =>
                is_Some (TradingBot.market_queue c' !! EntryStrategy.slug market))
             markets)
  /\ (forall s, s ∈ TradingBot.markets_with_orders c' ->
        s ∈ TradingBot.markets_with_orders c
        \/ MarketQueue.status <$> TradingBot.market_queue c' !! s = Some "entered").
Proof.
  apply place_orders_queue.
Qed.

(** X27 — markets that already have an open entry are left alone.  When
    every scanned market has an open BUY order on its strong team's token
    in the snapshot, step 2 asks the venue nothing, leaves the ledger, the
    counter and [markets_with_orders] as they are, and leaves every scanned
    market queued with status 'entered'. *)
Theorem step2_skips_markets_with_open_buy
    (client : TradeExecutor.Client) (entry_size_usd : Q) (now : Z)
    (all_open_orders : list TradeExecutor.OpenOrder)
    (markets : list EntryStrategy.Market) (c : TradingBot.Cycle) :
  TradingBot.aborted c = false ->
  Forall (fun market =>
            TradingBot.has_open_order all_open_orders
              (EntryStrategy.token_id (EntryStrategy.strong_team market)) = true)
         markets ->
  let c' := TradingBot.place_orders_for_new_markets client entry_size_usd now
              all_open_orders markets c in
  TradingBot.events c' = TradingBot.events c
  /\ TradingBot.order_monitor c' = TradingBot.order_monitor c
  /\ TradingBot.new_orders_placed c' = TradingBot.new_orders_placed c
  /\ TradingBot.markets_with_orders c' = TradingBot.markets_with_orders c
  /\ TradingBot.aborted c' = false
  /\ Forall (fun market =>
               MarketQueue.status <$>
                 TradingBot.market_queue c' !! EntryStrategy.slug market
               = Some "entered") markets.
Proof.
  intros Hrun Hopen c'. subst c'. unfold TradingBot.place_orders_for_new_markets.
  revert c Hrun. induction Hopen as [|market markets Hm _ IH]; intros c Hrun; simpl.
  - repeat split; [done | constructor].
  - assert (Hstep : TradingBot.enter_market client entry_size_usd now all_open_orders
                      c market
                    = TradingBot.entered now (EntryStrategy.slug market) c
                        (TradingBot.registered now market (TradingBot.market_queue c))
                        (TradingBot.events c)).
    { unfold TradingBot.enter_market. by rewrite Hrun, Hm. }
    rewrite Hstep.
    destruct (IH (TradingBot.entered now (EntryStrategy.slug market) c
                    (TradingBot.registered now market (TradingBot.market_queue c))
                    (TradingBot.events c)) eq_refl)
      as (He & Ho & Hn & Hw & Ha & Hall).
    split; [by rewrite He|]. split; [by rewrite Ho|].
    split; [by rewrite Hn|]. split; [by rewrite Hw|]. split; [done|].
    constructor; [|done].
    destruct (place_orders_queue client entry_size_usd now
                all_open_orders markets
                (TradingBot.entered now (EntryStrategy.slug market) c
                   (TradingBot.registered now market (TradingBot.market_queue c))
                   (TradingBot.events c))) as (_ & Hstay & _).
    apply Hstay. simpl.
    exact (proj1 (entered_queue now market (TradingBot.market_queue c))).
Qed.

Lemma step2_skips_markets_with_open_buy_witness :
  TradingBot.events
    (TradingBot.place_orders_for_new_markets Samples.accepting (7 # 2) 7
       [Samples.open_buy] [Samples.market] Samples.cycle)
  = [].
Proof.
  apply (step2_skips_markets_with_open_buy Samples.accepting (7 # 2) 7
           [Samples.open_buy] [Samples.market] Samples.cycle).
  - reflexivity.
  - constructor; [reflexivity | constructor].
Defined.

(** ** The exit pass: what is submitted, the counter, the fallback *)

Section exit_pass_facts.
Variable client : TradeExecutor.Client.
Variable now : Z.
Variable already_profitable_markets : gset string.
Variable price_cache : gmap string TradeExecutor.PriceData.

Implicit Types (s : TradeExecutor.Exit) (p : TradeExecutor.Position).

(** An iteration leaves the history of submissions as it is, or adds one
    sell: the unsold size of a position that is neither tiny nor
    excluded. *)
Lemma process_position_placements s p :
  let s' :=
    TradeExecutor.process_position client now already_profitable_markets
      price_cache s p in
  TradeExecutor.placements (TradeExecutor.x_events s')
  = TradeExecutor.placements (TradeExecutor.x_events s)
  \/ exists tp_price,
       TradeExecutor.placements (TradeExecutor.x_events s')
       = TradeExecutor.LimitSell (TradeExecutor.pos_asset p) tp_price
           (TradeExecutor.pos_size p
            - default 0 (TradeExecutor.existing_sell_orders s
                         !! TradeExecutor.pos_asset p))%Q
           :: TradeExecutor.placements (TradeExecutor.x_events s)
       /\ (dust < TradeExecutor.pos_size p
                  - default 0 (TradeExecutor.existing_sell_orders s
                               !! TradeExecutor.pos_asset p))%Q
       /\ (dust <= TradeExecutor.pos_size p)%Q
       /\ (TradeExecutor.pos_slug p ∉ already_profitable_markets)
       /\ (TradeExecutor.resolve_start_price price_cache (TradeExecutor.pos_slug p)
             (TradeExecutor.pos_asset p) (TradeExecutor.x_order_monitor s)
           ≫= TradeExecutor.take_profit_price)
          = Some tp_price.
Proof.
  intros s'. subst s'. unfold TradeExecutor.process_position.
  destruct (Qltb (TradeExecutor.pos_size p) dust) eqn:Htiny; [by left|].
  case_bool_decide as Hskip; [by left|].
  destruct (Qle_bool _ dust) eqn:Hunsold; [by left|].
  destruct (negb _); [by left|].
  destruct (_ ≫= TradeExecutor.take_profit_price) as [tp|] eqn:Htp; [|by left].
  right. exists tp. split; [|split; [|split; [|split]]].
  - unfold TradeExecutor.place_take_profit_orders.
    destruct (TradeExecutor.place_limit client _ _) as [[oid|]|]; simpl;
      [by destruct (negb _) | done | done].
  - apply Qnot_le_lt. intros Hle. apply Qle_bool_iff in Hle. congruence.
  - by apply Qltb_ge.
  - done.
  - done.
Qed.

(** An iteration counts at most what the venue accepted, and exactly that
    when the venue hands out no empty order id. *)
Lemma process_position_counts s p :
  let s' :=
    TradeExecutor.process_position client now already_profitable_markets
      price_cache s p in
  (TradeExecutor.tp_placed s' + length (TradeExecutor.accepted (TradeExecutor.x_events s))
   <= TradeExecutor.tp_placed s
      + length (TradeExecutor.accepted (TradeExecutor.x_events s')))%nat
  /\ (TradeExecutor.tp_placed s <= TradeExecutor.tp_placed s')%nat
  /\ ((forall h r, TradeExecutor.place_limit client h r
                   <> TradeExecutor.Returned (Some EmptyString)) ->
      (TradeExecutor.tp_placed s'
       + length (TradeExecutor.accepted (TradeExecutor.x_events s))
       = TradeExecutor.tp_placed s
         + length (TradeExecutor.accepted (TradeExecutor.x_events s')))%nat).
Proof.
  intros s'. subst s'. unfold TradeExecutor.process_position.
  destruct (Qltb (TradeExecutor.pos_size p) dust); [lia|].
  case_bool_decide; [lia|].
  destruct (Qle_bool _ dust); [lia|].
  destruct (negb _); [lia|].
  destruct (_ ≫= TradeExecutor.take_profit_price) as [tp|]; [|lia].
  unfold TradeExecutor.place_take_profit_orders.
  destruct (TradeExecutor.place_limit client _ _) as [[oid|]|] eqn:Hresp; simpl;
    [|lia..].
  destruct (decide (oid = EmptyString)) as [->|Hoid].
  - simpl. split; [lia|]. split; [lia|]. intros Hids. by apply Hids in Hresp.
  - rewrite bool_decide_eq_false_2 by done. simpl. lia.
Qed.

Lemma positions_placements (all ps : list TradeExecutor.Position) s :
  Forall (fun p => p ∈ all) ps ->
  let s' :=
    foldl (TradeExecutor.process_position client now already_profitable_markets
             price_cache) s ps in
  exists new,
    TradeExecutor.placements (TradeExecutor.x_events s')
    = new ++ TradeExecutor.placements (TradeExecutor.x_events s)
    /\ (length new <= length ps)%nat
    /\ Forall (fun request =>
                 exists p tp_price position_size,
                   p ∈ all
                   /\ request = TradeExecutor.LimitSell (TradeExecutor.pos_asset p)
                                  tp_price position_size
                   /\ (dust < position_size)%Q
                   /\ (dust <= TradeExecutor.pos_size p)%Q
                   /\ TradeExecutor.pos_slug p ∉ already_profitable_markets) new.
Proof.
  intros Hall. revert s. induction Hall as [|p ps Hp _ IH]; intros s; simpl.
  - exists []. repeat split; [simpl; lia | constructor].
  - destruct (IH (TradeExecutor.process_position client now
                    already_profitable_markets price_cache s p))
      as (new & Hlog & Hlen & Hnew).
    destruct (process_position_placements s p)
      as [Hsame | (tp & Hsold & Hsize & Hpos & Hslug & _)].
    + exists new. rewrite Hlog, Hsame. split; [done|]. split; [lia | done].
    + eexists (new ++ [_]). rewrite Hlog, Hsold, <- app_assoc.
      split; [done|]. split; [rewrite length_app; simpl; lia|].
      apply Forall_app. split; [done|]. constructor; [|constructor].
      by eexists p, tp, _.
Qed.

Lemma positions_counts (ps : list TradeExecutor.Position) s :
  let s' :=
    foldl (TradeExecutor.process_position client now already_profitable_markets
             price_cache) s ps in
  (TradeExecutor.tp_placed s' + length (TradeExecutor.accepted (TradeExecutor.x_events s))
   <= TradeExecutor.tp_placed s
      + length (TradeExecutor.accepted (TradeExecutor.x_events s')))%nat
  /\ ((forall h r, TradeExecutor.place_limit client h r
                   <> TradeExecutor.Returned (Some EmptyString)) ->
      (TradeExecutor.tp_placed s'
       + length (TradeExecutor.accepted (TradeExecutor.x_events s))
       = TradeExecutor.tp_placed s
         + length (TradeExecutor.accepted (TradeExecutor.x_events s')))%nat).
Proof.
  revert s. induction ps as [|p ps IH]; intros s; simpl; [lia|].
  destruct (IH (TradeExecutor.process_position client now
                  already_profitable_markets price_cache s p)) as [Hle Heq].
  destruct (process_position_counts s p) as (Hle1 & _ & Heq1). simpl in *.
  split; [lia|]. intros Hids. specialize (Heq Hids). specialize (Heq1 Hids). lia.
Qed.
End exit_pass_facts.

(** X28 — the exit pass only sells, once per position at most.  Every
    submission of [check_filled_positions_and_set_tp] is a limit sell on
    the token of a listed position whose size is at least 0.1 and whose
    market is not in [already_profitable_markets], for a size above 0.1;
    there are at most as many submissions as positions. *)
Theorem exit_pass_only_sells_listed_positions
    (client : TradeExecutor.Client) (now : Z)
    (already_profitable_markets : gset string)
    (price_cache : gmap string TradeExecutor.PriceData)
    (all_positions : list TradeExecutor.Position)
    (all_open_orders : list TradeExecutor.OpenOrder)
    (tracked : OrderMonitor.tracked_orders) (history : list TradeExecutor.Event) :
  let final :=
    TradeExecutor.check_filled_positions_and_set_tp client now
      already_profitable_markets price_cache all_positions all_open_orders
      tracked history in
  exists new,
    TradeExecutor.placements (TradeExecutor.x_events final)
    = new ++ TradeExecutor.placements history
    /\ (length new <= length all_positions)%nat
    /\ Forall (fun request =>
                 exists p tp_price position_size,
                   p ∈ all_positions
                   /\ request = TradeExecutor.LimitSell (TradeExecutor.pos_asset p)
                                  tp_price position_size
                   /\ (dust < position_size)%Q
                   /\ (dust <= TradeExecutor.pos_size p)%Q
                   /\ TradeExecutor.pos_slug p ∉ already_profitable_markets) new.
Proof.
  intros final. subst final.
  unfold TradeExecutor.check_filled_positions_and_set_tp.
  destruct all_positions as [|p ps] eqn:Hps.
  - exists []. repeat split; [simpl; lia | constructor].
  - rewrite <- Hps.
    match goal with
    | |- context [foldl _ ?s all_positions] =>
        apply (positions_placements client now already_profitable_markets
                 price_cache all_positions all_positions s)
    end.
    by apply Forall_forall.
Qed.

(** X29 — the exit pass counts the sells the venue accepted.  For a venue
    that hands out no empty order id, the number of accepted submissions
    grows over the pass by exactly the returned [tp_placed]. *)
Theorem tp_placed_counts_accepted_sells
    (client : TradeExecutor.Client) (now : Z)
    (already_profitable_markets : gset string)
    (price_cache : gmap string TradeExecutor.PriceData)
    (all_positions : list TradeExecutor.Position)
    (all_open_orders : list TradeExecutor.OpenOrder)
    (tracked : OrderMonitor.tracked_orders) (history : list TradeExecutor.Event) :
  (forall h r, TradeExecutor.place_limit client h r
               <> TradeExecutor.Returned (Some EmptyString)) ->
  let final :=
    TradeExecutor.check_filled_positions_and_set_tp client now
      already_profitable_markets price_cache all_positions all_open_orders
      tracked history in
  length (TradeExecutor.accepted (TradeExecutor.x_events final))
  = (length (TradeExecutor.accepted history) + TradeExecutor.tp_placed final)%nat.
Proof.
  intros Hids final. subst final.
  unfold TradeExecutor.check_filled_positions_and_set_tp.
  destruct all_positions as [|p ps] eqn:Hps; [simpl; lia|].
  match goal with
  | |- context [foldl _ ?s (p :: ps)] =>
      destruct (positions_counts client now already_profitable_markets
                  price_cache (p :: ps) s) as [_ Heq]
  end.
  specialize (Heq Hids). simpl in *. lia.
Qed.

Lemma tp_placed_counts_accepted_sells_witness :
  length (TradeExecutor.accepted
            (TradeExecutor.x_events
               (TradeExecutor.check_filled_positions_and_set_tp Samples.accepting 7
                  ∅ {[ PriceCache.cache_key "S" "T" := Samples.full_entry ]}
                  [Samples.position (10 # 1)] [] [] [])))
  = (length (TradeExecutor.accepted [])
     + TradeExecutor.tp_placed
         (TradeExecutor.check_filled_positions_and_set_tp Samples.accepting 7
            ∅ {[ PriceCache.cache_key "S" "T" := Samples.full_entry ]}
            [Samples.position (10 # 1)] [] [] []))%nat.
Proof.
  apply (tp_placed_counts_accepted_sells Samples.accepting 7 ∅
           {[ PriceCache.cache_key "S" "T" := Samples.full_entry ]}
           [Samples.position (10 # 1)] [] [] []).
  intros h r. simpl.
  destruct (TradeExecutor.placements h) as [|? [|? ?]]; discriminate.
Defined.

Section fallback_facts.
Variable token_id : string.

Implicit Types (o : OrderMonitor.TrackedOrder) (l : list OrderMonitor.TrackedOrder).

(** The scan of the tracked orders, in closed form: the last truthy
    strong-team price, the price of the last BUY order on the token, and
    the non-zero entry numbers of the BUY orders on the token. *)
Lemma scan_tracked_closed_form l :
  let buys :=
    filter (fun o => OrderMonitor.token_id o = token_id
                     /\ OrderMonitor.side o = "BUY") l in
  let priced :=
    filter (fun o => truthy_num (OrderMonitor.strong_team_price_cents o) = true) l in
  let acc := foldl (TradeExecutor.scan_tracked token_id) (None, None, ∅) l in
  acc.1.1 = last priced ≫= OrderMonitor.strong_team_price_cents
  /\ acc.1.2 = OrderMonitor.price <$> last buys
  /\ forall n : Z,
       n ∈ acc.2
       <-> n <> 0%Z /\ exists o, o ∈ buys /\ OrderMonitor.entry_number o = Some n.
Proof.
  induction l as [|o l IH] using rev_ind.
  - simpl. split; [done|]. split; [done|]. intros n. split.
    + intros Hn. by apply elem_of_empty in Hn.
    + intros (_ & o & Ho & _). by apply elem_of_nil in Ho.
  - cbv zeta in *. rewrite foldl_app, !filter_app. simpl.
    destruct (foldl (TradeExecutor.scan_tracked token_id) (None, None, ∅) l)
      as [[strong entry_price] numbers].
    simpl in IH. destruct IH as (Hstrong & Hprice & Hnumbers).
    unfold TradeExecutor.scan_tracked.
    assert (Hs : (if truthy_num (OrderMonitor.strong_team_price_cents o)
                  then OrderMonitor.strong_team_price_cents o else strong)
                 = last (filter (fun o => truthy_num
                                   (OrderMonitor.strong_team_price_cents o) = true) l
                         ++ filter (fun o => truthy_num
                                      (OrderMonitor.strong_team_price_cents o) = true)
                              [o])
                   ≫= OrderMonitor.strong_team_price_cents).
    { destruct (truthy_num (OrderMonitor.strong_team_price_cents o)) eqn:Ht.
      - rewrite filter_cons_True by done. rewrite filter_nil, last_snoc. done.
      - rewrite filter_cons_False by congruence.
        rewrite filter_nil, app_nil_r. done. }
    destruct (decide (OrderMonitor.token_id o = token_id
                      /\ OrderMonitor.side o = "BUY")) as [[Htok Hside]|Hnot].
    + rewrite !bool_decide_eq_true_2 by done. simpl.
      rewrite (filter_cons_True (fun o => OrderMonitor.token_id o = token_id
                                          /\ OrderMonitor.side o = "BUY")) by done.
      rewrite filter_nil, last_snoc. split; [done|]. split; [done|].
      intros n.
      assert (Hold : forall o', o' ∈ filter (fun o => OrderMonitor.token_id o = token_id
                                                     /\ OrderMonitor.side o = "BUY") l ->
                o' ∈ filter (fun o => OrderMonitor.token_id o = token_id
                                      /\ OrderMonitor.side o = "BUY") l ++ [o]).
      { intros o' Ho'. apply elem_of_app. by left. }
      assert (Hnew : o ∈ filter (fun o => OrderMonitor.token_id o = token_id
                                          /\ OrderMonitor.side o = "BUY") l ++ [o]).
      { apply elem_of_app. right. apply list_elem_of_here. }
      destruct (OrderMonitor.entry_number o) as [m|] eqn:Hentry.
      * unfold truthy_int. destruct (Z.eqb_spec m 0) as [->|Hm]; simpl.
        -- rewrite Hnumbers. split.
           ++ intros (Hn & o' & Ho' & He). split; [done|]. exists o'. auto.
           ++ intros (Hn & o' & [Ho'| ->%list_elem_of_singleton]%elem_of_app & He).
              ** split; [done|]. by exists o'.
              ** congruence.
        -- rewrite elem_of_union, elem_of_singleton, Hnumbers. split.
           ++ intros [->|(Hn & o' & Ho' & He)].
              ** split; [done|]. by exists o.
              ** split; [done|]. exists o'. auto.
           ++ intros (Hn & o' & [Ho'| ->%list_elem_of_singleton]%elem_of_app & He).
              ** right. split; [done|]. by exists o'.
              ** left. congruence.
      * rewrite Hnumbers. split.
        -- intros (Hn & o' & Ho' & He). split; [done|]. exists o'. auto.
        -- intros (Hn & o' & [Ho'| ->%list_elem_of_singleton]%elem_of_app & He).
           ++ split; [done|]. by exists o'.
           ++ congruence.
    + assert (Hb : bool_decide (OrderMonitor.token_id o = token_id)
                   && bool_decide (OrderMonitor.side o = "BUY") = false).
      { destruct (bool_decide (OrderMonitor.token_id o = token_id)) eqn:H1;
          [|done].
        destruct (bool_decide (OrderMonitor.side o = "BUY")) eqn:H2; [|done].
        apply bool_decide_eq_true_1 in H1, H2. tauto. }
      rewrite Hb. simpl.
      rewrite (filter_cons_False (fun o => OrderMonitor.token_id o = token_id
                                           /\ OrderMonitor.side o = "BUY")) by done.
      rewrite filter_nil, app_nil_r. done.
Qed.
End fallback_facts.

(** X30 — the fallback start price comes from the live orders of the
    market.  When [start_price_from_tracking] finds a start price, its
    entry price is the price of the last live BUY order tracked on the
    token in that market, its strong-team price is the last truthy one
    among the live orders of the market (on any token, of any side), its
    filled entries are the non-zero entry numbers of the live BUY orders on
    the token, each once, and both prices are non-zero. *)
Theorem fallback_start_price_from_live_orders
    (market_slug token_id : string) (tracked : OrderMonitor.tracked_orders)
    (d : TradeExecutor.PriceData) :
  TradeExecutor.start_price_from_tracking market_slug token_id tracked = Some d ->
  let live := OrderMonitor.get_active_orders_by_market market_slug tracked in
  let buys :=
    filter (fun o => OrderMonitor.token_id o = token_id
                     /\ OrderMonitor.side o = "BUY") live in
  let priced :=
    filter (fun o => truthy_num (OrderMonitor.strong_team_price_cents o) = true)
           live in
  TradeExecutor.pd_price d = OrderMonitor.price <$> last buys
  /\ TradeExecutor.pd_strong_team_price_cents d
     = last priced ≫= OrderMonitor.strong_team_price_cents
  /\ truthy_num (TradeExecutor.pd_price d) = true
  /\ truthy_num (TradeExecutor.pd_strong_team_price_cents d) = true
  /\ TradeExecutor.pd_other_keys d = false
  /\ exists numbers,
       TradeExecutor.pd_filled_entry_numbers d = Some numbers
       /\ NoDup numbers
       /\ forall n : Z,
            n ∈ numbers
            <-> n <> 0%Z
                /\ exists o, o ∈ buys /\ OrderMonitor.entry_number o = Some n.
Proof.
  unfold TradeExecutor.start_price_from_tracking.
  pose proof (scan_tracked_closed_form token_id
                (OrderMonitor.get_active_orders_by_market market_slug tracked))
    as Hscan.
  cbv zeta in Hscan.
  destruct (foldl (TradeExecutor.scan_tracked token_id) (None, None, ∅) _)
    as [[strong entry_price] numbers].
  simpl in Hscan. destruct Hscan as (Hstrong & Hprice & Hnumbers).
  destruct (truthy_num entry_price) eqn:Hp; [|done].
  destruct (truthy_num strong) eqn:Hs; [|done].
  intros [= <-]. simpl.
  split; [done|]. split; [done|]. split; [done|]. split; [done|]. split; [done|].
  exists (elements numbers). split; [done|]. split; [apply NoDup_elements|].
  intros n. by rewrite elem_of_elements.
Qed.

Lemma fallback_start_price_from_live_orders_witness :
  TradeExecutor.pd_other_keys
    {| TradeExecutor.pd_price := Some (25 # 100);
       TradeExecutor.pd_strong_team_price_cents := Some (30 # 1);
       TradeExecutor.pd_filled_entry_numbers := Some [2%Z; 1%Z];
       TradeExecutor.pd_other_keys := false |}
  = false.
Proof.
  apply (fallback_start_price_from_live_orders "S" "T" Samples.two_tiers).
  vm_compute. reflexivity.
Defined.
